(** * The PETALE experimentation pipeline: datasets, sampling, training, evaluation

    A shallow embedding of the orchestration core of the repository:
    - [src/src/data/processing/datasets.py]  ([CustomDataset], [PetaleNNDataset]),
    - [src/Datasets/Sampling.py]             ([stratified_sample], [split_train_test]),
    - [src/Training/Trainer.py]              ([Trainer], [NNTrainer]),
    - [src/src/models/custom_torch_base.py]  ([TorchCustomModel.fit]),
    - [src/src/models/abstract_models/han_base_models.py]
                                             (the two hooks of [fit], as [HAN] has them),
    - [src/Evaluation/Evaluator.py]          ([Evaluator.nested_cross_valid]).

    Conventions.
    - A Python call that may raise returns a [result]; a method that mutates
      [self] is a state transformer [M S A := S -> result A * S], so the state
      a raising call leaves behind stays visible.
    - Floating-point numbers are idealised as exact rationals; a value that is
      not finite (nan, and the infinities a division by zero produces) is
      [None].  The square root is a parameter [sqrt].  A string cell is
      converted to a float as Python's [float] reads it.
    - pandas, numpy and torch are outside the repository; the few operations
      the code calls are written out in [Module Pandas] and [Module Numpy]. *)

From Stdlib Require Import Ascii String ZArith QArith Qround Bool Arith List Permutation Lia Lqa.
Import ListNotations.
Close Scope Q_scope.

Set Implicit Arguments.

(* ===================================================================== *)
(** * Part I: definitions                                                 *)
(* ===================================================================== *)

(** ** Python outcomes and a state-and-exception monad *)

Module Py.

Inductive exn : Type :=
| IndexError
| KeyError
| TypeError
| ValueError
| ZeroDivisionError
| AssertionError
| FileNotFoundError
| Exception (msg : string).

Inductive result (A : Type) : Type :=
| Ok (a : A)
| Raise (e : exn).
Arguments Ok {A} a.
Arguments Raise {A} e.

Definition rbind {A B} (r : result A) (k : A -> result B) : result B :=
  match r with
  | Ok a => k a
  | Raise e => Raise e
  end.

Definition is_ok {A} (r : result A) : bool :=
  match r with Ok _ => true | Raise _ => false end.

(** [for x in xs: f x], collecting the values, stopping at the first raise. *)
Fixpoint rmap {A B} (f : A -> result B) (xs : list A) : result (list B) :=
  match xs with
  | [] => Ok []
  | x :: xs' =>
      rbind (f x) (fun y => rbind (rmap f xs') (fun ys => Ok (y :: ys)))
  end.

(** A method of an object of state [S]. *)
Definition M (S A : Type) : Type := S -> result A * S.

Definition ret {S A} (a : A) : M S A := fun s => (Ok a, s).
Definition raise {S A} (e : exn) : M S A := fun s => (Raise e, s).
Definition bind {S A B} (m : M S A) (k : A -> M S B) : M S B :=
  fun s =>
    match m s with
    | (Ok a, s') => k a s'
    | (Raise e, s') => (Raise e, s')
    end.
Definition get {S} : M S S := fun s => (Ok s, s).
Definition modify {S} (f : S -> S) : M S unit := fun s => (Ok tt, f s).
Definition lift {S A} (r : result A) : M S A := fun s => (r, s).

(** [for x in xs: body x]. *)
Fixpoint for_each {S A} (xs : list A) (body : A -> M S unit) : M S unit :=
  match xs with
  | [] => ret tt
  | x :: xs' => bind (body x) (fun _ => for_each xs' body)
  end.

End Py.

Import Py.

Declare Scope py_scope.
Delimit Scope py_scope with py.
Notation "x <- c ;; k" := (bind c (fun x => k))
(at level 61, c at next level, right associativity) : py_scope.
Notation "c ;; k" := (bind c (fun _ => k))
(at level 61, right associativity) : py_scope.

(** ** Numbers: floats as rationals, [None] for a non-finite value *)

Module Numpy.

Definition float : Type := option Q.

Definition fadd (a b : float) : float :=
  match a, b with Some x, Some y => Some (x + y)%Q | _, _ => None end.
Definition fsub (a b : float) : float :=
  match a, b with Some x, Some y => Some (x - y)%Q | _, _ => None end.
Definition fmul (a b : float) : float :=
  match a, b with Some x, Some y => Some (x * y)%Q | _, _ => None end.
(** A float division by zero gives nan or an infinity, never an exception. *)
Definition fdiv (a b : float) : float :=
  match a, b with
  | Some x, Some y => if Qeq_bool y 0 then None else Some (x / y)%Q
  | _, _ => None
  end.
Definition of_nat (n : nat) : float := Some (inject_Z (Z.of_nat n)).

(** Equality of floats as numbers. *)
Definition feq (a b : float) : Prop :=
  match a, b with
  | Some x, Some y => (x == y)%Q
  | None, None => True
  | _, _ => False
  end.

Definition fsum (xs : list float) : float := fold_left fadd xs (Some 0%Q).

(** [numpy.rint]: round to the nearest integer, halves to the even one. *)
Definition rint (q : Q) : Z :=
  let f := Qfloor q in
  match ((q - inject_Z f) ?= 1 # 2)%Q with
  | Lt => f
  | Gt => (f + 1)%Z
  | Eq => if Z.even f then f else (f + 1)%Z
  end.

(** [int(q)]: truncation towards zero. *)
Definition py_int (q : Q) : Z :=
  if Qle_bool 0 q then Qfloor q else Qceiling q.

Section WithSqrt.
Variable sqrt : Q -> Q.

Definition fsqrt (a : float) : float := option_map sqrt a.

(** [numpy.mean]: the sum over the length; nan on an empty array. *)
Definition mean (xs : list float) : float :=
  fdiv (fsum xs) (of_nat (length xs)).

(** [numpy.std]: the population standard deviation (ddof = 0). *)
Definition std (xs : list float) : float :=
  let m := mean xs in
  fsqrt (mean (map (fun x => fmul (fsub x m) (fsub x m)) xs)).
End WithSqrt.

(** *** [float(s)] on a string

    What [astype(float)] and [to_numpy(dtype=float)] apply to a string of an
    object column, for a string of ASCII characters. White space around the
    number is skipped. Then come an optional sign and either [inf],
    [infinity] or [nan] in any case, or a decimal number: digits, with single
    underscores allowed between two digits, an optional point and an optional
    exponent. The number is read exactly. *)

Definition is_space (a : ascii) : bool :=
  let n := nat_of_ascii a in
  ((9 <=? n) && (n <=? 13)) || ((28 <=? n) && (n <=? 32)).

Fixpoint lstrip (s : list ascii) : list ascii :=
  match s with
  | a :: s' => if is_space a then lstrip s' else s
  | [] => []
  end.

Definition strip (s : list ascii) : list ascii :=
  rev (lstrip (rev (lstrip s))).

Definition digit_of (a : ascii) : option Z :=
  let n := nat_of_ascii a in
  if (48 <=? n) && (n <=? 57) then Some (Z.of_nat (n - 48)) else None.

Definition lower (a : ascii) : ascii :=
  let n := nat_of_ascii a in
  if (65 <=? n) && (n <=? 90) then ascii_of_nat (n + 32) else a.

(** The digits that follow a digit, an underscore allowed before each:
    the number read so far, the count of its digits, and what is left. *)
Fixpoint more_digits (acc : Z) (count : nat) (s : list ascii)
  : Z * nat * list ascii :=
  match s with
  | [] => (acc, count, [])
  | a :: s' =>
      match digit_of a with
      | Some d => more_digits (acc * 10 + d) (S count) s'
      | None =>
          match s' with
          | b :: s'' =>
              match digit_of b with
              | Some d =>
                  if Ascii.eqb a "_"
                  then more_digits (acc * 10 + d) (S count) s''
                  else (acc, count, s)
              | None => (acc, count, s)
              end
          | [] => (acc, count, s)
          end
      end
  end.

(** [digitpart ::= digit (["_"] digit)*]. *)
Definition digitpart (acc : Z) (count : nat) (s : list ascii)
  : option (Z * nat * list ascii) :=
  match s with
  | a :: s' =>
      match digit_of a with
      | Some d => Some (more_digits (acc * 10 + d) (S count) s')
      | None => None
      end
  | [] => None
  end.

(** An optional sign: whether it is a minus, and what follows. *)
Definition sign (s : list ascii) : bool * list ascii :=
  match s with
  | a :: s' =>
      if Ascii.eqb a "-" then (true, s')
      else if Ascii.eqb a "+" then (false, s')
      else (false, s)
  | [] => (false, [])
  end.

(** [number ::= [digitpart] "." digitpart | digitpart ["."]]: the digits
    read as one integer, and the count of those after the point. *)
Definition number (s : list ascii) : option (Z * nat * list ascii) :=
  match digitpart 0 0 s with
  | Some (ip, _, rest) =>
      match rest with
      | a :: rest' =>
          if Ascii.eqb a "."
          then match digitpart ip 0 rest' with
               | Some r => Some r
               | None => Some (ip, 0, rest')
               end
          else Some (ip, 0, rest)
      | [] => Some (ip, 0, [])
      end
  | None =>
      match s with
      | a :: rest' => if Ascii.eqb a "." then digitpart 0 0 rest' else None
      | [] => None
      end
  end.

(** [exponent ::= ("e" | "E") [sign] digitpart], or nothing, up to the end
    of the string. *)
Definition exponent (s : list ascii) : option Z :=
  match s with
  | [] => Some 0%Z
  | a :: s' =>
      if Ascii.eqb (lower a) "e"
      then let '(minus, s'') := sign s' in
           match digitpart 0 0 s'' with
           | Some (x, _, []) => Some (if minus then (- x)%Z else x)
           | _ => None
           end
      else None
  end.

(** [float(s)]: [None] is the ValueError on a string that is no number. *)
Definition float_of_str (s : string) : option float :=
  let '(minus, body) := sign (strip (list_ascii_of_string s)) in
  let word := string_of_list_ascii (map lower body) in
  if String.eqb word "inf" || String.eqb word "infinity" || String.eqb word "nan"
  then Some None
  else
    match number body with
    | Some (m, frac, rest) =>
        match exponent rest with
        | Some e =>
            Some (Some ((if minus then - inject_Z m else inject_Z m)
                        * Qpower (10 # 1) (e - Z.of_nat frac))%Q)
        | None => None
        end
    | None => None
    end.

(** A concrete square root for running the model: the largest multiple
    of [2^-26] whose square does not exceed the argument. *)
Definition sqrt_down (q : Q) : Q :=
  (Z.sqrt (Qfloor (q * inject_Z (2 ^ 52))) # (2 ^ 26))%Q.

End Numpy.

(** ** pandas: the operations on frames the repository calls *)

Module Pandas.

(** A value of a frame: a missing value (nan, None), a number or a string. *)
Inductive cell : Type :=
| NaN
| Num (q : Q)
| Str (s : string).

Definition Series : Type := list cell.

(** A Series indexed by column names, as [df.mean()] returns. *)
Definition Labelled : Type := list (string * cell).

(** A frame: the row labels and the columns in order, each as long as
    [index]. *)
Record DataFrame : Type := {
  index : list Z;
  columns : list (string * Series)
}.

Definition isna (c : cell) : bool :=
  match c with NaN => true | _ => false end.
Definition notna (c : cell) : bool := negb (isna c).

Definition cell_eqb (a b : cell) : bool :=
  match a, b with
  | NaN, NaN => true
  | Num x, Num y => Qeq_bool x y
  | Str s, Str t => String.eqb s t
  | _, _ => false
  end.

(** The order used to sort values: numbers by value, strings by code
    point, numbers before strings, the missing value last. *)
Definition cell_leb (a b : cell) : bool :=
  match a, b with
  | Num x, Num y => Qle_bool x y
  | Num _, _ => true
  | Str _, Num _ => false
  | Str s, Str t => String.leb s t
  | Str _, NaN => true
  | NaN, NaN => true
  | NaN, _ => false
  end.

Fixpoint insert_sorted (x : cell) (l : Series) : Series :=
  match l with
  | [] => [x]
  | y :: l' => if cell_leb x y then x :: l else y :: insert_sorted x l'
  end.

Definition sort_cells (l : Series) : Series := fold_right insert_sorted [] l.

(** The distinct values, in order of first appearance ([Series.unique]). *)
Fixpoint unique (s : Series) : Series :=
  match s with
  | [] => []
  | x :: s' => x :: filter (fun y => negb (cell_eqb x y)) (unique s')
  end.

Definition count (x : cell) (s : Series) : nat :=
  length (filter (cell_eqb x) s).

(** [df.copy()]: a frame is a value here, its copy is the same value. *)
Definition copy (df : DataFrame) : DataFrame := df.

(** [df.shape[0]] and [df.columns]. *)
Definition shape0 (df : DataFrame) : nat := length (index df).
Definition column_names (df : DataFrame) : list string := map fst (columns df).

Fixpoint lookup {A} (k : string) (kvs : list (string * A)) : option A :=
  match kvs with
  | [] => None
  | (k', v) :: kvs' => if String.eqb k k' then Some v else lookup k kvs'
  end.

(** [df[c]] and [df[cols]]. *)
Definition getitem (df : DataFrame) (c : string) : result Series :=
  match lookup c (columns df) with
  | Some s => Ok s
  | None => Raise KeyError
  end.

Definition getitems (df : DataFrame) (cols : list string) : result DataFrame :=
  rbind (rmap (fun c => rbind (getitem df c) (fun s => Ok (c, s))) cols)
        (fun cs => Ok {| index := index df; columns := cs |}).

(** The entries of [l] at the positions [pos], in the order of [pos]. *)
Definition picks {A} (pos : list nat) (l : list A) : list A :=
  flat_map (fun i => match nth_error l i with Some x => [x] | None => [] end) pos.

Definition take (pos : list nat) (df : DataFrame) : DataFrame :=
  {| index := picks pos (index df);
     columns := map (fun cs => (fst cs, picks pos (snd cs))) (columns df) |}.

(** A positional index of a frame of [n] rows: [-n .. n-1], negative ones
    counted from the end; anything else is an IndexError. *)
Definition position (n : nat) (i : Z) : result nat :=
  if ((0 <=? i) && (i <? Z.of_nat n))%Z then Ok (Z.to_nat i)
  else if ((- Z.of_nat n <=? i) && (i <? 0))%Z then Ok (Z.to_nat (Z.of_nat n + i))
  else Raise IndexError.

(** [df.iloc[mask]] for a list of positions. *)
Definition iloc (df : DataFrame) (mask : list Z) : result DataFrame :=
  rbind (rmap (position (shape0 df)) mask) (fun pos => Ok (take pos df)).

(** [df.iloc[i]] for one position: that row, labelled by the columns. *)
Definition iloc_row (df : DataFrame) (i : nat) : result Labelled :=
  if i <? shape0 df
  then Ok (map (fun cs => (fst cs, nth i (snd cs) NaN)) (columns df))
  else Raise IndexError.

(** The numbers of a column, missing values skipped; a string is a
    TypeError for the numeric reductions. *)
Fixpoint numbers (s : Series) : result (list Q) :=
  match s with
  | [] => Ok []
  | NaN :: s' => numbers s'
  | Num q :: s' => rbind (numbers s') (fun qs => Ok (q :: qs))
  | Str _ :: _ => Raise TypeError
  end.

Definition Qsum (qs : list Q) : Q := fold_left Qplus qs 0%Q.
Definition Qlen (qs : list Q) : Q := inject_Z (Z.of_nat (length qs)).
Definition Qmean (qs : list Q) : Q := (Qsum qs / Qlen qs)%Q.

(** [Series.mean()] (skipna): nan when no value is present. *)
Definition series_mean (s : Series) : result cell :=
  rbind (numbers s) (fun qs =>
    Ok (match qs with [] => NaN | _ => Num (Qmean qs) end)).

(** [Series.mode()]: the most frequent present values, sorted. *)
Definition series_mode (s : Series) : Series :=
  let vals := filter notna s in
  let d := unique vals in
  let m := fold_right Nat.max 0 (map (fun v => count v vals) d) in
  sort_cells (filter (fun v => count v vals =? m) d).

Definition pad (h : nat) (s : Series) : Series :=
  s ++ repeat NaN (h - length s).

(** [df.mode()]: one column of modes per column, padded with nan to the
    longest; a frame without any mode has no row. *)
Definition mode (df : DataFrame) : DataFrame :=
  let ms := map (fun cs => (fst cs, series_mode (snd cs))) (columns df) in
  let h := fold_right Nat.max 0 (map (fun cs => length (snd cs)) ms) in
  {| index := map Z.of_nat (seq 0 h);
     columns := map (fun cs => (fst cs, pad h (snd cs))) ms |}.

Section WithSqrt.
Variable sqrt : Q -> Q.

(** [Series.std()] (skipna, ddof = 1): nan below two present values. *)
Definition series_std (s : Series) : result cell :=
  rbind (numbers s) (fun qs =>
    Ok (if length qs <? 2 then NaN
        else
          let m := Qmean qs in
          let ss := Qsum (map (fun x => ((x - m) * (x - m))%Q) qs) in
          Num (sqrt (ss / (Qlen qs - 1))%Q))).

End WithSqrt.

(** A reduction applied to every column: [df.mean()], [df.std()]. *)
Definition reduce (f : Series -> result cell) (df : DataFrame) : result Labelled :=
  rmap (fun cs => rbind (f (snd cs)) (fun v => Ok (fst cs, v))) (columns df).

End Pandas.

(** ** [src/src/data/processing/datasets.py]: [CustomDataset], [PetaleNNDataset] *)

Module Datasets.
Import Numpy Pandas.

(** Ordinal encodings: for each categorical column, the code of each of
    its values ([Dict[str, Dict[str, int]]]). *)
Definition Encodings : Type := list (string * list (cell * nat)).

(** A two-dimensional tensor, row by row. *)
Definition Tensor (A : Type) : Type := list (list A).

(** The attributes of a [PetaleNNDataset]. The getters and setters the
    constructor stores ([_get_modes], [_get_mu_and_std], [_set_numerical],
    [_set_categorical]) are fixed by [cont_cols] and [cat_cols] being [None]
    or not, and are the functions of the same names below. *)
Record Dataset : Type := {
  _ids : Series;
  _target : string;
  _train_mask : list Z;
  _valid_mask : option (list Z);
  _test_mask : list Z;
  _original_data : DataFrame;
  _n : nat;
  _y : list float;
  cont_cols : option (list string);
  cat_cols : option (list string);
  _encodings : option Encodings;
  _x_cont : option (Tensor float);
  _x_cat : option (Tensor (option Z))
}.

Definition set_masks (tr : list Z) (va : option (list Z)) (te : list Z)
  (self : Dataset) : Dataset :=
  {| _ids := _ids self; _target := _target self;
     _train_mask := tr; _valid_mask := va; _test_mask := te;
     _original_data := _original_data self; _n := _n self; _y := _y self;
     cont_cols := cont_cols self; cat_cols := cat_cols self;
     _encodings := _encodings self;
     _x_cont := _x_cont self; _x_cat := _x_cat self |}.

Definition set_x_cont (x : Tensor float) (self : Dataset) : Dataset :=
  {| _ids := _ids self; _target := _target self;
     _train_mask := _train_mask self; _valid_mask := _valid_mask self;
     _test_mask := _test_mask self;
     _original_data := _original_data self; _n := _n self; _y := _y self;
     cont_cols := cont_cols self; cat_cols := cat_cols self;
     _encodings := _encodings self;
     _x_cont := Some x; _x_cat := _x_cat self |}.

Definition set_x_cat (x : Tensor (option Z)) (self : Dataset) : Dataset :=
  {| _ids := _ids self; _target := _target self;
     _train_mask := _train_mask self; _valid_mask := _valid_mask self;
     _test_mask := _test_mask self;
     _original_data := _original_data self; _n := _n self; _y := _y self;
     cont_cols := cont_cols self; cat_cols := cat_cols self;
     _encodings := _encodings self;
     _x_cont := _x_cont self; _x_cat := Some x |}.

(** The conversion of a value to a float, in [astype(float)] and in
    [to_numpy(dtype=float)]: a string is read as [float(s)] reads it, and one
    that is no number is a ValueError. *)
Definition to_float (c : cell) : result float :=
  match c with
  | NaN => Ok None
  | Num q => Ok (Some q)
  | Str s =>
      match float_of_str s with
      | Some f => Ok f
      | None => Raise ValueError
      end
  end.

(** A float as a value of a frame. *)
Definition of_float (f : float) : cell :=
  match f with
  | Some q => Num q
  | None => NaN
  end.

Definition to_numpy (df : DataFrame) : result (Tensor float) :=
  rmap (fun i => rmap (fun cs => to_float (nth i (snd cs) NaN)) (columns df))
       (seq 0 (shape0 df)).

(** [tensor.long()]: the integer part; undefined ([None]) on nan. *)
Definition long (x : Tensor float) : Tensor (option Z) :=
  map (map (option_map py_int)) x.

(** *** [src.data.processing.preprocessing] *)

(** The entry of a labelled Series for a column; nan when there is none,
    as pandas aligns a frame with a Series on the column names. *)
Definition label (c : string) (stats : Labelled) : cell :=
  match lookup c stats with Some v => v | None => NaN end.

(** Modelled from the spec: the filling of a missing value in
    [preprocess_continuous] and [preprocess_categoricals], which are not among
    the sources: a missing value takes the training statistic, any other value
    stays. *)
Definition fill (v : cell) (x : cell) : cell :=
  match x with NaN => v | _ => x end.

(** Modelled from the spec: the standardization in [preprocess_continuous],
    which is not among the sources: the value minus the training mean, over the
    training standard deviation, a standard deviation of zero being a scale
    of 1; nan with a missing statistic, a TypeError on a string. *)
Definition standardize (mu sd : cell) (x : cell) : result cell :=
  match x with
  | Str _ => Raise TypeError
  | NaN => Ok NaN
  | Num q =>
      match mu, sd with
      | Num m, Num s =>
          Ok (Num ((q - m) / (if Qeq_bool s 0 then 1 else s))%Q)
      | Str _, _ | _, Str _ => Raise TypeError
      | _, _ => Ok NaN
      end
  end.

(** Modelled from the spec: [preprocess_continuous] of
    [src/data/processing/preprocessing.py], which is not among the sources.
    Every missing value of a continuous column is filled with the training
    mean of the column, then the column is standardized with the training mean
    and standard deviation, a standard deviation of zero being a scale of 1. *)
Definition preprocess_continuous (df : DataFrame) (mu sd : Labelled)
  : result DataFrame :=
  rbind (rmap (fun cs =>
           let m := label (fst cs) mu in
           let s := label (fst cs) sd in
           rbind (rmap (fun x => standardize m s (fill m x)) (snd cs))
                 (fun col => Ok (fst cs, col)))
           (columns df))
        (fun cs => Ok {| index := index df; columns := cs |}).

(** Modelled from the spec: the encoding step of [preprocess_categoricals],
    which is not among the sources: the code the encodings give a value, nan
    for a value they do not list. *)
Fixpoint code_of (v : cell) (enc : list (cell * nat)) : cell :=
  match enc with
  | [] => NaN
  | (v', k) :: enc' =>
      if cell_eqb v v' then Num (inject_Z (Z.of_nat k)) else code_of v enc'
  end.

(** Modelled from the spec: [preprocess_categoricals] of
    [src/data/processing/preprocessing.py], which is not among the sources.
    Every missing value of a categorical column is filled with the training
    mode of the column, then every value is mapped to its code in the
    encodings fixed at construction; the encodings are returned as they
    were given. *)
Definition preprocess_categoricals (df : DataFrame) (mode : Labelled)
  (encodings : option Encodings) : DataFrame * option Encodings :=
  let enc_of c :=
    match encodings with
    | Some e => match lookup c e with Some t => t | None => [] end
    | None => []
    end in
  ({| index := index df;
      columns := map (fun cs =>
                   (fst cs,
                    map (fun x => code_of (fill (label (fst cs) mode) x)
                                          (enc_of (fst cs)))
                        (snd cs)))
                   (columns df) |},
   encodings).

Section CustomDataset.
Variable sqrt : Q -> Q.

(** [get_mu_and_std] of [_define_numerical_stats_getter]. *)
Definition get_mu_and_std (self : Dataset) (df : DataFrame)
  : result (option Labelled * option Labelled) :=
  match cont_cols self with
  | None => Ok (None, None)
  | Some cols =>
      rbind (getitems df cols) (fun sub =>
      rbind (reduce series_mean sub) (fun mu =>
      rbind (getitems df cols) (fun sub' =>
      rbind (reduce (series_std sqrt) sub') (fun sd =>
      Ok (Some mu, Some sd)))))
  end.

(** [get_modes] of [_define_categorical_stats_getter]:
    [df[cat_cols].mode().iloc[0]]. *)
Definition get_modes (self : Dataset) (df : DataFrame)
  : result (option Labelled) :=
  match cat_cols self with
  | None => Ok None
  | Some cols =>
      rbind (getitems df cols) (fun sub =>
      rbind (iloc_row (mode sub) 0) (fun row => Ok (Some row)))
  end.

(** [CustomDataset.current_train_stats]. *)
Definition current_train_stats
  : M Dataset (option Labelled * option Labelled * option Labelled) :=
  (self <- get ;;
   train_data <- lift (iloc (_original_data self) (_train_mask self)) ;;
   mu_std <- lift (get_mu_and_std self train_data) ;;
   modes <- lift (get_modes self train_data) ;;
   ret (fst mu_std, snd mu_std, modes))%py.

Definition stats_or_empty (s : option Labelled) : Labelled :=
  match s with Some l => l | None => [] end.

(** [PetaleNNDataset._numerical_setter], behind [_set_numerical]. *)
Definition _numerical_setter (mu sd : option Labelled) : M Dataset unit :=
  (self <- get ;;
   match cont_cols self with
   | None => ret tt
   | Some cols =>
       sub <- lift (getitems (_original_data self) cols) ;;
       temporary_df <- lift (preprocess_continuous (copy sub)
                               (stats_or_empty mu) (stats_or_empty sd)) ;;
       x <- lift (to_numpy temporary_df) ;;
       modify (set_x_cont x)
   end)%py.

(** [PetaleNNDataset._categorical_setter], behind [_set_categorical]. *)
Definition _categorical_setter (modes : option Labelled) : M Dataset unit :=
  (self <- get ;;
   match cat_cols self with
   | None => ret tt
   | Some cols =>
       sub <- lift (getitems (_original_data self) cols) ;;
       let temporary_df :=
         fst (preprocess_categoricals (copy sub) (stats_or_empty modes)
                                      (_encodings self)) in
       x <- lift (to_numpy temporary_df) ;;
       modify (set_x_cat (long x))
   end)%py.

(** [CustomDataset.update_masks]. *)
Definition update_masks (train_mask test_mask : list Z)
  (valid_mask : option (list Z)) : M Dataset unit :=
  (modify (set_masks train_mask valid_mask test_mask) ;;
   stats <- current_train_stats ;;
   _numerical_setter (fst (fst stats)) (snd (fst stats)) ;;
   _categorical_setter (snd stats))%py.

(** [PARTICIPANT] of [src/data/extraction/constants.py], which is not among
    the sources: the name of the column of patient identifiers. *)
Variable PARTICIPANT : string.

(** [CustomDataset.check_columns_validity]. *)
Definition check_columns_validity (df : DataFrame) (columns : option (list string))
  : result unit :=
  match columns with
  | None => Ok tt
  | Some cols =>
      if forallb (fun c => existsb (String.eqb c) (column_names df)) cols
      then Ok tt else Raise AssertionError
  end.

(** [PetaleNNDataset._initialize_targets]. *)
Definition _initialize_targets (df : DataFrame) (target : string)
  : result (list float) :=
  rbind (getitem df target) (rmap to_float).

(** [Series.cat.categories] after [astype('category')]: the present values,
    sorted; their positions are the ordinal codes. *)
Definition categories (s : Series) : Series :=
  sort_cells (unique (filter notna s)).

Definition enumerate {A} (l : list A) : list (A * nat) :=
  combine l (seq 0 (length l)).

(** The encodings of [_define_categorical_stats_getter]. *)
Definition extract_encodings (df : DataFrame) (cat : option (list string))
  : result (option Encodings) :=
  match cat with
  | None => Ok None
  | Some cols =>
      rbind (rmap (fun c => rbind (getitem df c) (fun s =>
                     Ok (c, enumerate (categories s)))) cols)
            (fun e => Ok (Some e))
  end.

(** [self._original_data[cont_cols] = self._original_data[cont_cols].astype(float)]
    in [_define_numerical_stats_getter]: the frame with its continuous columns
    converted, each in its place; numbers and missing values are kept, a
    string is read as a number or is a ValueError. *)
Definition astype_float (df : DataFrame) (cont : option (list string))
  : result DataFrame :=
  match cont with
  | None => Ok df
  | Some cols =>
      rbind (getitems df cols) (fun sub =>
      rbind (rmap (fun cs => rbind (rmap to_float (snd cs))
                                   (fun fs => Ok (fst cs, map of_float fs)))
                  (columns sub))
            (fun converted =>
               Ok {| index := index df;
                     columns :=
                       map (fun cs => match lookup (fst cs) converted with
                                      | Some col => (fst cs, col)
                                      | None => cs
                                      end)
                           (columns df) |}))
  end.

Definition is_none {A} (o : option A) : bool :=
  match o with None => true | Some _ => false end.

(** [PetaleNNDataset.__init__], through [CustomDataset.__init__]. *)
Definition PetaleNNDataset__init__ (df : DataFrame) (target : string)
  (cont cat : option (list string)) : result Dataset :=
  if negb (existsb (String.eqb PARTICIPANT) (column_names df))
  then Raise AssertionError
  else if is_none cont && is_none cat then Raise AssertionError
  else
    rbind (check_columns_validity df cont) (fun _ =>
    rbind (check_columns_validity df cat) (fun _ =>
    rbind (getitem df PARTICIPANT) (fun ids =>
    rbind (_initialize_targets df target) (fun y =>
    rbind (extract_encodings df cat) (fun enc =>
    rbind (astype_float df cont) (fun data =>
      let self :=
        {| _ids := ids; _target := target;
           _train_mask := []; _valid_mask := None; _test_mask := [];
           _original_data := data; _n := shape0 df; _y := y;
           cont_cols := cont; cat_cols := cat; _encodings := enc;
           _x_cont := None; _x_cat := None |} in
      match update_masks (map Z.of_nat (seq 0 (shape0 df))) [] (Some []) self with
      | (Ok _, self') => Ok self'
      | (Raise e, _) => Raise e
      end)))))).

End CustomDataset.

(** The values the two setters compute before they store them: the
    features as a function of the original data and of the statistics. *)
Definition numerical_features (self : Dataset) (mu sd : option Labelled)
  : result (option (Tensor float)) :=
  match cont_cols self with
  | None => Ok None
  | Some cols =>
      rbind (getitems (_original_data self) cols) (fun sub =>
      rbind (preprocess_continuous (copy sub)
               (stats_or_empty mu) (stats_or_empty sd)) (fun temporary_df =>
      rbind (to_numpy temporary_df) (fun x => Ok (Some x))))
  end.

Definition categorical_features (self : Dataset) (modes : option Labelled)
  : result (option (Tensor (option Z))) :=
  match cat_cols self with
  | None => Ok None
  | Some cols =>
      rbind (getitems (_original_data self) cols) (fun sub =>
      rbind (to_numpy (fst (preprocess_categoricals (copy sub)
                              (stats_or_empty modes) (_encodings self))))
            (fun x => Ok (Some (long x))))
  end.

(** What a setter stores, when its columns are given. *)
Definition store_x_cont (o : option (Tensor float)) (self : Dataset) : Dataset :=
  match o with Some x => set_x_cont x self | None => self end.

Definition store_x_cat (o : option (Tensor (option Z))) (self : Dataset) : Dataset :=
  match o with Some x => set_x_cat x self | None => self end.

(** The statistics of the training rows, as [current_train_stats] computes
    them from the attributes of the dataset. *)
Definition train_stats (sqrt : Q -> Q) (self : Dataset)
  : result (option Labelled * option Labelled * option Labelled) :=
  rbind (iloc (_original_data self) (_train_mask self)) (fun train_data =>
  rbind (get_mu_and_std sqrt self train_data) (fun mu_std =>
  rbind (get_modes self train_data) (fun modes =>
  Ok (fst mu_std, snd mu_std, modes)))).

(** Everything of a dataset but its two feature matrices. *)
Definition same_base (a b : Dataset) : Prop :=
  _ids a = _ids b /\ _target a = _target b /\
  _train_mask a = _train_mask b /\ _valid_mask a = _valid_mask b /\
  _test_mask a = _test_mask b /\
  _original_data a = _original_data b /\ _n a = _n b /\ _y a = _y b /\
  cont_cols a = cont_cols b /\ cat_cols a = cat_cols b /\
  _encodings a = _encodings b.

(** The row of a frame at a position: its label and its cells. *)
Definition row (df : DataFrame) (p : nat)
  : option Z * list (string * option cell) :=
  (nth_error (index df) p,
   map (fun cs => (fst cs, nth_error (snd cs) p)) (columns df)).

(** Two frames with the same columns and as many rows that hold the same
    rows at the positions of a mask; they may differ everywhere else. *)
Definition agree_on (mask : list Z) (df1 df2 : DataFrame) : Prop :=
  shape0 df1 = shape0 df2 /\
  column_names df1 = column_names df2 /\
  forall i p, In i mask -> position (shape0 df1) i = Ok p ->
              row df1 p = row df2 p.

(** Some categorical column holds a value at a row of the mask. *)
Definition any_present (df : DataFrame) : bool :=
  existsb (fun cs => existsb notna (snd cs)) (columns df).

Definition train_rows_have_category (self : Dataset) (train_mask : list Z) : bool :=
  match cat_cols self with
  | None => true
  | Some cols =>
      match rbind (iloc (_original_data self) train_mask)
                  (fun train_data => getitems train_data cols) with
      | Ok sub => any_present sub
      | Raise _ => false
      end
  end.

(** A cell that is no string, and a column of such cells. *)
Definition no_str (c : cell) : bool :=
  match c with Str _ => false | _ => true end.

Definition numeric (s : Series) : bool := forallb no_str s.

Definition has_numeric_columns (df : DataFrame) (cols : list string) : bool :=
  forallb (fun c => match lookup c (columns df) with
                    | Some s => numeric s
                    | None => false
                    end) cols.

Definition has_columns (df : DataFrame) (cols : list string) : bool :=
  forallb (fun c => negb (is_none (lookup c (columns df)))) cols.

(** What the constructor checks of the frame and nothing afterwards changes:
    the continuous columns are columns of the frame and hold no string, the
    categorical columns are columns of the frame. *)
Definition well_formed (self : Dataset) : bool :=
  match cont_cols self with
  | Some cols => has_numeric_columns (_original_data self) cols
  | None => true
  end
  &&
  match cat_cols self with
  | Some cols => has_columns (_original_data self) cols
  | None => true
  end.

(** A reduction that is defined on every numeric column and never yields
    a string. *)
Definition numeric_reduction (f : Series -> result cell) : Prop :=
  forall s, numeric s = true -> exists v, f s = Ok v /\ no_str v = true.

(** A frame whose columns hold no string, and statistics that hold none. *)
Definition numeric_frame (df : DataFrame) : Prop :=
  Forall (fun cs => numeric (snd cs) = true) (columns df).

Definition clean (stats : Labelled) : Prop :=
  Forall (fun kv => no_str (snd kv) = true) stats.

(** The positional indices [iloc] accepts on a frame of [n] rows. *)
Definition in_range (n : nat) (i : Z) : bool :=
  ((- Z.of_nat n <=? i) && (i <? Z.of_nat n))%Z.

(** What the spec asks [update_masks] to reject. *)
Definition masks_invalid (n : nat) (train test : list Z)
  (valid : option (list Z)) : bool :=
  negb (forallb (in_range n) train)
  || negb (forallb (in_range n) test)
  || negb (forallb (in_range n) (match valid with Some v => v | None => [] end))
  || existsb (fun i => existsb (Z.eqb i) test) train.

(** *** [PetaleNNDataset.__getitem__] and [__len__] *)

(** [t[idx]] along the first dimension of a tensor, for an integer: a
    negative index counts from the end, an index outside is an IndexError. *)
Definition tensor_at {A} (t : list A) (idx : Z) : result A :=
  rbind (position (length t) idx) (fun p =>
    match nth_error t p with
    | Some a => Ok a
    | None => Raise IndexError
    end).

(** [self._x_cont[idx, :]] and [self._x_cat[idx, :]]: a row of the matrix;
    an attribute that is still [None] cannot be subscripted. *)
Definition matrix_row {A} (x : option (Tensor A)) (idx : Z) : result (list A) :=
  match x with
  | Some t => tensor_at t idx
  | None => Raise TypeError
  end.

(** [PetaleNNDataset._define_item_getter], for an integer index as a data
    loader passes it: one of three getters, by [cont_cols] and [cat_cols]
    being [None] or not; [empty(0)] is the empty row. *)
Definition _define_item_getter (cont_cols cat_cols : option (list string))
  (self : Dataset) (idx : Z) : result (list float * list (option Z) * float) :=
  match cont_cols, cat_cols with
  | None, _ =>
      rbind (matrix_row (_x_cat self) idx) (fun c =>
      rbind (tensor_at (_y self) idx) (fun y => Ok ([], c, y)))
  | Some _, None =>
      rbind (matrix_row (_x_cont self) idx) (fun x =>
      rbind (tensor_at (_y self) idx) (fun y => Ok (x, [], y)))
  | Some _, Some _ =>
      rbind (matrix_row (_x_cont self) idx) (fun x =>
      rbind (matrix_row (_x_cat self) idx) (fun c =>
      rbind (tensor_at (_y self) idx) (fun y => Ok (x, c, y))))
  end.

(** [PetaleNNDataset.__getitem__]: the getter the constructor stored, which
    is the one of the column lists of the dataset. *)
Definition PetaleNNDataset__getitem__ (self : Dataset) (idx : Z)
  : result (list float * list (option Z) * float) :=
  _define_item_getter (cont_cols self) (cat_cols self) self idx.

(** [CustomDataset.__len__]. *)
Definition CustomDataset__len__ (self : Dataset) : nat := _n self.

(** A frame as pandas keeps it: every column as long as the index. *)
Definition rectangular (df : DataFrame) : bool :=
  forallb (fun cs => length (snd cs) =? shape0 df) (columns df).

(** The columns of a list are columns of the frame; no list asks nothing. *)
Definition listed (df : DataFrame) (cols : option (list string)) : bool :=
  match cols with
  | None => true
  | Some cs => forallb (fun c => existsb (String.eqb c) (column_names df)) cs
  end.

(** The columns of a list; none without a list. *)
Definition listing (cols : option (list string)) : list string :=
  match cols with Some l => l | None => [] end.


(** An outcome without its value. *)
Definition outcome_of {A} (r : result A) : result unit :=
  match r with
  | Ok _ => Ok tt
  | Raise e => Raise e
  end.





End Datasets.

(** ** [src/Datasets/Sampling.py]: [stratified_sample], [split_train_test] *)

Module Sampling.
Import Numpy Pandas.

(** [df[name] = column]: replaces the column of that name or appends one. *)
Fixpoint set_column (name : string) (col : Series)
  (cols : list (string * Series)) : list (string * Series) :=
  match cols with
  | [] => [(name, col)]
  | (c, s) :: cols' =>
      if String.eqb c name then (name, col) :: cols'
      else (c, s) :: set_column name col cols'
  end.

Definition assign (name : string) (col : Series) (df : DataFrame) : DataFrame :=
  {| index := index df; columns := set_column name col (columns df) |}.

(** [df.drop([name], axis=1, errors='ignore')]. *)
Definition drop_column (name : string) (df : DataFrame) : DataFrame :=
  {| index := index df;
     columns := filter (fun cs => negb (String.eqb (fst cs) name)) (columns df) |}.

(** [df.drop(labels)]: the rows whose label is none of [labels]. *)
Definition kept_positions (labels idx : list Z) : list nat :=
  filter (fun p => match nth_error idx p with
                   | Some l => negb (existsb (Z.eqb l) labels)
                   | None => false
                   end)
         (seq 0 (length idx)).

Definition drop (labels : list Z) (df : DataFrame) : result DataFrame :=
  if forallb (fun l => existsb (Z.eqb l) (index df)) labels
  then Ok (take (kept_positions labels (index df)) df)
  else Raise KeyError.

(** The positions of the rows whose key is [g]. *)
Definition positions_of (g : cell) (keys : Series) : list nat :=
  filter (fun p => match nth_error keys p with
                   | Some k => cell_eqb g k
                   | None => false
                   end)
         (seq 0 (length keys)).

(** [df.groupby(key)]: one group per present key, the keys sorted; a group
    is the ascending list of the positions of its rows. *)
Definition group_keys (keys : Series) : Series :=
  sort_cells (unique (filter notna keys)).

Definition groupby (keys : Series) : list (cell * list nat) :=
  map (fun g => (g, positions_of g keys)) (group_keys keys).

Section Resampling.

(** The state of a numpy random generator and [permutation(n)], which
    returns the integers below [n] in some order. *)
Variable rng : Type.
Variable permutation : rng -> nat -> list nat * rng.

(** [pd.qcut(x, q, labels=False)]: the quantile bucket of every value, nan
    for a missing one; a ValueError when two bucket edges coincide. *)
Variable qcut : Series -> nat -> result Series.

(** A draw with [random_state]: a generator seeded afresh when a seed is
    given, the process-wide generator (the state of the monad) otherwise. *)
Definition draw (random_state : option rng) (n : nat) : M rng (list nat) :=
  match random_state with
  | Some seeded => ret (fst (permutation seeded n))
  | None => fun g => (Ok (fst (permutation g n)), snd (permutation g n))
  end.

(** [x.sample(k, random_state=...)] on the rows at positions [x]: [k] of
    them, without replacement. *)
Definition sample_n (x : list nat) (k : Z) (random_state : option rng)
  : M rng (list nat) :=
  if (Z.of_nat (length x) <? k)%Z then raise ValueError
  else
    (perm <- draw random_state (length x) ;;
     ret (picks (firstn (Z.to_nat k) perm) x))%py.

(** [x.sample(frac=1, random_state=...)]: all the rows, shuffled. *)
Definition shuffle (x : list nat) (random_state : option rng)
  : M rng (list nat) :=
  (perm <- draw random_state (length x) ;;
   ret (picks perm x))%py.

(** The size drawn from a group of [len_x] rows among [len_sample]:
    [int(np.rint(n*len(x)/len(sample)))]. *)
Definition stratum_size (n : Q) (len_x len_sample : nat) : Z :=
  rint ((n * inject_Z (Z.of_nat len_x)) / inject_Z (Z.of_nat len_sample))%Q.

(** [groupby(...).apply(lambda x: x.sample(...))]: the draws of the groups,
    concatenated in the order of the groups. *)
Fixpoint apply_sample (groups : list (cell * list nat)) (n : Q)
  (len_sample : nat) (random_state : option rng) : M rng (list nat) :=
  match groups with
  | [] => ret []
  | (_, x) :: groups' =>
      (drawn <- sample_n x (stratum_size n (length x) len_sample) random_state ;;
       rest <- apply_sample groups' n len_sample random_state ;;
       ret (drawn ++ rest))%py
  end.

Definition Qlt_bool (a b : Q) : bool := negb (Qle_bool b a).

(** The sample size after the first lines of [stratified_sample]: a
    negative one is refused, one strictly between 0 and 1 is a fraction of
    the rows. *)
Definition sample_size (n : Q) (rows : nat) : result Q :=
  if Qlt_bool n 0 then Raise (Exception "n must be greater than 0")
  else if Qlt_bool 0 n && Qlt_bool n 1
       then Ok (inject_Z (py_int (n * inject_Z (Z.of_nat rows))))
       else Ok n.

(** The column the rows are grouped on, and the frame that holds it: the
    target itself, or its quantile buckets in a new column [quantiles] when
    it has more than 10 distinct values. *)
Definition stratification (sample : DataFrame) (target_col : string)
  (quantiles : nat) : result (DataFrame * Series) :=
  rbind (getitem sample target_col) (fun target =>
    if 10 <? length (unique target)
    then rbind (qcut target quantiles) (fun buckets =>
           Ok (assign "quantiles" buckets sample, buckets))
    else Ok (sample, target)).

(** [stratified_sample]. The rows of the result are the rows of [sample]
    at the positions [pos], in that order. *)
Definition stratified_sample (df : DataFrame) (target_col : string)
  (n : Q) (quantiles : nat) (random_state : option rng)
  : M rng DataFrame :=
  if negb (existsb (String.eqb target_col) (column_names df))
  then raise (Exception "Target column not part of the dataframe")
  else
    (n' <- lift (sample_size n (shape0 df)) ;;
     let sample := copy df in
     st <- lift (stratification sample target_col quantiles) ;;
     drawn <- apply_sample (groupby (snd st)) n' (shape0 (fst st)) random_state ;;
     pos <- shuffle drawn random_state ;;
     ret (drop_column "quantiles" (take pos (fst st))))%py.

(** [split_train_test]. *)
Definition split_train_test (df : DataFrame) (target_col : string)
  (test_size : Q) (random_state : option rng)
  : M rng (DataFrame * DataFrame) :=
  (test_data <- stratified_sample df target_col test_size 4 random_state ;;
   train_data <- lift (drop (index test_data) df) ;;
   ret (train_data, test_data))%py.

End Resampling.

(** Keys that are told apart by [cell_eqb], none of them twice. *)
Definition keys_apart (ks : Series) : Prop :=
  NoDup ks /\
  forall a b, In a ks -> In b ks -> cell_eqb a b = true -> a = b.

(** What the draws of the groups are, group by group. *)
Definition draws_of (keys : Series) (n : Q) (len_sample : nat)
  (ks : Series) (ds : list (list nat)) : Prop :=
  Forall2 (fun k d =>
             Z.of_nat (length d) = stratum_size n (count k keys) len_sample /\
             NoDup d /\ incl d (positions_of k keys)) ks ds.

(** A generator and a bucketing to run the model with: the generator
    counts its draws and returns the identity on even counts, its reverse on
    odd ones; the buckets are those of the ranks of the values. *)
Definition reversal (g n : nat) : list nat * nat :=
  (if Nat.even g then seq 0 n else rev (seq 0 n), S g).

Definition rank_qcut (x : Series) (q : nat) : result Series :=
  let present := sort_cells (filter notna x) in
  let m := length present in
  Ok (map (fun v =>
             match v with
             | NaN => NaN
             | _ =>
                 let below := length (filter (fun w => negb (cell_leb v w)) present) in
                 Num (inject_Z (Z.of_nat ((below * q) / m)))
             end) x).

End Sampling.

(** ** [src/src/data/processing/datasets.py]: [PetaleRFDataset], [PetaleGNNDataset] *)

Module ForestDatasets.
Import Numpy Pandas Datasets Sampling.

(** The attributes of a [PetaleRFDataset]: those of [CustomDataset], kept
    as a [Dataset] whose two matrices are never set, and the frame [_x]. *)
Record RFDataset : Type := {
  base : Dataset;
  _x : DataFrame
}.

Definition set_x (x : DataFrame) (self : RFDataset) : RFDataset :=
  {| base := base self; _x := x |}.

Definition on_base (f : Dataset -> Dataset) (self : RFDataset) : RFDataset :=
  {| base := f (base self); _x := _x self |}.

(** [df.drop(labels, axis=1)]: the frame without the columns [labels]; a
    label that is no column is a KeyError. *)
Definition drop_columns (labels : list string) (df : DataFrame) : result DataFrame :=
  if forallb (fun l => existsb (String.eqb l) (column_names df)) labels
  then Ok {| index := index df;
             columns := filter (fun cs => negb (existsb (String.eqb (fst cs)) labels))
                               (columns df) |}
  else Raise KeyError.

(** [df[keys] = value] for a list of keys and a frame on the same index:
    the columns of [value] are assigned to the keys one by one, in order; a
    ValueError when there are not as many columns as keys. *)
Definition setitems (keys : list string) (value : DataFrame) (df : DataFrame)
  : result DataFrame :=
  if length keys =? length (columns value)
  then Ok (fold_left (fun d kc => assign (fst kc) (snd (snd kc)) d)
                     (combine keys (columns value)) df)
  else Raise ValueError.

Section PetaleRFDataset.
Variable sqrt : Q -> Q.
Variable PARTICIPANT : string.

(** [CustomDataset.current_train_stats] on the attributes of the base. *)
Definition RF_current_train_stats
  : M RFDataset (option Labelled * option Labelled * option Labelled) :=
  fun self =>
    let '(r, b) := current_train_stats sqrt (base self) in
    (r, {| base := b; _x := _x self |}).

(** [PetaleRFDataset._numerical_setter], behind [_set_numerical]. *)
Definition RF_numerical_setter (mu sd : option Labelled) : M RFDataset unit :=
  (self <- get ;;
   match cont_cols (base self) with
   | None => ret tt
   | Some cols =>
       sub <- lift (getitems (_original_data (base self)) cols) ;;
       temporary_df <- lift (preprocess_continuous (copy sub)
                               (stats_or_empty mu) (stats_or_empty sd)) ;;
       x <- lift (setitems cols temporary_df (_x self)) ;;
       modify (set_x x)
   end)%py.

(** [PetaleRFDataset._categorical_setter], behind [_set_categorical]. *)
Definition RF_categorical_setter (modes : option Labelled) : M RFDataset unit :=
  (self <- get ;;
   match cat_cols (base self) with
   | None => ret tt
   | Some cols =>
       sub <- lift (getitems (_original_data (base self)) cols) ;;
       let temporary_df :=
         fst (preprocess_categoricals (copy sub) (stats_or_empty modes)
                                      (_encodings (base self))) in
       x <- lift (setitems cols temporary_df (_x self)) ;;
       modify (set_x x)
   end)%py.

(** [CustomDataset.update_masks], with the setters of [PetaleRFDataset]. *)
Definition RF_update_masks (train_mask test_mask : list Z)
  (valid_mask : option (list Z)) : M RFDataset unit :=
  (modify (on_base (set_masks train_mask valid_mask test_mask)) ;;
   stats <- RF_current_train_stats ;;
   RF_numerical_setter (fst (fst stats)) (snd (fst stats)) ;;
   RF_categorical_setter (snd stats))%py.

(** [PetaleRFDataset._initialize_targets]. *)
Definition RF_initialize_targets (df : DataFrame) (target : string)
  : result (list float) :=
  rbind (getitem df target) (rmap to_float).

(** [PetaleRFDataset.__init__]: [_x] is set from the frame first, then the
    constructor of [CustomDataset] runs. *)
Definition PetaleRFDataset__init__ (df : DataFrame) (target : string)
  (cont cat : option (list string)) : result RFDataset :=
  rbind (drop_columns [PARTICIPANT; target] df) (fun x =>
  if negb (existsb (String.eqb PARTICIPANT) (column_names df))
  then Raise AssertionError
  else if is_none cont && is_none cat then Raise AssertionError
  else
    rbind (check_columns_validity df cont) (fun _ =>
    rbind (check_columns_validity df cat) (fun _ =>
    rbind (getitem df PARTICIPANT) (fun ids =>
    rbind (RF_initialize_targets df target) (fun y =>
    rbind (extract_encodings df cat) (fun enc =>
    rbind (astype_float df cont) (fun data =>
      let self :=
        {| base :=
             {| _ids := ids; _target := target;
                _train_mask := []; _valid_mask := None; _test_mask := [];
                _original_data := data; _n := shape0 df; _y := y;
                cont_cols := cont; cat_cols := cat; _encodings := enc;
                _x_cont := None; _x_cat := None |};
           _x := copy x |} in
      match RF_update_masks (map Z.of_nat (seq 0 (shape0 df))) [] (Some []) self with
      | (Ok _, self') => Ok self'
      | (Raise e, _) => Raise e
      end))))))).

End PetaleRFDataset.

(** *** [PetaleGNNDataset._update_graph] *)

(** [self._x.loc[self._x[e_types] == value].index]: the labels of the rows
    whose entry in the column is the code [value]. *)
Definition rows_with_code (value : nat) (col : Series) (idx : list Z) : list Z :=
  picks (positions_of (Num (inject_Z (Z.of_nat value))) col) idx.

(** [list(range(i)) + list(range(i+1, subset_size))]. *)
Definition remaining_idx (i subset_size : nat) : list nat :=
  seq 0 i ++ seq (S i) (subset_size - S i).

(** The loop [for i in range(subset_size)] on the lists of the edges. *)
Definition subset_edges (idx_subset : list Z) (edges : list Z * list Z)
  : list Z * list Z :=
  let subset_size := length idx_subset in
  fold_left (fun e i =>
               (fst e ++ repeat (nth i idx_subset 0%Z) (subset_size - 1),
                snd e ++ picks (remaining_idx i subset_size) idx_subset))
            (seq 0 subset_size) edges.

(** [d[key] = value] on a dictionary, kept in the order of insertion. *)
Fixpoint dict_set {V} (key : string) (value : V) (d : list (string * V))
  : list (string * V) :=
  match d with
  | [] => [(key, value)]
  | (k, v) :: d' =>
      if String.eqb k key then (key, value) :: d'
      else (k, v) :: dict_set key value d'
  end.

(** The loop [for value in e_values.values()]: the edges of one categorical
    column, and the entry of the graph structure, written at every turn. *)
Fixpoint values_loop (x : DataFrame) (e_types : string) (codes : list nat)
  (edges : list Z * list Z) (graph_structure : list (string * (list Z * list Z)))
  : result (list (string * (list Z * list Z))) :=
  match codes with
  | [] => Ok graph_structure
  | value :: codes' =>
      rbind (getitem x e_types) (fun col =>
        let edges' := subset_edges (rows_with_code value col (index x)) edges in
        values_loop x e_types codes' edges'
                    (dict_set e_types edges' graph_structure))
  end.

(** The loop [for e_types, e_values in self.encodings.items()] of
    [_update_graph]: the graph structure handed to [heterograph], keyed by the
    edge type (the two ends of every key are [PARTICIPANT]). *)
Fixpoint graph_structure_of (encodings : Encodings) (x : DataFrame)
  (graph_structure : list (string * (list Z * list Z)))
  : result (list (string * (list Z * list Z))) :=
  match encodings with
  | [] => Ok graph_structure
  | (e_types, e_values) :: encodings' =>
      rbind (values_loop x e_types (map snd e_values) ([], []) graph_structure)
            (graph_structure_of encodings' x)
  end.

End ForestDatasets.

(** ** Early stopping *)

Module EarlyStopping.

Section EarlyStopper.
Variable Model : Type.

(** Modelled from the spec: the early stopper ([Training/EarlyStopping.py]
    and [src/training/early_stopping.py], which are not among the sources).
    It keeps the best validation loss seen and saves the weights that reached
    it in a temporary checkpoint file; after [patience] consecutive calls
    without improvement it raises its flag [early_stop]. *)
Record EarlyStopper : Type := {
  patience : nat;
  counter : nat;
  val_loss_min : option Q;
  early_stop : bool
}.

(** Modelled from the spec: the temporary checkpoint of the early stopper,
    which is not among the sources: the content of the checkpoint file, if the
    file exists. *)
Definition Files : Type := option Model.

(** Modelled from the spec: the constructor of the early stopper, which is
    not among the sources: no loss seen, no epoch counted, the flag down. *)
Definition EarlyStopper__init__ (patience : nat) : EarlyStopper :=
  {| patience := patience; counter := 0; val_loss_min := None;
     early_stop := false |}.

(** Modelled from the spec: the test of the early stopper, which is not
    among the sources: a validation loss improves when it is below the best
    one seen, and the first one always does. *)
Definition improves (val_loss : Q) (es : EarlyStopper) : bool :=
  match val_loss_min es with
  | None => true
  | Some best => negb (Qle_bool best val_loss)
  end.

(** Modelled from the spec: [early_stopper(val_loss, model)] of the early
    stopper, which is not among the sources. An improvement becomes the best
    loss, its weights are saved in the checkpoint and the count of epochs
    without improvement starts again; otherwise the count goes up by one and
    the flag is raised once it reaches the patience. *)
Definition call (val_loss : Q) (model : Model) (es : EarlyStopper)
  (files : Files) : EarlyStopper * Files :=
  if improves val_loss es
  then ({| patience := patience es; counter := 0;
           val_loss_min := Some val_loss; early_stop := early_stop es |},
        Some model)
  else ({| patience := patience es; counter := S (counter es);
           val_loss_min := val_loss_min es;
           early_stop := early_stop es || (patience es <=? S (counter es)) |},
        files).

(** Modelled from the spec: [get_best_model()] and [get_best_params()] of
    the early stopper, which is not among the sources: the weights read back
    from the checkpoint. *)
Definition get_best (files : Files) : result Model :=
  match files with
  | Some m => Ok m
  | None => Raise FileNotFoundError
  end.

(** Modelled from the spec: [remove_checkpoint()] of the early stopper,
    which is not among the sources: the checkpoint file is deleted. *)
Definition remove_checkpoint (files : Files) : result Files :=
  match files with
  | Some _ => Ok None
  | None => Raise FileNotFoundError
  end.

End EarlyStopper.

End EarlyStopping.

(** ** [src/Training/Trainer.py]: [Trainer], [NNTrainer] *)

Module Trainer.
Import Numpy EarlyStopping.

(** [a % b]. *)
Definition py_mod (a b : Z) : result Z :=
  if (b =? 0)%Z then Raise ZeroDivisionError else Ok (a mod b)%Z.

(** [torch.utils.data.DataLoader(dataset, batch_size, shuffle, drop_last)]
    over a dataset of [dataset_len] rows. *)
Record DataLoader : Type := {
  dataset_len : nat;
  loader_batch_size : nat;
  drop_last : bool
}.

Definition DataLoader__init__ (dataset_len : nat) (batch_size : Z)
  (drop_last : bool) : result DataLoader :=
  if (batch_size <=? 0)%Z then Raise ValueError
  else Ok {| dataset_len := dataset_len;
             loader_batch_size := Z.to_nat batch_size;
             drop_last := drop_last |}.

(** The sizes of the batches a loader delivers in one pass: full batches,
    then the remaining rows as a last batch unless [drop_last]. *)
Definition batch_lengths (dl : DataLoader) : list nat :=
  let n := dataset_len dl in
  let b := loader_batch_size dl in
  repeat b (n / b)
  ++ (if (n mod b =? 0) || drop_last dl then [] else [n mod b]).

(** The size the last batch of a pass has when nothing is dropped. *)
Definition final_batch_length (n b : nat) : nat :=
  last (batch_lengths {| dataset_len := n; loader_batch_size := b;
                         drop_last := false |}) 0.

Section Aggregation.
Variable sqrt : Q -> Q.

(** The last two lines of [Trainer.inner_random_subsampling]. *)
Definition aggregate (scores : list float) : float :=
  let standard_dev := if length scores =? 1 then Some 1%Q else std sqrt scores in
  fdiv (mean scores) standard_dev.

(** [Trainer.inner_random_subsampling]; [subprocess i] is the score of the
    inner split [i], or what its training or scoring raised. *)
Definition inner_random_subsampling (subprocess_defined : bool)
  (subprocess : nat -> result float) (l : nat) : result float :=
  if negb subprocess_defined then Raise AssertionError
  else rbind (rmap subprocess (seq 0 l)) (fun scores => Ok (aggregate scores)).

End Aggregation.

Section NNTrainer.
Variable Model : Type.

(** [NNTrainer.train]: one pass over the batches of the loader; the updated
    model and the mean loss of the epoch. *)
Variable train : DataLoader -> Model -> Model * Q.

(** The loss of a model on the validation set, in one batch. *)
Variable validation_loss : Model -> Q.

(** The attributes of an [NNTrainer] that [fit] reads or writes. *)
Record NNTrainer : Type := {
  model : option Model;
  metric_defined : bool;
  trial_defined : bool;
  batch_size : Z;
  epochs : nat;
  early_stopping_activated : bool;
  trainer_patience : nat
}.

Definition set_batch_size (b : Z) (self : NNTrainer) : NNTrainer :=
  {| model := model self; metric_defined := metric_defined self;
     trial_defined := trial_defined self; batch_size := b;
     epochs := epochs self;
     early_stopping_activated := early_stopping_activated self;
     trainer_patience := trainer_patience self |}.

Definition set_model (m : Model) (self : NNTrainer) : NNTrainer :=
  {| model := Some m; metric_defined := metric_defined self;
     trial_defined := trial_defined self; batch_size := batch_size self;
     epochs := epochs self;
     early_stopping_activated := early_stopping_activated self;
     trainer_patience := trainer_patience self |}.

(** The trainer and the checkpoint file of its early stopper. *)
Definition World : Type := (NNTrainer * Files Model)%type.

(** The first lines of [NNTrainer.fit]: the batch size is capped by the
    size of the training set, and the training loader drops its last batch
    when the size of the training set leaves a remainder of 1. *)
Definition make_train_loader (len_train_set : nat) : M NNTrainer DataLoader :=
  (self <- get ;;
   (if (Z.of_nat len_train_set <? batch_size self)%Z
    then modify (set_batch_size (Z.of_nat len_train_set))
    else ret tt) ;;
   self <- get ;;
   r <- lift (py_mod (Z.of_nat len_train_set) (batch_size self)) ;;
   lift (DataLoader__init__ len_train_set (batch_size self) (r =? 1)%Z))%py.

(** [NNTrainer.evaluate]. *)
Definition evaluate (early_stopper : EarlyStopper) (w : World)
  : result (Q * EarlyStopper) * World :=
  let '(self, files) := w in
  match model self with
  | None => (Raise AssertionError, w)
  | Some m =>
      let val_epoch_loss := validation_loss m in
      if early_stopping_activated self
      then
        let '(es, files') := call val_epoch_loss m early_stopper files in
        if early_stop es
        then match get_best files' with
             | Ok best => (Ok (val_epoch_loss, es), (set_model best self, files'))
             | Raise e => (Raise e, (self, files'))
             end
        else (Ok (val_epoch_loss, es), (self, files'))
      else (Ok (val_epoch_loss, early_stopper), w)
  end.

(** The body of [for epoch in range(self.epochs)] in [NNTrainer.fit],
    run for the [todo] epochs that remain. *)
Fixpoint epochs_loop (todo : nat) (train_loader : DataLoader)
  (early_stopping : EarlyStopper) (training_loss valid_loss : list Q)
  (w : World) : result (list Q * list Q) * World :=
  match todo with
  | O => (Ok (training_loss, valid_loss), w)
  | S todo' =>
      let '(self, files) := w in
      match model self with
      | None => (Raise AssertionError, w)
      | Some m =>
          let '(m', mean_epoch_loss) := train train_loader m in
          let training_loss := training_loss ++ [mean_epoch_loss] in
          match evaluate early_stopping (set_model m' self, files) with
          | (Ok (val_epoch_loss, es), w') =>
              epochs_loop todo' train_loader es training_loss
                          (valid_loss ++ [val_epoch_loss]) w'
          | (Raise e, w') => (Raise e, w')
          end
      end
  end.

(** [NNTrainer.fit]: the training losses and the validation losses, one
    per epoch that ran. *)
Definition fit (len_train_set : nat) (w : World)
  : result (list Q * list Q) * World :=
  let '(self, files) := w in
  if trial_defined self && negb (metric_defined self)
  then (Raise AssertionError, w)
  else
    match model self with
    | None => (Raise AssertionError, w)
    | Some _ =>
        match make_train_loader len_train_set self with
        | (Ok train_loader, self') =>
            epochs_loop (epochs self') train_loader
                        (EarlyStopper__init__ (trainer_patience self')) [] []
                        (self', files)
        | (Raise e, self') => (Raise e, (self', files))
        end
    end.

End NNTrainer.

End Trainer.

(** ** [src/src/models/custom_torch_base.py]: [TorchCustomModel.fit] *)

Module TorchBase.
Import EarlyStopping Trainer.

Section TorchCustomModel.
Variable Params : Type.

(** One training epoch of a concrete model: the updated parameters and the
    mean loss of the epoch. *)
Variable train_step : DataLoader -> Params -> Params * Q.

(** The validation loss of a concrete model with given parameters. *)
Variable validation_loss : Params -> Q.

(** The validation score of a concrete model with given parameters: the
    mean over the batches of its evaluation metric. *)
Variable validation_score : Params -> Q.

(** What [fit] reads of the dataset. *)
Record PetaleDataset : Type := {
  dataset_size : nat;
  train_mask : list Z;
  valid_mask : option (list Z)
}.

(** The module: its parameters and the history [_evaluations] of the
    training and validation losses. *)
Record TorchCustomModel : Type := {
  parameters : Params;
  _evaluations_train : list Q;
  _evaluations_valid : list Q
}.

Definition World : Type := (TorchCustomModel * Files Params)%type.

(** [_validate_sample_weights]; the weights are given by their length. *)
Definition _validate_sample_weights (dataset : PetaleDataset)
  (sample_weights : option nat) : result nat :=
  match sample_weights with
  | Some k => if k =? dataset_size dataset then Ok k else Raise AssertionError
  | None => Ok (dataset_size dataset)
  end.

(** [_create_train_objects]. *)
Definition _create_train_objects (dataset : PetaleDataset) (batch_size : Z)
  : result DataLoader :=
  let n := length (train_mask dataset) in
  DataLoader__init__ n (Z.min (Z.of_nat n) batch_size) false.

(** [_create_validation_objects]: no early stopper and no validation data
    when the validation mask is empty. *)
Definition _create_validation_objects (dataset : PetaleDataset)
  (valid_batch_size : option Z) (patience : nat)
  : result (option (EarlyStopper * DataLoader)) :=
  match valid_mask dataset with
  | None => Raise TypeError
  | Some vm =>
      let valid_size := length vm in
      if valid_size =? 0 then Ok None
      else
        let valid_bs := match valid_batch_size with
                        | Some b => b
                        | None => Z.of_nat valid_size
                        end in
        rbind (DataLoader__init__ valid_size (Z.min (Z.of_nat valid_size) valid_bs) false)
              (fun valid_data => Ok (Some (EarlyStopper__init__ patience, valid_data)))
  end.

(** [_execute_train_step], which is abstract in [TorchCustomModel], as the
    concrete model [HAN] of [han_base_models.py] has it: the weights are
    updated over the batches and the mean loss of the epoch is appended to the
    history of the training losses. The histories of the scores, which
    nothing reads, are left out. *)
Definition _execute_train_step (train_data : DataLoader)
  (self : TorchCustomModel) : TorchCustomModel :=
  let '(p, mean_epoch_loss) := train_step train_data (parameters self) in
  {| parameters := p;
     _evaluations_train := _evaluations_train self ++ [mean_epoch_loss];
     _evaluations_valid := _evaluations_valid self |}.

(** [_execute_valid_step], which is abstract in [TorchCustomModel], as the
    concrete model [HAN] of [han_base_models.py] has it. The hook unpacks
    [valid_data] before anything else, which is a TypeError on [None]. On
    validation data, the mean loss of the epoch is appended to the history of
    the validation losses, the early stopper is called on the mean score and
    its flag is the answer. *)
Definition _execute_valid_step (validation : option (EarlyStopper * DataLoader))
  (w : World) : result bool * option (EarlyStopper * DataLoader) * World :=
  match validation with
  | None => (Raise TypeError, None, w)
  | Some (early_stopper, valid_data) =>
      let '(self, files) := w in
      let loss := validation_loss (parameters self) in
      let score := validation_score (parameters self) in
      let self' :=
        {| parameters := parameters self;
           _evaluations_train := _evaluations_train self;
           _evaluations_valid := _evaluations_valid self ++ [loss] |} in
      let '(es, files') := call score (parameters self) early_stopper files in
      (Ok (early_stop es), Some (es, valid_data), (self', files'))
  end.

(** [for epoch in range(max_epochs)] of [fit], with its [break]; what a
    hook raises leaves the loop. *)
Fixpoint epochs_loop (todo : nat) (train_data : DataLoader)
  (validation : option (EarlyStopper * DataLoader)) (w : World)
  : result unit * option (EarlyStopper * DataLoader) * World :=
  match todo with
  | O => (Ok tt, validation, w)
  | S todo' =>
      let '(self, files) := w in
      let self' := _execute_train_step train_data self in
      let '(stop, validation', w') :=
        _execute_valid_step validation (self', files) in
      match stop with
      | Raise e => (Raise e, validation', w')
      | Ok true => (Ok tt, validation', w')
      | Ok false => epochs_loop todo' train_data validation' w'
      end
  end.

Definition load_state_dict (p : Params) (self : TorchCustomModel)
  : TorchCustomModel :=
  {| parameters := p;
     _evaluations_train := _evaluations_train self;
     _evaluations_valid := _evaluations_valid self |}.

(** [TorchCustomModel.fit]. *)
Definition fit (dataset : PetaleDataset) (batch_size : Z)
  (valid_batch_size : option Z) (max_epochs patience : nat)
  (sample_weights : option nat) (w : World) : result unit * World :=
  match _validate_sample_weights dataset sample_weights with
  | Raise e => (Raise e, w)
  | Ok _ =>
  match _create_train_objects dataset batch_size with
  | Raise e => (Raise e, w)
  | Ok train_data =>
  match _create_validation_objects dataset valid_batch_size patience with
  | Raise e => (Raise e, w)
  | Ok validation =>
      let '(looped, validation', (self, files)) :=
        epochs_loop max_epochs train_data validation w in
      match looped with
      | Raise e => (Raise e, (self, files))
      | Ok _ =>
          match validation' with
          | None => (Ok tt, (self, files))
          | Some _ =>
              match get_best files with
              | Raise e => (Raise e, (self, files))
              | Ok best =>
                  match remove_checkpoint files with
                  | Raise e => (Raise e, (load_state_dict best self, files))
                  | Ok files' => (Ok tt, (load_state_dict best self, files'))
                  end
              end
          end
      end
  end end end.

End TorchCustomModel.

End TorchBase.

(** ** [src/Evaluation/Evaluator.py]: [Evaluator.nested_cross_valid] *)

Module Evaluator.

Section Evaluator.
(** Hyperparameters, their importance, trained models, datasets and
    predictions are those of the tuner, trainer and sampler at hand. *)
Variables Hyper Importance Model Data Pred : Type.

(** [self.sampler(k=self.k, l=self.l)] and [get_datasets(all_datasets[k])]. *)
Variable sampler : nat -> nat -> result (nat -> result Data).
(** [self.create_tuner(...).tune()] on the inner splits of a fold. *)
Variable tune : nat -> Data -> result (Hyper * Importance).
(** [create_model], [create_trainer] and [trainer.fit] on a fold. *)
Variable fit : nat -> Data -> Hyper -> result Model.
(** [trainer.extract_data(test_set)] and [trainer.predict]. *)
Variable predict : nat -> Data -> Model -> result Pred.
(** [get_evaluation_recap] and [plot_hyperparameter_importance_chart]. *)
Variable summarize : result unit.

(** What a recorder holds when [generate_file] writes it. *)
Record Recorder : Type := {
  rec_index : nat;
  hyperparameters : Hyper;
  hyperparameters_importance : Importance;
  recorded_model : Model;
  predictions : Pred;
  scores : list (string * Q)
}.

Record Evaluator : Type := {
  k : nat;
  l : nat;
  evaluation_metrics : list (string * (Pred -> Data -> result Q))
}.

(** The files under [Recordings/<evaluation_name>], one per call of
    [generate_file], in the order they were written. *)
Definition Recordings : Type := list Recorder.

(** The body of the outer loop up to [recorder.generate_file()]. *)
Definition run_fold (self : Evaluator) (datasets : nat -> result Data)
  (i : nat) : result Recorder :=
  rbind (datasets i) (fun data =>
  rbind (tune i data) (fun tuned =>
  rbind (fit i data (fst tuned)) (fun model =>
  rbind (predict i data model) (fun pred =>
  rbind (rmap (fun m => rbind (snd m pred data) (fun s => Ok (fst m, s)))
              (evaluation_metrics self)) (fun sc =>
  Ok {| rec_index := i;
        hyperparameters := fst tuned;
        hyperparameters_importance := snd tuned;
        recorded_model := model;
        predictions := pred;
        scores := sc |}))))).

(** The body of the outer loop. *)
Definition outer_fold (self : Evaluator) (datasets : nat -> result Data)
  (i : nat) : M Recordings unit :=
  (recorder <- lift (run_fold self datasets i) ;;
   modify (fun files => files ++ [recorder]) ;;
   lift summarize)%py.

(** [Evaluator.nested_cross_valid]. *)
Definition nested_cross_valid (self : Evaluator) : M Recordings unit :=
  (all_datasets <- lift (sampler (k self) (l self)) ;;
   for_each (seq 0 (k self)) (outer_fold self all_datasets))%py.

(** [NNEvaluator.nested_cross_valid]. The state is the recordings and
    whether the folder [checkpoints] exists: it is made when early stopping is
    activated and it is not there, the run of the base class writes into it
    and leaves the folder where it is, and it is removed, when it is there,
    once that run has returned. *)
Definition NN_nested_cross_valid (early_stopping_activated : bool)
  (self : Evaluator) : M (Recordings * bool) unit :=
  (modify (fun w => (fst w, snd w || early_stopping_activated)) ;;
   scores <- (fun w => let '(r, files) := nested_cross_valid self (fst w) in
                       (r, (files, snd w))) ;;
   modify (fun w => (fst w, false)) ;;
   ret scores)%py.

End Evaluator.

End Evaluator.

(** ** [src/Datasets/Sampling.py]: [Sampler] *)

Module Samplers.
Import Numpy Pandas Sampling.

(** [d[key] = value] on a dictionary with integer keys, kept in the order
    of insertion. *)
Fixpoint dict_set {V} (key : nat) (value : V) (d : list (nat * V))
  : list (nat * V) :=
  match d with
  | [] => [(key, value)]
  | (k, v) :: d' =>
      if k =? key then (key, value) :: d'
      else (k, v) :: dict_set key value d'
  end.

Section Sampler.
Variable sqrt : Q -> Q.
Variable rng : Type.
Variable permutation : rng -> nat -> list nat * rng.
Variable qcut : Series -> nat -> result Series.

(** [Datasets.Datasets.PetaleDataset], which is not among the sources: its
    instances, and what its constructor returns or raises on a frame, the
    continuous columns, the target, the categorical columns, [split], the
    means and standard deviations to use, and [add_biases]. *)
Variable PetaleDataset : Type.
Variable PetaleDataset__init__ :
  DataFrame -> list string -> string -> option (list string) -> bool ->
  option Labelled -> option Labelled -> bool -> result PetaleDataset.

(** The attributes of a [Sampler]. *)
Record Sampler : Type := {
  learning_set : DataFrame;
  cont_cols : list string;
  cat_cols : option (list string);
  target_col : string
}.

(** A dictionary of datasets, such as [{"train": ..., "test": ...}]. *)
Definition Datasets : Type := list (string * PetaleDataset).

(** The dictionary of an outer split: its keys that hold a dataset, and the
    dictionary that [outer_dict['inner'] = {}] puts under the key
    ["inner"]. *)
Record OuterDatasets : Type := {
  datasets : Datasets;
  inner : list (nat * Datasets)
}.

(** [Sampler.dataframes_to_datasets]. *)
Definition dataframes_to_datasets (self : Sampler) (train_df test_df : DataFrame)
  (split_cat add_biases : bool) : result Datasets :=
  rbind (getitems train_df (cont_cols self)) (fun sub =>
  rbind (reduce series_mean sub) (fun mean =>
  rbind (getitems train_df (cont_cols self)) (fun sub' =>
  rbind (reduce (series_std sqrt) sub') (fun std =>
  rbind (PetaleDataset__init__ train_df (cont_cols self) (target_col self)
           (cat_cols self) split_cat None None add_biases) (fun train_ds =>
  rbind (PetaleDataset__init__ test_df (cont_cols self) (target_col self)
           (cat_cols self) split_cat (Some mean) (Some std) add_biases)
        (fun test_ds =>
           Ok [("train"%string, train_ds); ("test"%string, test_ds)])))))).

(** The loop [for j in range(l)] of [create_train_and_test_datasets].
    [all_datasets[i]] is the dictionary [outer_dict] itself, not a copy: what
    the later turns add under ["inner"] is seen through it, so that after the
    loop it is [outer_dict] as the last turn left it. *)
Fixpoint inner_loop (self : Sampler) (train_df : DataFrame)
  (split_cat : bool) (test_size : Q) (add_biases : bool) (i : nat)
  (js : list nat) (outer_dict : OuterDatasets)
  (all_datasets : list (nat * OuterDatasets))
  : M rng (list (nat * OuterDatasets)) :=
  match js with
  | [] => ret all_datasets
  | j :: js' =>
      (sp <- split_train_test permutation qcut train_df (target_col self)
                              test_size None ;;
       ds <- lift (dataframes_to_datasets self (fst sp) (snd sp)
                                          split_cat add_biases) ;;
       let outer_dict' :=
         {| datasets := datasets outer_dict;
            inner := dict_set j ds (inner outer_dict) |} in
       inner_loop self train_df split_cat test_size add_biases i js'
                  outer_dict' (dict_set i outer_dict' all_datasets))%py
  end.

(** The loop [for i in range(k)]. *)
Fixpoint outer_loop (self : Sampler) (l : nat)
  (split_cat : bool) (test_size : Q) (add_biases : bool)
  (ks : list nat) (all_datasets : list (nat * OuterDatasets))
  : M rng (list (nat * OuterDatasets)) :=
  match ks with
  | [] => ret all_datasets
  | i :: ks' =>
      (sp <- split_train_test permutation qcut (learning_set self)
                              (target_col self) test_size None ;;
       ds <- lift (dataframes_to_datasets self (fst sp) (snd sp)
                                          split_cat add_biases) ;;
       all_datasets' <- inner_loop self (fst sp) split_cat test_size add_biases
                                   i (seq 0 l) {| datasets := ds; inner := [] |}
                                   all_datasets ;;
       outer_loop self l split_cat test_size add_biases ks' all_datasets')%py
  end.

(** [Sampler.create_train_and_test_datasets], which [Sampler.__call__]
    returns. *)
Definition create_train_and_test_datasets (self : Sampler) (k l : nat)
  (split_cat : bool) (test_size : Q) (add_biases : bool)
  : M rng (list (nat * OuterDatasets)) :=
  outer_loop self l split_cat test_size add_biases (seq 0 k) [].

End Sampler.

End Samplers.

(** ** The datasets of a split: [get_datasets] in [src/Training/Trainer.py]
    and [src/Evaluation/Evaluator.py] *)

Module Folds.
Import Numpy Pandas Samplers.

(** [d[key]] on a dictionary with string keys, and with integer keys. *)
Definition dict_getitem {V} (key : string) (d : list (string * V)) : result V :=
  match lookup key d with
  | Some v => Ok v
  | None => Raise KeyError
  end.

Fixpoint dict_getitem_int {V} (key : nat) (d : list (nat * V)) : result V :=
  match d with
  | [] => Raise KeyError
  | (k, v) :: d' => if k =? key then Ok v else dict_getitem_int key d'
  end.

(** [Trainer.get_datasets] and [Evaluator.get_datasets], the same static
    method: the train, the test and the valid set of a dictionary. *)
Definition get_datasets {V} (dataset_dictionary : list (string * V))
  : result (V * V * V) :=
  rbind (dict_getitem "train" dataset_dictionary) (fun train_set =>
  rbind (dict_getitem "test" dataset_dictionary) (fun test_set =>
  rbind (dict_getitem "valid" dataset_dictionary) (fun valid_set =>
  Ok (train_set, test_set, valid_set)))).

Section OnSampler.
Variable sqrt : Q -> Q.
Variable rng : Type.
Variable permutation : rng -> nat -> list nat * rng.
Variable qcut : Series -> nat -> result Series.
Variable PetaleDataset : Type.
Variable PetaleDataset__init__ :
  DataFrame -> list string -> string -> option (list string) -> bool ->
  option Labelled -> option Labelled -> bool -> result PetaleDataset.

(** [self.sampler(k=self.k, l=self.l)] in [Evaluator.nested_cross_valid] on
    a [Sampler], with the defaults of [Sampler.__call__], and
    [self.get_datasets(all_datasets[k])] in the fold [k]; [g] is the state of
    the generator of numpy at the call. *)
Definition sampler (self : Sampler) (g : rng) (k l : nat)
  : result (nat -> result (PetaleDataset * PetaleDataset * PetaleDataset)) :=
  rbind (fst (create_train_and_test_datasets sqrt permutation qcut
                PetaleDataset__init__ self k l true (1 # 5) false g))
        (fun all_datasets =>
           Ok (fun k => rbind (dict_getitem_int k all_datasets)
                              (fun d => get_datasets (datasets d)))).

(** [self.fit], [self.extract_data], [self.predict] and [self.metric] in
    the subprocess, on the train, the valid and the test set. *)
Variable fit_and_score :
  PetaleDataset -> PetaleDataset -> PetaleDataset -> result float.

(** The function [subprocess] that [Trainer.define_subprocess] builds on the
    dictionary [datasets] of the inner splits. *)
Definition subprocess (datasets : list (nat * Datasets PetaleDataset)) (i : nat)
  : result float :=
  rbind (dict_getitem_int i datasets) (fun d =>
  rbind (get_datasets d) (fun sets =>
  let '(train_set, test_set, valid_set) := sets in
  fit_and_score train_set valid_set test_set)).

End OnSampler.

End Folds.

(** ** [src/SQLutils/Helpers.py] and [src/helpers.py] *)

Module Helpers.
Import Pandas.

Definition is_str (c : cell) : bool :=
  match c with Str _ => true | _ => false end.

(** [check_categorical_var]: a column that holds a string is categorical;
    so is one with at most 10 distinct values. *)
Definition check_categorical_var (data : Series) : bool :=
  if existsb is_str data then true
  else if 10 <? length (unique data) then false
  else true.

(** [df[col]] for a column [col] of [df.columns]. *)
Definition column (df : DataFrame) (col : string) : Series :=
  match lookup col (columns df) with Some s => s | None => [] end.

(** The loop [for col_id in ids] that appends the identifiers that are not
    among the columns kept. *)
Definition append_ids (cols ids : list string) : list string :=
  fold_left (fun acc col_id =>
               if existsb (String.eqb col_id) acc then acc else acc ++ [col_id])
            ids cols.

(** [retrieve_categorical] ([retreive_categorical] in [src/helpers.py]). *)
Definition retrieve_categorical (df : DataFrame) (ids : list string)
  : result DataFrame :=
  let categorical_cols :=
    filter (fun col => check_categorical_var (column df col)) (column_names df) in
  getitems df (append_ids categorical_cols ids).

(** [retrieve_numerical] ([retreive_numerical] in [src/helpers.py]). *)
Definition retrieve_numerical (df : DataFrame) (ids : list string)
  : result DataFrame :=
  let numerical_cols :=
    filter (fun col => negb (check_categorical_var (column df col)))
           (column_names df) in
  getitems df (append_ids numerical_cols ids).

End Helpers.

(** ** [src/src/data/processing/feature_selection.py]: [FeatureSelector] *)

Module FeatureSelection.
Import Numpy Pandas Sampling.

Inductive status : Type := selected | rejected.

(** [FeatureSelector.__init__]: the threshold it keeps. *)
Definition FeatureSelector__init__ (importance_threshold : Q) : result Q :=
  if Qlt_bool 0 importance_threshold && Qle_bool importance_threshold 1
  then Ok importance_threshold
  else Raise ValueError.

(** The loop [for index, row in fi_table.iterrows()] with its [break]. *)
Fixpoint status_loop (importance_thresh cumulative_imp : Q) (imps : list Q)
  : list status :=
  match imps with
  | [] => []
  | imp :: imps' =>
      let cumulative_imp := (cumulative_imp + imp)%Q in
      selected ::
        (if Qlt_bool importance_thresh cumulative_imp then []
         else status_loop importance_thresh cumulative_imp imps')
  end.

Section FeatureSelector.
(** [sort_values('imp', ascending=False)] of pandas, whose order among
    equal importances is not fixed, and [round(x, 4)] on a float. *)
Variable sort_values : list (string * Q) -> list (string * Q).
Variable round4 : Q -> Q.

(** The end of [get_features_importance], from the features and the
    importances the forest gives them: the table sorted by importance, the
    status of every feature and the importances rounded. The constructor of
    a frame refuses columns of different lengths. *)
Definition get_features_importance (importance_thresh : Q)
  (features : list string) (feature_importances : list Q)
  : result (list (string * Q * status)) :=
  if negb (length features =? length feature_importances)
  then Raise ValueError
  else
    let fi_table := sort_values (combine features feature_importances) in
    let status_list := status_loop importance_thresh 0 (map snd fi_table) in
    let status_list :=
      status_list ++ repeat rejected (length fi_table - length status_list) in
    Ok (map (fun rs => (fst (fst rs), round4 (snd (fst rs)), snd rs))
            (combine fi_table status_list)).

Definition is_selected (s : status) : bool :=
  match s with selected => true | rejected => false end.

(** [FeatureSelector.__call__] without records and importances returned:
    the continuous and the categorical columns that are selected. *)
Definition FeatureSelector__call__ (importance_thresh : Q)
  (features : list string) (feature_importances : list Q)
  (cont_cols cat_cols : option (list string))
  : result (option (list string) * option (list string)) :=
  rbind (get_features_importance importance_thresh features feature_importances)
        (fun fi_table =>
  let selected_features :=
    map (fun r => fst (fst r)) (filter (fun r => is_selected (snd r)) fi_table) in
  let keep := filter (fun c => existsb (String.eqb c) selected_features) in
  Ok (option_map keep cont_cols, option_map keep cat_cols)).

End FeatureSelector.

End FeatureSelection.


(** ** Instances to run the model on *)

(** A trainer of five epochs with early stopping and a patience of 2. *)
Definition trainer_of_batch_size (b : Z) : Trainer.NNTrainer nat :=
  {| Trainer.model := Some 0; Trainer.metric_defined := true;
     Trainer.trial_defined := false; Trainer.batch_size := b;
     Trainer.epochs := 5; Trainer.early_stopping_activated := true;
     Trainer.trainer_patience := 2 |}.

(** A training whose weights count the epochs trained and whose loss is
    the count before the epoch, and a validation loss that never improves
    on its first value. *)
Definition counting_train (_ : Trainer.DataLoader) (m : nat) : nat * Q :=
  (S m, inject_Z (Z.of_nat m)).

Definition flat_validation (_ : nat) : Q := 1%Q.

Definition nine_and_three : TorchBase.PetaleDataset :=
  {| TorchBase.dataset_size := 12;
     TorchBase.train_mask := [0; 1; 2; 3; 4; 5; 6; 7; 8]%Z;
     TorchBase.valid_mask := Some [9; 10; 11]%Z |}.

(** Three folds whose only metric is undefined on the test set of fold 1. *)
Definition auc_undefined_on_fold_1 (pred data : nat) : result Q :=
  if data =? 1 then Raise ValueError else Ok 1%Q.

Definition three_folds : Evaluator.Evaluator nat nat :=
  {| Evaluator.k := 3; Evaluator.l := 1;
     Evaluator.evaluation_metrics := [("AUC"%string, auc_undefined_on_fold_1)] |}.

(** The same evaluation with the first fold alone. *)
Definition one_fold : Evaluator.Evaluator nat nat :=
  {| Evaluator.k := 1; Evaluator.l := 1;
     Evaluator.evaluation_metrics := [("AUC"%string, auc_undefined_on_fold_1)] |}.

Definition run_three_folds : M (list (Evaluator.Recorder unit unit nat nat)) unit :=
  Evaluator.nested_cross_valid
    (fun _ _ => Ok (fun i => Ok i))
    (fun _ _ => Ok (tt, tt))
    (fun i _ _ => Ok i)
    (fun i _ _ => Ok i)
    (Ok tt)
    three_folds.

(** A frame of four patients, and the dataset the constructor builds on it
    before its first [update_masks]. *)
Definition clinic : Pandas.DataFrame :=
  {| Pandas.index := [0; 1; 2; 3]%Z;
     Pandas.columns :=
       [("Participant"%string,
         [Pandas.Str "P1"; Pandas.Str "P2"; Pandas.Str "P3"; Pandas.Str "P4"]);
        ("AGE"%string,
         [Pandas.Num 8; Pandas.Num 12; Pandas.NaN; Pandas.Num 40]);
        ("SEX"%string,
         [Pandas.Str "F"; Pandas.Str "M"; Pandas.NaN; Pandas.Str "M"]);
        ("VO2"%string,
         [Pandas.Num 30; Pandas.Num 35; Pandas.Num 28; Pandas.Num 41])] |}.


Definition clinic_dataset : Datasets.Dataset :=
  {| Datasets._ids :=
       [Pandas.Str "P1"; Pandas.Str "P2"; Pandas.Str "P3"; Pandas.Str "P4"];
     Datasets._target := "VO2";
     Datasets._train_mask := [];
     Datasets._valid_mask := None;
     Datasets._test_mask := [];
     Datasets._original_data := clinic;
     Datasets._n := 4;
     Datasets._y := [Some 30; Some 35; Some 28; Some 41]%Q;
     Datasets.cont_cols := Some ["AGE"%string];
     Datasets.cat_cols := Some ["SEX"%string];
     Datasets._encodings :=
       Some [("SEX"%string, [(Pandas.Str "F", 0); (Pandas.Str "M", 1)])];
     Datasets._x_cont := None;
     Datasets._x_cat := None |}.

(** The same frame with other values in the rows 2 and 3. *)
Definition clinic_elsewhere : Pandas.DataFrame :=
  {| Pandas.index := [0; 1; 2; 3]%Z;
     Pandas.columns :=
       [("Participant"%string,
         [Pandas.Str "P1"; Pandas.Str "P2"; Pandas.Str "P3"; Pandas.Str "P4"]);
        ("AGE"%string,
         [Pandas.Num 8; Pandas.Num 12; Pandas.Num 77; Pandas.Num 5]);
        ("SEX"%string,
         [Pandas.Str "F"; Pandas.Str "M"; Pandas.Str "F"; Pandas.Str "F"]);
        ("VO2"%string,
         [Pandas.Num 30; Pandas.Num 35; Pandas.Num 28; Pandas.Num 41])] |}.

(** A cohort of twelve patients: eight of fitness level A and four of
    level B, with twelve different values of VO2. *)
Definition cohort : Pandas.DataFrame :=
  {| Pandas.index := [0; 1; 2; 3; 4; 5; 6; 7; 8; 9; 10; 11]%Z;
     Pandas.columns :=
       [("LEVEL"%string,
         [Pandas.Str "A"; Pandas.Str "B"; Pandas.Str "A"; Pandas.Str "A";
          Pandas.Str "B"; Pandas.Str "A"; Pandas.Str "A"; Pandas.Str "B";
          Pandas.Str "A"; Pandas.Str "A"; Pandas.Str "B"; Pandas.Str "A"]);
        ("VO2"%string,
         [Pandas.Num 31; Pandas.Num 45; Pandas.Num 28; Pandas.Num 33;
          Pandas.Num 47; Pandas.Num 25; Pandas.Num 36; Pandas.Num 52;
          Pandas.Num 30; Pandas.Num 27; Pandas.Num 49; Pandas.Num 35])] |}.

Definition cohort_levels : Pandas.Series :=
  [Pandas.Str "A"; Pandas.Str "B"; Pandas.Str "A"; Pandas.Str "A";
   Pandas.Str "B"; Pandas.Str "A"; Pandas.Str "A"; Pandas.Str "B";
   Pandas.Str "A"; Pandas.Str "A"; Pandas.Str "B"; Pandas.Str "A"].

(** The same cohort with two consecutive rows per patient, every row
    labelled by its patient: the row labels come in pairs. *)
Definition cohort_in_pairs : Pandas.DataFrame :=
  {| Pandas.index := [0; 0; 1; 1; 2; 2; 3; 3; 4; 4; 5; 5]%Z;
     Pandas.columns := Pandas.columns cohort |}.

Definition clinic_dataset_elsewhere : Datasets.Dataset :=
  {| Datasets._ids :=
       [Pandas.Str "P1"; Pandas.Str "P2"; Pandas.Str "P3"; Pandas.Str "P4"];
     Datasets._target := "VO2";
     Datasets._train_mask := [];
     Datasets._valid_mask := None;
     Datasets._test_mask := [];
     Datasets._original_data := clinic_elsewhere;
     Datasets._n := 4;
     Datasets._y := [Some 30; Some 35; Some 28; Some 41]%Q;
     Datasets.cont_cols := Some ["AGE"%string];
     Datasets.cat_cols := Some ["SEX"%string];
     Datasets._encodings :=
       Some [("SEX"%string, [(Pandas.Str "F", 0); (Pandas.Str "M", 1)])];
     Datasets._x_cont := None;
     Datasets._x_cat := None |}.

(** A frame of four patients that comes with a column named [quantiles]. *)
Definition banded : Pandas.DataFrame :=
  {| Pandas.index := [10; 11; 12; 13]%Z;
     Pandas.columns :=
       [("quantiles"%string,
         [Pandas.Num 1; Pandas.Num 2; Pandas.Num 1; Pandas.Num 2]);
        ("LEVEL"%string,
         [Pandas.Str "A"; Pandas.Str "A"; Pandas.Str "B"; Pandas.Str "B"])] |}.

(** The frame [_x] of a dataset of four patients once the sexes are
    encoded, and its encodings. *)
Definition encoded_clinic : Pandas.DataFrame :=
  {| Pandas.index := [0; 1; 2; 3]%Z;
     Pandas.columns :=
       [("AGE"%string,
         [Pandas.Num 8; Pandas.Num 12; Pandas.Num 10; Pandas.Num 40]);
        ("SEX"%string,
         [Pandas.Num 0; Pandas.Num 1; Pandas.Num 1; Pandas.Num 1])] |}.

Definition sex_encodings : Datasets.Encodings :=
  [("SEX"%string, [(Pandas.Str "F", 0); (Pandas.Str "M", 1)])].

(** A trainer of three epochs without early stopping. *)
Definition plain_trainer : Trainer.NNTrainer nat :=
  {| Trainer.model := Some 0; Trainer.metric_defined := true;
     Trainer.trial_defined := false; Trainer.batch_size := 4;
     Trainer.epochs := 3; Trainer.early_stopping_activated := false;
     Trainer.trainer_patience := 2 |}.


Definition nine_unvalidated : TorchBase.PetaleDataset :=
  {| TorchBase.dataset_size := 9;
     TorchBase.train_mask := [0; 1; 2; 3; 4; 5; 6; 7; 8]%Z;
     TorchBase.valid_mask := None |}.

Definition none_and_three : TorchBase.PetaleDataset :=
  {| TorchBase.dataset_size := 3;
     TorchBase.train_mask := [];
     TorchBase.valid_mask := Some [0; 1; 2]%Z |}.

Definition fresh_model : TorchBase.TorchCustomModel nat :=
  {| TorchBase.parameters := 0;
     TorchBase._evaluations_train := [];
     TorchBase._evaluations_valid := [] |}.

(** A dataset class that keeps the row labels of the frame it is built on
    and the means it is given, and a sampler on the cohort. *)
Definition rows_and_means (df : Pandas.DataFrame) (cont_cols : list string)
  (target : string) (cat_cols : option (list string)) (split : bool)
  (mean std : option Pandas.Labelled) (add_biases : bool)
  : result (list Z * option Pandas.Labelled) :=
  Ok (Pandas.index df, mean).

Definition cohort_sampler : Samplers.Sampler :=
  {| Samplers.learning_set := cohort;
     Samplers.cont_cols := ["VO2"%string];
     Samplers.cat_cols := None;
     Samplers.target_col := "LEVEL"%string |}.

(** A sort by decreasing importance, and the rounding to four decimals. *)
Fixpoint insert_by_importance (r : string * Q) (t : list (string * Q))
  : list (string * Q) :=
  match t with
  | [] => [r]
  | r' :: t' =>
      if Sampling.Qlt_bool (snd r') (snd r) then r :: t
      else r' :: insert_by_importance r t'
  end.

Definition by_importance (t : list (string * Q)) : list (string * Q) :=
  fold_right insert_by_importance [] t.

Definition four_decimals (q : Q) : Q :=
  (Numpy.rint (q * 10000) # 10000)%Q.

(** An evaluation of two folds on the datasets of [rows_and_means], and a
    scoring of a split that always succeeds. *)
Definition rows : Type := list Z * option Pandas.Labelled.

Definition two_folds_on_rows : Evaluator.Evaluator (rows * rows * rows) unit :=
  {| Evaluator.k := 2; Evaluator.l := 2; Evaluator.evaluation_metrics := [] |}.

Definition unit_score (train_set valid_set test_set : rows) : result Numpy.float :=
  Ok (Some 1%Q).

(* ===================================================================== *)
(** * Part II: properties                                                 *)
(* ===================================================================== *)

Unset Implicit Arguments.

(** ** Outcomes *)

Lemma rbind_ok {A B} (r : result A) (k : A -> result B) (b : B) :
  rbind r k = Ok b -> exists a, r = Ok a /\ k a = Ok b.
Proof.
  destruct r as [a | e]; simpl; intros H; [eauto | discriminate].
Qed.

Lemma rmap_ok_all {A B} (f : A -> result B) (xs : list A) :
  (forall x, In x xs -> is_ok (f x) = true) -> is_ok (rmap f xs) = true.
Proof.
  induction xs as [| x xs IH]; simpl; intros H; [reflexivity |].
  pose proof (H x (or_introl eq_refl)) as Hx.
  destruct (f x) as [y | e]; [| discriminate]. simpl.
  assert (Hxs : is_ok (rmap f xs) = true) by (apply IH; auto).
  destruct (rmap f xs); [reflexivity | discriminate].
Qed.

Lemma rmap_raise {A B} (f : A -> result B) (xs : list A) (e : exn) :
  rmap f xs = Raise e -> exists x, In x xs /\ f x = Raise e.
Proof.
  induction xs as [| x xs IH]; simpl; intros H; [discriminate |].
  destruct (f x) as [y | e'] eqn:Hx; simpl in H.
  - destruct (rmap f xs) as [ys | e'']; simpl in H; [discriminate |].
    inversion H; subst. destruct IH as [x' [Hin Hx']]; eauto.
  - inversion H; subst; eauto.
Qed.

(** ** [Trainer.inner_random_subsampling]: the score of a trial *)

Section AggregationFacts.
Import Numpy Trainer.
Variable sqrt : Q -> Q.

Lemma aggregate_single (x : float) : feq (aggregate sqrt [x]) x.
Proof.
  unfold aggregate, mean, fsum; simpl.
  destruct x as [q |]; simpl; [| exact I].
  unfold Qeq_bool; simpl. field.
Qed.

Lemma aggregate_several (scores : list float) :
  1 < length scores ->
  aggregate sqrt scores = fdiv (mean scores) (std sqrt scores).
Proof.
  intros H. unfold aggregate.
  destruct (Nat.eqb_spec (length scores) 1) as [E | _]; [lia | reflexivity].
Qed.

(** C4. When every inner split returns its score and there is at least one
    split, the score of the trial is the mean of the scores of the splits
    divided by their standard deviation when there are several splits, and
    the score of the split itself when there is exactly one. *)
Theorem trial_score_mean_over_std :
  forall (subprocess : nat -> result float) (l : nat) (scores : list float),
    rmap subprocess (seq 0 l) = Ok scores ->
    scores <> [] ->
    exists v,
      inner_random_subsampling sqrt true subprocess l = Ok v /\
      (1 < length scores -> v = fdiv (mean scores) (std sqrt scores)) /\
      (forall x, scores = [x] -> feq v x).
Proof.
  intros subprocess l scores Hs Hne.
  exists (aggregate sqrt scores). unfold inner_random_subsampling; simpl.
  rewrite Hs; simpl. split; [reflexivity | split].
  - apply aggregate_several.
  - intros x ->. apply aggregate_single.
Qed.

End AggregationFacts.

Lemma trial_score_mean_over_std_witness :
  let subprocess := fun i : nat => Ok (Some (inject_Z (Z.of_nat (2 * i + 1)))) in
  let scores := [Some (1 # 1); Some (3 # 1); Some (5 # 1)]%Q in
  (rmap subprocess (seq 0 3) = Ok scores /\
   scores <> [] /\
   1 < length scores /\
   exists v,
     Trainer.inner_random_subsampling Numpy.sqrt_down true subprocess 3 = Ok v /\
     v = Numpy.fdiv (Numpy.mean scores) (Numpy.std Numpy.sqrt_down scores)) /\
  (rmap subprocess (seq 0 1) = Ok [Some (1 # 1)%Q] /\
   [Some (1 # 1)%Q] <> [] /\
   exists v,
     Trainer.inner_random_subsampling Numpy.sqrt_down true subprocess 1 = Ok v /\
     Numpy.feq v (Some (1 # 1)%Q)).
Proof.
  intros subprocess scores. split.
  - assert (Hne : scores <> []) by discriminate.
    assert (Hlen : 1 < length scores) by (simpl; lia).
    split; [reflexivity | split; [exact Hne | split; [exact Hlen |]]].
    destruct (trial_score_mean_over_std Numpy.sqrt_down subprocess 3 scores
                eq_refl Hne) as [v [Hv [Hseveral _]]].
    exists v. split; [exact Hv | exact (Hseveral Hlen)].
  - assert (Hne : [Some (1 # 1)%Q] <> []) by discriminate.
    split; [reflexivity | split; [exact Hne |]].
    destruct (trial_score_mean_over_std Numpy.sqrt_down subprocess 1
                [Some (1 # 1)%Q] eq_refl Hne) as [v [Hv [_ Hsingle]]].
    exists v. split; [exact Hv | exact (Hsingle _ eq_refl)].
Defined.

(** ** [NNTrainer.fit]: the training loader *)

Section TrainLoaderFacts.
Import Trainer.
Variable Model : Type.

Lemma last_repeat_snoc (b r q : nat) : last (repeat b q ++ [r]) 0 = r.
Proof. apply last_last. Qed.

Lemma last_repeat (b q : nat) : 0 < q -> last (repeat b q) 0 = b.
Proof.
  destruct q as [| q]; [lia |]. intros _.
  replace (S q) with (q + 1) by lia.
  rewrite repeat_app. simpl. apply last_last.
Qed.

(** The last batch, when nothing is dropped, holds the remainder of the
    division, or a full batch when the division is exact. *)
Lemma final_batch_length_eq (n b : nat) :
  0 < b -> b <= n ->
  final_batch_length n b = if n mod b =? 0 then b else n mod b.
Proof.
  intros Hb Hn. unfold final_batch_length, batch_lengths; simpl.
  destruct (Nat.eqb_spec (n mod b) 0) as [E | E]; simpl.
  - rewrite app_nil_r. apply last_repeat.
    apply Nat.div_str_pos. lia.
  - apply last_repeat_snoc.
Qed.

Lemma batch_lengths_In (dl : DataLoader) (x : nat) :
  In x (batch_lengths dl) ->
  x = loader_batch_size dl
  \/ (x = dataset_len dl mod loader_batch_size dl /\ drop_last dl = false
      /\ x <> 0).
Proof.
  unfold batch_lengths. rewrite in_app_iff. intros [H | H].
  - left. now apply repeat_spec in H.
  - right.
    destruct (Nat.eqb_spec (dataset_len dl mod loader_batch_size dl) 0) as [E | E];
      simpl in H; [contradiction |].
    destruct (drop_last dl); simpl in H; [contradiction |].
    destruct H as [<- | []]. auto.
Qed.

(** C8, as the code has it. For a training set of [n >= 1] rows and a
    configured batch size of at least 1, [fit] caps the batch size at [n]
    and builds a loader that drops its last batch exactly when [n] modulo
    the capped batch size is 1. For a capped batch size of at least 2 that
    is exactly when the last batch would hold a single row, and then no
    batch of a single row is delivered. *)
Theorem train_loader_batching :
  forall (self : NNTrainer Model) (n : nat),
    0 < n ->
    (0 < batch_size self)%Z ->
    let b := Z.min (Z.of_nat n) (batch_size self) in
    exists dl self',
      make_train_loader n self = (Ok dl, self') /\
      batch_size self' = b /\
      dataset_len dl = n /\
      loader_batch_size dl = Z.to_nat b /\
      (drop_last dl = true <-> (Z.of_nat n mod b = 1)%Z) /\
      ((2 <= b)%Z ->
       (drop_last dl = true <-> final_batch_length n (Z.to_nat b) = 1) /\
       ~ In 1 (batch_lengths dl)).
Proof.
  intros self n Hn Hb b.
  assert (Hbpos : (0 < b)%Z) by (unfold b; lia).
  assert (Hble : (b <= Z.of_nat n)%Z) by (unfold b; lia).
  set (dl := {| dataset_len := n; loader_batch_size := Z.to_nat b;
                drop_last := (Z.of_nat n mod b =? 1)%Z |}).
  assert (Hrun : exists self',
             make_train_loader n self = (Ok dl, self') /\ batch_size self' = b).
  { unfold make_train_loader, bind, get, modify, ret, lift.
    destruct (Z.ltb_spec (Z.of_nat n) (batch_size self)) as [Hlt | Hge]; simpl.
    - assert (Eb : b = Z.of_nat n) by (unfold b; lia).
      unfold py_mod, DataLoader__init__.
      destruct (Z.eqb_spec (Z.of_nat n) 0); [lia |]. simpl.
      destruct (Z.leb_spec (Z.of_nat n) 0); [lia |].
      unfold dl. rewrite Eb. eexists; split; reflexivity.
    - assert (Eb : b = batch_size self) by (unfold b; lia).
      unfold py_mod, DataLoader__init__.
      destruct (Z.eqb_spec (batch_size self) 0); [lia |]. simpl.
      destruct (Z.leb_spec (batch_size self) 0); [lia |].
      unfold dl. rewrite Eb. eexists; split; reflexivity. }
  clearbody b.
  destruct Hrun as [self' [Hrun Hbs]].
  exists dl, self'. repeat split; auto.
  - simpl. intros H. now apply Z.eqb_eq.
  - simpl. intros H. now apply Z.eqb_eq.
  - simpl. rewrite Z.eqb_eq. intros Hmod.
    rewrite final_batch_length_eq by lia.
    assert (Hm : n mod Z.to_nat b = 1).
    { apply Nat2Z.inj. rewrite Nat2Z.inj_mod, Z2Nat.id by lia. exact Hmod. }
    rewrite Hm. reflexivity.
  - simpl. rewrite Z.eqb_eq.
    rewrite final_batch_length_eq by lia.
    destruct (Nat.eqb_spec (n mod Z.to_nat b) 0) as [E | E]; [lia |].
    intros Hm. rewrite <- (Z2Nat.id b) at 1 by lia.
    rewrite <- Nat2Z.inj_mod, Hm. reflexivity.
  - intros Hin. apply batch_lengths_In in Hin. simpl in Hin.
    destruct Hin as [Hin | [Hin [Hdrop _]]]; [lia |].
    apply Z.eqb_neq in Hdrop. apply Hdrop.
    rewrite <- (Z2Nat.id b) at 1 by lia.
    rewrite <- Nat2Z.inj_mod, <- Hin. reflexivity.
Qed.

End TrainLoaderFacts.

Lemma train_loader_batching_witness :
  let self := trainer_of_batch_size 4 in
  0 < 9 /\ (0 < Trainer.batch_size self)%Z /\ (2 <= Z.min 9 4)%Z /\
  exists dl self',
    Trainer.make_train_loader 9 self = (Ok dl, self') /\
    Trainer.batch_size self' = Z.min 9 4 /\
    Trainer.dataset_len dl = 9 /\
    Trainer.loader_batch_size dl = Z.to_nat (Z.min 9 4) /\
    (Trainer.drop_last dl = true <-> (9 mod Z.min 9 4 = 1)%Z) /\
    (Trainer.drop_last dl = true
     <-> Trainer.final_batch_length 9 (Z.to_nat (Z.min 9 4)) = 1) /\
    ~ In 1 (Trainer.batch_lengths dl).
Proof.
  intros self.
  assert (H2 : (2 <= Z.min 9 4)%Z) by (simpl; lia).
  split; [lia | split; [reflexivity | split; [exact H2 |]]].
  destruct (train_loader_batching nat self 9 (le_n_S 0 8 (le_0_n 8)) eq_refl)
    as [dl [self' (Hrun & Hb & Hn & Hl & Hdrop & Hfinal)]].
  exists dl, self'.
  repeat (split; [assumption |]). exact (Hfinal H2).
Defined.

(** C8, as the claim has it, fails for a batch size of 1: with three
    training rows every batch, the last one included, holds a single row;
    3 modulo 1 is 0, the loader drops nothing and delivers three batches of
    one row. *)
Lemma single_row_final_batch_kept :
  Trainer.final_batch_length 3 1 = 1 /\
  exists dl self',
    Trainer.make_train_loader 3 (trainer_of_batch_size 1) = (Ok dl, self') /\
    Trainer.drop_last dl = false /\
    Trainer.batch_lengths dl = [1; 1; 1].
Proof.
  split; [reflexivity |].
  eexists; eexists. split; [reflexivity | split; reflexivity].
Qed.

(** ** Early stopping in the two training loops *)

Section NNTrainerFitFacts.
Import EarlyStopping Trainer.
Variable Model : Type.
Variable train : DataLoader -> Model -> Model * Q.
Variable validation_loss : Model -> Q.

Lemma make_train_loader_state (n : nat) (self : NNTrainer Model) :
  snd (make_train_loader n self)
  = if (Z.of_nat n <? batch_size self)%Z
    then set_batch_size (Z.of_nat n) self else self.
Proof.
  unfold make_train_loader, bind, get, modify, ret, lift.
  destruct (Z.of_nat n <? batch_size self)%Z; simpl;
    (destruct (py_mod _ _); reflexivity).
Qed.

Lemma make_train_loader_epochs (n : nat) (self self' : NNTrainer Model)
  (r : result DataLoader) :
  make_train_loader n self = (r, self') -> epochs self' = epochs self.
Proof.
  intros H. pose proof (make_train_loader_state n self) as Hs.
  rewrite H in Hs. simpl in Hs. subst self'.
  destruct (Z.of_nat n <? batch_size self)%Z; reflexivity.
Qed.

Lemma epochs_loop_step (todo : nat) (dl : DataLoader) (es : EarlyStopper)
  (tl vl : list Q) (self : NNTrainer Model) (files : Files Model) (m : Model) :
  model self = Some m ->
  epochs_loop train validation_loss (S todo) dl es tl vl (self, files)
  = match evaluate validation_loss es
            (set_model (fst (train dl m)) self, files) with
    | (Ok (val_epoch_loss, es'), w') =>
        epochs_loop train validation_loss todo dl es'
                    (tl ++ [snd (train dl m)]) (vl ++ [val_epoch_loss]) w'
    | (Raise e, w') => (Raise e, w')
    end.
Proof.
  intros Hm. cbn [epochs_loop]. rewrite Hm.
  destruct (train dl m) as [m' loss]. reflexivity.
Qed.

(** The loop of [NNTrainer.fit] has no exit: when it returns, every one
    of the epochs has trained, whatever the early stopper said. *)
Lemma epochs_loop_runs_all (todo : nat) :
  forall (dl : DataLoader) (es : EarlyStopper) (tl vl tl' vl' : list Q)
         (w w' : World Model),
    epochs_loop train validation_loss todo dl es tl vl w = (Ok (tl', vl'), w') ->
    length tl' = length tl + todo.
Proof.
  induction todo as [| todo IH]; intros dl es tl vl tl' vl' w w' H.
  - simpl in H. inversion H; subst. lia.
  - destruct w as [self files].
    destruct (model self) as [m |] eqn:Hm.
    + rewrite (epochs_loop_step todo dl es tl vl self files m Hm) in H.
      destruct (evaluate validation_loss es _) as [[[v es'] | e] w1];
        [| discriminate].
      apply IH in H. rewrite length_app in H. simpl in H. lia.
    + cbn [epochs_loop] in H. rewrite Hm in H. discriminate.
Qed.

Lemma fit_runs_all_epochs (n : nat) (self : NNTrainer Model)
  (files : Files Model) (tl vl : list Q) (w' : World Model) :
  fit train validation_loss n (self, files) = (Ok (tl, vl), w') ->
  length tl = epochs self.
Proof.
  unfold fit.
  destruct (trial_defined self && negb (metric_defined self)); [discriminate |].
  destruct (model self); [| discriminate].
  destruct (make_train_loader n self) as [[dl | e] self'] eqn:Hdl; [| discriminate].
  apply make_train_loader_epochs in Hdl. rewrite <- Hdl.
  intros H. apply epochs_loop_runs_all in H. exact H.
Qed.

End NNTrainerFitFacts.

Section TorchFitFacts.
Import EarlyStopping Trainer TorchBase.
Variable Params : Type.
Variable train_step : DataLoader -> Params -> Params * Q.
Variable validation_loss : Params -> Q.
Variable validation_score : Params -> Q.

Lemma execute_train_step_history (dl : DataLoader) (self : TorchCustomModel Params) :
  length (_evaluations_train (_execute_train_step train_step dl self))
  = S (length (_evaluations_train self)).
Proof.
  unfold _execute_train_step. destruct (train_step dl (parameters self)).
  simpl. rewrite length_app. simpl. lia.
Qed.

(** The loop of [TorchCustomModel.fit] leaves at the first epoch whose
    validation raises the flag of the early stopper: [r] epochs have trained,
    and fewer than [max_epochs] only when the flag is up. *)
Lemma epochs_loop_stops (todo : nat) :
  forall (dl vd : DataLoader) (es : EarlyStopper) (w : World Params)
         (looped : result unit)
         (v' : option (EarlyStopper * DataLoader)) (w' : World Params),
    epochs_loop train_step validation_loss validation_score todo dl
                (Some (es, vd)) w = (looped, v', w') ->
    exists es' r,
      looped = Ok tt /\
      v' = Some (es', vd) /\
      length (_evaluations_train (fst w'))
      = length (_evaluations_train (fst w)) + r /\
      r <= todo /\
      (r < todo -> early_stop es' = true).
Proof.
  induction todo as [| todo IH]; intros dl vd es w looped v' w' H; simpl in H.
  - inversion H; subst. exists es, 0. repeat split; try lia.
  - destruct w as [self files]. simpl in H.
    pose proof (execute_train_step_history dl self) as Hlen.
    destruct (call (validation_score
                      (parameters (_execute_train_step train_step dl self)))
                   (parameters (_execute_train_step train_step dl self)) es files)
      as [es1 files1] eqn:Hcall.
    destruct (early_stop es1) eqn:Hstop.
    + inversion H; subst. exists es1, 1. simpl. repeat split; try lia. auto.
    + apply IH in H. destruct H as [es' [r [Hok [Hv [Hl [Hr Hs]]]]]].
      exists es', (S r). simpl in *. repeat split; try lia; auto.
      intros Hlt. apply Hs. lia.
Qed.

(** When [TorchCustomModel.fit] returns with a validation set in use, the
    parameters are the ones of the checkpoint the loop left behind and the
    checkpoint file is gone. *)
Lemma fit_restores_and_cleans (dataset : PetaleDataset) (batch_size : Z)
  (valid_batch_size : option Z) (max_epochs patience : nat)
  (sample_weights : option nat) (w : World Params)
  (self' : TorchCustomModel Params) (files' : Files Params) (vm : list Z) :
  valid_mask dataset = Some vm -> vm <> [] ->
  fit train_step validation_loss validation_score dataset batch_size
      valid_batch_size max_epochs patience sample_weights w
  = (Ok tt, (self', files')) ->
  exists train_data validation validation' self1 best,
    _create_train_objects dataset batch_size = Ok train_data /\
    _create_validation_objects dataset valid_batch_size patience = Ok validation /\
    epochs_loop train_step validation_loss validation_score max_epochs
                train_data validation w
    = (Ok tt, validation', (self1, Some best)) /\
    self' = load_state_dict best self1 /\
    files' = None.
Proof.
  intros Hvm Hne. unfold fit.
  destruct (_validate_sample_weights dataset sample_weights); [| discriminate].
  destruct (_create_train_objects dataset batch_size) as [td |]; [| discriminate].
  destruct (_create_validation_objects dataset valid_batch_size patience)
    as [v0 |] eqn:Hv0; [| discriminate].
  destruct (epochs_loop _ _ _ max_epochs td v0 w)
    as [[looped v1] [self1 files1]] eqn:Hloop.
  assert (Hsome : exists es vd, v0 = Some (es, vd)).
  { unfold _create_validation_objects in Hv0. rewrite Hvm in Hv0.
    destruct vm as [| i vm]; [contradiction |]. simpl in Hv0.
    destruct (DataLoader__init__ _ _ false) as [vd |]; simpl in Hv0;
      inversion Hv0; eauto. }
  destruct Hsome as [es [vd ->]].
  pose proof Hloop as Hl.
  apply epochs_loop_stops in Hl. destruct Hl as [es' [r [-> [Hv _]]]]. subst v1.
  destruct files1 as [best |]; simpl; [| discriminate].
  intros H; inversion H; subst.
  exists td, (Some (es, vd)), (Some (es', vd)), self1, best. auto.
Qed.

End TorchFitFacts.

(** C7, on [NNTrainer.fit]. Five epochs, a patience of 2 and a validation
    loss that stays at 1: the early stopper raises its flag at the third
    epoch, and [NNTrainer.fit] restores the best model (the one after the
    first epoch) but trains the fourth and the fifth epoch all the same,
    from the restored model, and leaves the checkpoint where it is.
    [TorchCustomModel.fit], given the same training, with a validation loss
    and a validation score that stay at 1, leaves its loop after the third
    epoch, loads the best parameters and removes the checkpoint. *)
Theorem nn_trainer_fit_trains_past_early_stop :
  Trainer.fit counting_train flat_validation 9 (trainer_of_batch_size 4, None)
  = (Ok ([0 # 1; 1 # 1; 2 # 1; 1 # 1; 1 # 1]%Q, [1; 1; 1; 1; 1]%Q),
     (Trainer.set_model 1 (trainer_of_batch_size 4), Some 1))
  /\
  TorchBase.fit counting_train flat_validation flat_validation nine_and_three
                4 None 5 2 None
                ({| TorchBase.parameters := 0;
                    TorchBase._evaluations_train := [];
                    TorchBase._evaluations_valid := [] |}, None)
  = (Ok tt,
     ({| TorchBase.parameters := 1;
         TorchBase._evaluations_train := [0 # 1; 1 # 1; 2 # 1]%Q;
         TorchBase._evaluations_valid := [1; 1; 1]%Q |}, None)).
Proof. split; vm_compute; reflexivity. Qed.

(** ** [Evaluator.nested_cross_valid]: a fold that raises *)

Lemma for_each_app {S A} (xs ys : list A) (body : A -> M S unit) (s s' : S) :
  for_each xs body s = (Ok tt, s') ->
  for_each (xs ++ ys) body s = for_each ys body s'.
Proof.
  revert s; induction xs as [| x xs IH]; simpl; intros s H.
  - inversion H; reflexivity.
  - unfold bind in *. destruct (body x s) as [[[] | e] s1]; [| discriminate].
    now apply IH.
Qed.

Section EvaluatorFacts.
Import Evaluator.
Variables Hyper Importance Model Data Pred : Type.
Variable sampler : nat -> nat -> result (nat -> result Data).
Variable tune : nat -> Data -> result (Hyper * Importance).
Variable fit : nat -> Data -> Hyper -> result Model.
Variable predict : nat -> Data -> Model -> result Pred.
Variable summarize : result unit.

Let Evaluator := Evaluator.Evaluator Data Pred.
Let Recorder := Evaluator.Recorder Hyper Importance Model Pred.
Let run_fold := @Evaluator.run_fold Hyper Importance Model Data Pred tune fit predict.
Let outer_fold :=
  @Evaluator.outer_fold Hyper Importance Model Data Pred tune fit predict summarize.

Lemma run_fold_index (self : Evaluator) (datasets : nat -> result Data)
  (i : nat) (r : Recorder) :
  run_fold self datasets i = Ok r -> rec_index r = i.
Proof.
  unfold run_fold, Evaluator.run_fold. intros H.
  repeat match type of H with
         | rbind ?x _ = Ok _ =>
             let a := fresh "a" in
             let Ha := fresh "Ha" in
             apply rbind_ok in H; destruct H as [a [Ha H]]
         end.
  inversion H; reflexivity.
Qed.

(** The folds before [i], when each of them runs to its end, leave one
    file each, in order, and the loop goes on. *)
Lemma folds_recorded (self : Evaluator) (datasets : nat -> result Data) (i : nat) :
  summarize = Ok tt ->
  (forall j, j < i -> is_ok (run_fold self datasets j) = true) ->
  forall files : list Recorder,
  exists entries,
    for_each (seq 0 i) (outer_fold self datasets) files
    = (Ok tt, files ++ entries) /\
    map (@rec_index _ _ _ _) entries = seq 0 i.
Proof.
  intros Hsum. induction i as [| i IH]; intros Hok files.
  - exists []. simpl. rewrite app_nil_r. auto.
  - destruct (IH (fun j Hj => Hok j (Nat.lt_lt_succ_r _ _ Hj)) files)
      as [entries [Hrun Hidx]].
    rewrite seq_S. simpl.
    rewrite (for_each_app _ _ _ _ _ Hrun). simpl.
    pose proof (Hok i (Nat.lt_succ_diag_r i)) as Hi.
    destruct (run_fold self datasets i) as [r |] eqn:Hr; [| discriminate].
    exists (entries ++ [r]).
    unfold outer_fold, Evaluator.outer_fold, bind, lift, modify, ret.
    fold run_fold. rewrite Hr, Hsum. rewrite <- app_assoc. split; [reflexivity |].
    rewrite map_app. simpl. rewrite (run_fold_index _ _ _ _ Hr).
    f_equal. exact Hidx.
Qed.

(** C6, as the code has it. [nested_cross_valid] has no handler around a
    fold. When every fold runs to its end the run leaves [k] files, one per
    fold. When the folds before fold [i] run to their end and fold [i]
    raises, the run raises the same exception: the folds before [i] have
    their files, fold [i] and the folds after it have none. *)
Theorem nested_cross_valid_stops_at_failure :
  forall (self : Evaluator) (datasets : nat -> result Data)
         (files : list Recorder),
    sampler (k self) (l self) = Ok datasets ->
    summarize = Ok tt ->
    ((forall j, j < k self -> is_ok (run_fold self datasets j) = true) ->
     exists entries,
       nested_cross_valid sampler tune fit predict summarize self files
       = (Ok tt, files ++ entries) /\
       map (@rec_index _ _ _ _) entries = seq 0 (k self))
    /\
    (forall i e,
       i < k self ->
       (forall j, j < i -> is_ok (run_fold self datasets j) = true) ->
       run_fold self datasets i = Raise e ->
       exists entries,
         nested_cross_valid sampler tune fit predict summarize self files
         = (Raise e, files ++ entries) /\
         map (@rec_index _ _ _ _) entries = seq 0 i).
Proof.
  intros self datasets files Hs Hsum.
  unfold nested_cross_valid, bind, lift. rewrite Hs. split.
  - intros Hok. now apply folds_recorded.
  - intros i e Hi Hok Hr.
    destruct (folds_recorded self datasets i Hsum Hok files)
      as [entries [Hrun Hidx]].
    exists entries. split; [| exact Hidx].
    replace (k self) with (i + S (k self - S i)) by lia.
    rewrite seq_app. rewrite (for_each_app _ _ _ _ _ Hrun). simpl.
    unfold bind at 1.
    unfold outer_fold at 1, Evaluator.outer_fold, bind, lift.
    fold run_fold. rewrite Hr. reflexivity.
Qed.

End EvaluatorFacts.

Lemma nested_cross_valid_stops_at_failure_witness :
  let datasets := fun i : nat => Ok i in
  let sampler := fun _ _ : nat => Ok datasets in
  let tune := fun (_ : nat) (_ : nat) => Ok (tt, tt) in
  let fit := fun (i : nat) (_ : nat) (_ : unit) => Ok i in
  let predict := fun (i : nat) (_ : nat) (_ : nat) => Ok i in
  sampler 3 1 = Ok datasets /\
  @Ok unit tt = Ok tt /\
  ((forall j, j < 1 ->
      is_ok (Evaluator.run_fold tune fit predict one_fold datasets j) = true) /\
   exists entries,
     Evaluator.nested_cross_valid sampler tune fit predict (Ok tt) one_fold []
     = (Ok tt, [] ++ entries) /\
     map (@Evaluator.rec_index _ _ _ _) entries = seq 0 1) /\
  (1 < 3 /\
   (forall j, j < 1 ->
      is_ok (Evaluator.run_fold tune fit predict three_folds datasets j) = true) /\
   Evaluator.run_fold tune fit predict three_folds datasets 1 = Raise ValueError /\
   exists entries,
     run_three_folds [] = (Raise ValueError, [] ++ entries) /\
     map (@Evaluator.rec_index _ _ _ _) entries = seq 0 1).
Proof.
  intros datasets sampler tune fit predict.
  assert (H0 : forall (self : Evaluator.Evaluator nat nat) j,
             Evaluator.evaluation_metrics self
             = [("AUC"%string, auc_undefined_on_fold_1)] ->
             j < 1 ->
             is_ok (Evaluator.run_fold tune fit predict self datasets j) = true).
  { intros self j Hm Hj. assert (j = 0) by lia. subst j.
    unfold Evaluator.run_fold. rewrite Hm. reflexivity. }
  split; [reflexivity | split; [reflexivity | split]].
  - split; [exact (fun j => H0 one_fold j eq_refl) |].
    exact (proj1 (nested_cross_valid_stops_at_failure
                    unit unit nat nat nat sampler tune fit predict (Ok tt)
                    one_fold datasets [] eq_refl eq_refl)
                 (fun j => H0 one_fold j eq_refl)).
  - split; [lia |].
    split; [exact (fun j => H0 three_folds j eq_refl) |].
    split; [reflexivity |].
    exact (proj2 (nested_cross_valid_stops_at_failure
                    unit unit nat nat nat sampler tune fit predict (Ok tt)
                    three_folds datasets [] eq_refl eq_refl)
                 1 ValueError (le_n_S 1 2 (le_n_S 0 1 (le_0_n 1)))
                 (fun j => H0 three_folds j eq_refl) eq_refl).
Defined.

(** C6, as the claim has it, fails: fold 1 raises, the run raises with it,
    and of the three folds only fold 0 has left an entry; fold 2 never ran. *)
Lemma failed_fold_ends_the_run :
  exists entry,
    run_three_folds [] = (Raise ValueError, [entry]) /\
    Evaluator.rec_index entry = 0.
Proof. eexists. split; reflexivity. Qed.

(** ** [CustomDataset.update_masks] *)

Section UpdateMasksFacts.
Import Numpy Pandas Datasets.
Variable sqrt : Q -> Q.

Lemma current_train_stats_eq (self : Dataset) :
  current_train_stats sqrt self = (train_stats sqrt self, self).
Proof.
  unfold current_train_stats, train_stats, bind, get, lift, ret.
  destruct (iloc _ _) as [td |]; simpl; [| reflexivity].
  destruct (get_mu_and_std sqrt self td) as [ms |]; simpl; [| reflexivity].
  destruct (get_modes self td); reflexivity.
Qed.

Lemma numerical_setter_eq (mu sd : option Labelled) (self : Dataset) :
  _numerical_setter mu sd self
  = match numerical_features self mu sd with
    | Ok o => (Ok tt, store_x_cont o self)
    | Raise e => (Raise e, self)
    end.
Proof.
  unfold _numerical_setter, numerical_features, bind, get, lift, ret, modify.
  destruct (cont_cols self) as [cols |]; [| reflexivity].
  destruct (getitems _ cols) as [sub |]; simpl; [| reflexivity].
  destruct (preprocess_continuous _ _ _) as [t |]; simpl; [| reflexivity].
  destruct (to_numpy t); reflexivity.
Qed.

Lemma categorical_setter_eq (modes : option Labelled) (self : Dataset) :
  _categorical_setter modes self
  = match categorical_features self modes with
    | Ok o => (Ok tt, store_x_cat o self)
    | Raise e => (Raise e, self)
    end.
Proof.
  unfold _categorical_setter, categorical_features, bind, get, lift, ret, modify.
  destruct (cat_cols self) as [cols |]; [| reflexivity].
  destruct (getitems _ cols) as [sub |]; simpl; [| reflexivity].
  destruct (to_numpy _); reflexivity.
Qed.

(** [update_masks], step by step. *)
Lemma update_masks_eq (tr te : list Z) (va : option (list Z)) (self : Dataset) :
  update_masks sqrt tr te va self
  = let s1 := set_masks tr va te self in
    match train_stats sqrt s1 with
    | Raise e => (Raise e, s1)
    | Ok stats =>
        match numerical_features s1 (fst (fst stats)) (snd (fst stats)) with
        | Raise e => (Raise e, s1)
        | Ok xc =>
            match categorical_features (store_x_cont xc s1) (snd stats) with
            | Raise e => (Raise e, store_x_cont xc s1)
            | Ok xk => (Ok tt, store_x_cat xk (store_x_cont xc s1))
            end
        end
    end.
Proof.
  unfold update_masks. unfold bind at 1. unfold modify at 1.
  unfold bind at 1. rewrite current_train_stats_eq.
  cbv zeta. destruct (train_stats sqrt _) as [stats |]; [| reflexivity].
  unfold bind. rewrite numerical_setter_eq.
  destruct (numerical_features _ _ _) as [xc |]; [| reflexivity].
  rewrite categorical_setter_eq. reflexivity.
Qed.

Lemma same_base_refl (a : Dataset) : same_base a a.
Proof. repeat split. Qed.

Lemma same_base_store_x_cont (o : option (Tensor float)) (a : Dataset) :
  same_base (store_x_cont o a) a.
Proof. destruct o; repeat split. Qed.

Lemma same_base_store_x_cat (o : option (Tensor (option Z))) (a : Dataset) :
  same_base (store_x_cat o a) a.
Proof. destruct o; repeat split. Qed.

Lemma same_base_trans (a b c : Dataset) :
  same_base a b -> same_base b c -> same_base a c.
Proof.
  unfold same_base. intros H1 H2.
  repeat match goal with H : _ /\ _ |- _ => destruct H end.
  repeat split; congruence.
Qed.

Lemma get_mu_and_std_base (a b : Dataset) (df : DataFrame) :
  cont_cols a = cont_cols b -> get_mu_and_std sqrt a df = get_mu_and_std sqrt b df.
Proof. unfold get_mu_and_std. now intros ->. Qed.

Lemma get_modes_base (a b : Dataset) (df : DataFrame) :
  cat_cols a = cat_cols b -> get_modes a df = get_modes b df.
Proof. unfold get_modes. now intros ->. Qed.

Lemma train_stats_base (a b : Dataset) :
  same_base a b -> train_stats sqrt a = train_stats sqrt b.
Proof.
  intros (_ & _ & Ht & _ & _ & Ho & _ & _ & Hc & Hk & _).
  unfold train_stats. rewrite Ht, Ho.
  destruct (iloc _ _) as [td |]; simpl; [| reflexivity].
  rewrite (get_mu_and_std_base a b td Hc).
  destruct (get_mu_and_std sqrt b td); simpl; [| reflexivity].
  now rewrite (get_modes_base a b td Hk).
Qed.

Lemma numerical_features_base (a b : Dataset) (mu sd : option Labelled) :
  same_base a b -> numerical_features a mu sd = numerical_features b mu sd.
Proof.
  intros (_ & _ & _ & _ & _ & Ho & _ & _ & Hc & _ & _).
  unfold numerical_features. now rewrite Ho, Hc.
Qed.

Lemma categorical_features_base (a b : Dataset) (modes : option Labelled) :
  same_base a b -> categorical_features a modes = categorical_features b modes.
Proof.
  intros (_ & _ & _ & _ & _ & Ho & _ & _ & _ & Hk & He).
  unfold categorical_features. now rewrite Ho, Hk, He.
Qed.

Lemma set_masks_again (tr te : list Z) (va : option (list Z)) (a : Dataset) :
  _train_mask a = tr -> _valid_mask a = va -> _test_mask a = te ->
  set_masks tr va te a = a.
Proof. destruct a; simpl; intros; subst; reflexivity. Qed.

Lemma store_x_cont_again (xc : option (Tensor float))
  (xk : option (Tensor (option Z))) (a : Dataset) :
  store_x_cont xc (store_x_cat xk (store_x_cont xc a))
  = store_x_cat xk (store_x_cont xc a).
Proof. destruct xc, xk; reflexivity. Qed.

Lemma store_x_cont_twice (xc : option (Tensor float)) (a : Dataset) :
  store_x_cont xc (store_x_cont xc a) = store_x_cont xc a.
Proof. destruct xc; reflexivity. Qed.

Lemma store_x_cat_twice (xk : option (Tensor (option Z))) (a : Dataset) :
  store_x_cat xk (store_x_cat xk a) = store_x_cat xk a.
Proof. destruct xk; reflexivity. Qed.

(** The state [update_masks] leaves behind, raised or not, has the masks
    it was given and the base of the state it started from. *)
Lemma update_masks_base (tr te : list Z) (va : option (list Z)) (self : Dataset) :
  same_base (snd (update_masks sqrt tr te va self)) (set_masks tr va te self).
Proof.
  rewrite update_masks_eq. cbv zeta.
  destruct (train_stats sqrt _) as [stats |]; simpl; [| apply same_base_refl].
  destruct (numerical_features _ _ _) as [xc |]; simpl; [| apply same_base_refl].
  destruct (categorical_features _ _) as [xk |]; simpl.
  - eapply same_base_trans; [apply same_base_store_x_cat |].
    apply same_base_store_x_cont.
  - apply same_base_store_x_cont.
Qed.

(** C3. Calling [update_masks] a second time with the same masks changes
    nothing: the second call has the outcome of the first and leaves the
    dataset, its feature matrices [_x_cont] and [_x_cat] included, as the
    first call left it. *)
Theorem update_masks_idempotent :
  forall (self : Dataset) (tr te : list Z) (va : option (list Z)),
    let after := snd (update_masks sqrt tr te va self) in
    update_masks sqrt tr te va after = update_masks sqrt tr te va self /\
    _x_cont (snd (update_masks sqrt tr te va after)) = _x_cont after /\
    _x_cat (snd (update_masks sqrt tr te va after)) = _x_cat after.
Proof.
  intros self tr te va after.
  assert (Hmain : update_masks sqrt tr te va after
                  = update_masks sqrt tr te va self).
  { pose proof (update_masks_base tr te va self) as Hb. fold after in Hb.
    assert (Hs : set_masks tr va te after = after).
    { destruct Hb as (_ & _ & Ht & Hv & He & _).
      apply set_masks_again; [rewrite Ht | rewrite Hv | rewrite He]; reflexivity. }
    rewrite (update_masks_eq tr te va after). cbv zeta. rewrite Hs.
    rewrite (train_stats_base _ _ Hb).
    unfold after in *. clear after. revert Hb Hs.
    rewrite (update_masks_eq tr te va self). cbv zeta.
    set (s1 := set_masks tr va te self).
    destruct (train_stats sqrt s1) as [stats |] eqn:Hst; simpl; [| reflexivity].
    destruct (numerical_features s1 _ _) as [xc |] eqn:Hn; simpl.
    - destruct (categorical_features (store_x_cont xc s1) _) as [xk |] eqn:Hc;
        simpl; intros Hb Hs.
      + rewrite (numerical_features_base _ _ _ _ Hb), Hn.
        rewrite store_x_cont_again.
        rewrite (categorical_features_base _ (store_x_cont xc s1)), Hc.
        * now rewrite store_x_cat_twice.
        * apply same_base_store_x_cat.
      + rewrite (numerical_features_base _ _ _ _ Hb), Hn.
        rewrite store_x_cont_twice, Hc. reflexivity.
    - intros Hb Hs. rewrite Hn. reflexivity. }
  rewrite Hmain. auto.
Qed.

(** C10. [update_masks], whether it returns or raises, leaves the original
    dataframe, the identifiers, the targets and the encodings as they were,
    and with them the target name, the number of rows and the lists of
    columns: it writes the three masks and the two feature matrices only. *)
Theorem update_masks_frame :
  forall (self : Dataset) (tr te : list Z) (va : option (list Z)),
    let after := snd (update_masks sqrt tr te va self) in
    _original_data after = _original_data self /\
    _ids after = _ids self /\
    _y after = _y self /\
    _encodings after = _encodings self /\
    _target after = _target self /\
    _n after = _n self /\
    cont_cols after = cont_cols self /\
    cat_cols after = cat_cols self /\
    _train_mask after = tr /\ _valid_mask after = va /\ _test_mask after = te.
Proof.
  intros self tr te va after.
  destruct (update_masks_base tr te va self)
    as (H1 & H2 & H3 & H4 & H5 & H6 & H7 & H8 & H9 & H10 & H11).
  fold after in H1, H2, H3, H4, H5, H6, H7, H8, H9, H10, H11.
  simpl in *. repeat split; assumption.
Qed.

End UpdateMasksFacts.

(** ** Frames: positions, rows and columns *)

Section FrameFacts.
Import Pandas Datasets.

Lemma position_in_range (n : nat) (i : Z) :
  in_range n i = true -> exists p, position n i = Ok p /\ p < n.
Proof.
  unfold in_range, position. intros H.
  apply andb_true_iff in H. destruct H as [Hlo Hhi].
  apply Z.leb_le in Hlo. apply Z.ltb_lt in Hhi.
  destruct (Z.leb_spec 0 i) as [H0 | H0]; simpl.
  - destruct (Z.ltb_spec i (Z.of_nat n)); [| lia].
    exists (Z.to_nat i). split; [reflexivity | lia].
  - destruct (Z.leb_spec (- Z.of_nat n) i); [| lia].
    destruct (Z.ltb_spec i 0); [| lia]. simpl.
    exists (Z.to_nat (Z.of_nat n + i)). split; [reflexivity | lia].
Qed.

Lemma position_out_of_range (n : nat) (i : Z) :
  in_range n i = false -> position n i = Raise IndexError.
Proof.
  unfold in_range, position. intros H.
  apply andb_false_iff in H.
  destruct H as [H | H]; [apply Z.leb_gt in H | apply Z.ltb_ge in H].
  - destruct (Z.leb_spec 0 i); [lia |]. simpl.
    destruct (Z.leb_spec (- Z.of_nat n) i); [lia | reflexivity].
  - destruct (Z.ltb_spec i (Z.of_nat n)); [lia |].
    rewrite andb_false_r.
    destruct (Z.ltb_spec i 0); [lia |].
    rewrite andb_false_r. reflexivity.
Qed.

Lemma position_raises (n : nat) (i : Z) (e : exn) :
  position n i = Raise e -> e = IndexError /\ in_range n i = false.
Proof.
  intros H. destruct (in_range n i) eqn:Hr.
  - apply position_in_range in Hr. destruct Hr as [p [Hp _]]. congruence.
  - rewrite (position_out_of_range _ _ Hr) in H. inversion H. auto.
Qed.

(** [iloc] returns the rows at the positions of the mask when every index
    of the mask is one of the frame, and raises IndexError otherwise. *)
Lemma iloc_in_range (df : DataFrame) (mask : list Z) :
  forallb (in_range (shape0 df)) mask = true ->
  exists pos, rmap (position (shape0 df)) mask = Ok pos /\
              iloc df mask = Ok (take pos df).
Proof.
  intros H. unfold iloc.
  assert (Hok : is_ok (rmap (position (shape0 df)) mask) = true).
  { apply rmap_ok_all. intros i Hi.
    rewrite forallb_forall in H. specialize (H i Hi).
    apply position_in_range in H. destruct H as [p [-> _]]. reflexivity. }
  destruct (rmap _ mask) as [pos |]; [| discriminate].
  exists pos. auto.
Qed.

Lemma iloc_out_of_range (df : DataFrame) (mask : list Z) :
  forallb (in_range (shape0 df)) mask = false ->
  iloc df mask = Raise IndexError.
Proof.
  intros H. unfold iloc.
  destruct (rmap (position (shape0 df)) mask) as [pos | e] eqn:Hr; simpl.
  - exfalso. assert (Hall : forallb (in_range (shape0 df)) mask = true);
      [| congruence].
    apply forallb_forall. intros i Hi.
    destruct (in_range (shape0 df) i) eqn:Hin; [reflexivity |].
    apply position_out_of_range in Hin. clear H.
    revert pos Hr. induction mask as [| j mask IH]; [contradiction |].
    simpl. intros pos Hr.
    destruct (position (shape0 df) j) as [p |] eqn:Hj; simpl in Hr;
      [| discriminate].
    destruct (rmap _ mask) as [ps |]; simpl in Hr; [| discriminate].
    destruct Hi as [-> | Hi]; [congruence | eauto].
  - apply rmap_raise in Hr. destruct Hr as [i [_ Hi]].
    apply position_raises in Hi. destruct Hi as [-> _]. reflexivity.
Qed.

Lemma lookup_take (c : string) (pos : list nat) (cols : list (string * Series)) :
  lookup c (map (fun cs => (fst cs, picks pos (snd cs))) cols)
  = option_map (picks pos) (lookup c cols).
Proof.
  induction cols as [| [c' s] cols IH]; simpl; [reflexivity |].
  destruct (String.eqb c c'); [reflexivity | exact IH].
Qed.

Lemma getitem_take (df : DataFrame) (c : string) (s : Series) (pos : list nat) :
  getitem df c = Ok s -> getitem (take pos df) c = Ok (picks pos s).
Proof.
  unfold getitem. simpl. rewrite lookup_take.
  destruct (lookup c (columns df)); [| discriminate].
  intros H; inversion H; reflexivity.
Qed.

(** Selecting columns and selecting rows commute. *)
Lemma getitems_take (df sub : DataFrame) (cols : list string) (pos : list nat) :
  getitems df cols = Ok sub ->
  getitems (take pos df) cols = Ok (take pos sub).
Proof.
  unfold getitems. intros H. apply rbind_ok in H.
  destruct H as [cs [Hcs H]]. inversion H; subst; clear H.
  assert (Hmap : rmap (fun c => rbind (getitem (take pos df) c)
                                      (fun s => Ok (c, s))) cols
                 = Ok (map (fun cs => (fst cs, picks pos (snd cs))) cs)).
  { revert cs Hcs. induction cols as [| c cols IH]; simpl; intros cs Hcs.
    - inversion Hcs; reflexivity.
    - apply rbind_ok in Hcs. destruct Hcs as [[c' s] [Hc Hcs]].
      apply rbind_ok in Hcs. destruct Hcs as [cs' [Hcs' Hcs]].
      inversion Hcs; subst; clear Hcs.
      apply rbind_ok in Hc. destruct Hc as [s' [Hs' Hc]].
      inversion Hc; subst; clear Hc.
      rewrite (getitem_take _ _ _ pos Hs'). simpl.
      rewrite (IH cs' Hcs'). reflexivity. }
  rewrite Hmap. reflexivity.
Qed.

Lemma getitems_columns (df : DataFrame) (cols : list string) :
  has_columns df cols = true ->
  exists sub, getitems df cols = Ok sub /\
              index sub = index df /\
              Forall2 (fun c cs => fst cs = c /\ lookup c (columns df) = Some (snd cs))
                      cols (columns sub).
Proof.
  unfold has_columns, getitems. intros H.
  assert (Hm : exists cs,
             rmap (fun c => rbind (getitem df c) (fun s => Ok (c, s))) cols = Ok cs /\
             Forall2 (fun c cs => fst cs = c /\ lookup c (columns df) = Some (snd cs))
                     cols cs).
  { induction cols as [| c cols IH]; simpl in *.
    - exists []. split; [reflexivity | constructor].
    - apply andb_true_iff in H. destruct H as [Hc H].
      destruct (IH H) as [cs [Hcs HF]].
      destruct (lookup c (columns df)) as [s |] eqn:Hl; [| discriminate].
      assert (Hg : getitem df c = Ok s) by (unfold getitem; now rewrite Hl).
      rewrite Hg. simpl. rewrite Hcs. simpl.
      exists ((c, s) :: cs). split; [reflexivity |].
      constructor; auto. }
  destruct Hm as [cs [Hcs HF]]. rewrite Hcs. simpl.
  eexists. split; [reflexivity |]. simpl. auto.
Qed.

Lemma numeric_picks (pos : list nat) (s : Series) :
  numeric s = true -> numeric (picks pos s) = true.
Proof.
  unfold numeric, picks. intros H. rewrite forallb_forall in *.
  intros x Hx. apply in_flat_map in Hx. destruct Hx as [i [_ Hx]].
  destruct (nth_error s i) as [y |] eqn:Hy; [| contradiction].
  destruct Hx as [<- | []]. apply H. eapply nth_error_In; eauto.
Qed.

End FrameFacts.

(** ** Statistics of numeric columns and modes *)

Section StatisticsFacts.
Import Numpy Pandas Datasets.
Variable sqrt : Q -> Q.

Lemma numbers_numeric (s : Series) :
  numeric s = true -> exists qs, numbers s = Ok qs.
Proof.
  induction s as [| x s IH]; simpl; intros H; [eauto |].
  apply andb_true_iff in H. destruct H as [Hx Hs].
  destruct (IH Hs) as [qs Hqs].
  destruct x; simpl in *; [eauto | | discriminate].
  rewrite Hqs. simpl. eauto.
Qed.

Lemma series_mean_numeric : numeric_reduction series_mean.
Proof.
  intros s H. destruct (numbers_numeric s H) as [qs Hqs].
  unfold series_mean. rewrite Hqs. simpl.
  destruct qs; eexists; split; reflexivity.
Qed.

Lemma series_std_numeric : numeric_reduction (series_std sqrt).
Proof.
  intros s H. destruct (numbers_numeric s H) as [qs Hqs].
  unfold series_std. rewrite Hqs. simpl.
  destruct (length qs <? 2); eexists; split; reflexivity.
Qed.

Lemma reduce_numeric (f : Series -> result cell) (df : DataFrame) :
  numeric_reduction f -> numeric_frame df ->
  exists stats, reduce f df = Ok stats /\ clean stats.
Proof.
  intros Hf. unfold numeric_frame, reduce, clean.
  induction (columns df) as [| [c s] cols IH]; simpl; intros H.
  - exists []. split; [reflexivity | constructor].
  - inversion H as [| ? ? Hs Hcols]; subst. simpl in Hs.
    destruct (Hf s Hs) as [v [Hv Hclean]].
    destruct (IH Hcols) as [stats [Hstats Hc]].
    rewrite Hv. simpl. rewrite Hstats. simpl.
    exists ((c, v) :: stats). split; [reflexivity |].
    constructor; assumption.
Qed.

Lemma label_clean (c : string) (stats : Labelled) :
  clean stats -> no_str (label c stats) = true.
Proof.
  unfold label, clean. induction stats as [| [k v] stats IH]; simpl; intros H.
  - reflexivity.
  - inversion H; subst. destruct (String.eqb c k); auto.
Qed.

Lemma numeric_frame_take (pos : list nat) (df : DataFrame) :
  numeric_frame df -> numeric_frame (take pos df).
Proof.
  unfold numeric_frame, take. simpl. intros H.
  apply Forall_map. eapply Forall_impl; [| exact H].
  simpl. intros cs Hcs. now apply numeric_picks.
Qed.

Lemma getitems_numeric (df : DataFrame) (cols : list string) :
  has_numeric_columns df cols = true ->
  exists sub, getitems df cols = Ok sub /\ numeric_frame sub /\
              index sub = index df.
Proof.
  intros H.
  assert (Hc : has_columns df cols = true).
  { unfold has_numeric_columns, has_columns in *.
    rewrite forallb_forall in *. intros c Hin. specialize (H c Hin).
    destruct (lookup c (columns df)); [reflexivity | discriminate]. }
  destruct (getitems_columns df cols Hc) as [sub [Hsub [Hidx HF]]].
  exists sub. split; [exact Hsub | split; [| exact Hidx]].
  unfold numeric_frame. unfold has_numeric_columns in H.
  rewrite forallb_forall in H.
  clear Hsub Hidx Hc. induction HF as [| c cs cols css [Hfst Hl] HF IH].
  - constructor.
  - constructor.
    + specialize (H c (or_introl eq_refl)). rewrite Hl in H. exact H.
    + apply IH. intros x Hx. apply H. now right.
Qed.

(** On a frame of training rows the means and standard deviations of the
    continuous columns are defined and hold no string. *)
Lemma get_mu_and_std_ok (self : Dataset) (pos : list nat) :
  well_formed self = true ->
  exists mu sd,
    get_mu_and_std sqrt self (take pos (_original_data self)) = Ok (mu, sd) /\
    clean (stats_or_empty mu) /\ clean (stats_or_empty sd).
Proof.
  unfold well_formed, get_mu_and_std. intros H.
  apply andb_true_iff in H. destruct H as [H _].
  destruct (cont_cols self) as [cols |].
  - destruct (getitems_numeric _ _ H) as [sub [Hsub [Hnum _]]].
    rewrite (getitems_take _ _ _ pos Hsub). simpl.
    pose proof (numeric_frame_take pos sub Hnum) as Hn.
    destruct (reduce_numeric _ _ series_mean_numeric Hn) as [mu [Hmu Hcm]].
    destruct (reduce_numeric _ _ series_std_numeric Hn) as [sd [Hsd Hcs]].
    rewrite Hmu. simpl. rewrite Hsd. simpl.
    exists (Some mu), (Some sd). auto.
  - exists None, None. repeat split; constructor.
Qed.

Lemma standardize_ok (m s x : cell) :
  no_str m = true -> no_str s = true -> no_str x = true ->
  exists y, standardize m s (fill m x) = Ok y /\ no_str y = true.
Proof.
  intros Hm Hs Hx.
  destruct x; simpl in *; try discriminate.
  - destruct m; simpl in *; try discriminate.
    + eexists; split; reflexivity.
    + destruct s; simpl in *; try discriminate; eexists; split; reflexivity.
  - destruct m, s; simpl in *; try discriminate; eexists; split; reflexivity.
Qed.

Lemma rmap_standardize_ok (m s : cell) (col : Series) :
  no_str m = true -> no_str s = true -> numeric col = true ->
  exists col', rmap (fun x => standardize m s (fill m x)) col = Ok col' /\
               numeric col' = true.
Proof.
  intros Hm Hs. induction col as [| x col IH]; simpl; intros H.
  - exists []. split; reflexivity.
  - apply andb_true_iff in H. destruct H as [Hx H].
    destruct (standardize_ok m s x Hm Hs Hx) as [y [Hy Hny]].
    destruct (IH H) as [col' [Hcol Hn]].
    rewrite Hy. simpl. rewrite Hcol. simpl.
    exists (y :: col'). split; [reflexivity |]. simpl. now rewrite Hny, Hn.
Qed.

Lemma preprocess_continuous_ok (df : DataFrame) (mu sd : Labelled) :
  numeric_frame df -> clean mu -> clean sd ->
  exists df', preprocess_continuous df mu sd = Ok df' /\ numeric_frame df'.
Proof.
  intros Hdf Hmu Hsd. unfold preprocess_continuous, numeric_frame in *.
  assert (H : exists cs,
    rmap (fun cs =>
            rbind (rmap (fun x => standardize (label (fst cs) mu) (label (fst cs) sd)
                                              (fill (label (fst cs) mu) x)) (snd cs))
                  (fun col => Ok (fst cs, col))) (columns df) = Ok cs /\
    Forall (fun cs => numeric (snd cs) = true) cs).
  { induction (columns df) as [| [c s] cols IH]; simpl.
    - exists []. split; [reflexivity | constructor].
    - inversion Hdf as [| ? ? Hs Hcols]; subst. simpl in Hs.
      destruct (rmap_standardize_ok (label c mu) (label c sd) s
                  (label_clean c mu Hmu) (label_clean c sd Hsd) Hs)
        as [col' [Hcol Hn]].
      destruct (IH Hcols) as [cs [Hcs HF]].
      rewrite Hcol. simpl. rewrite Hcs. simpl.
      exists ((c, col') :: cs). split; [reflexivity |]. constructor; assumption. }
  destruct H as [cs [Hcs HF]]. rewrite Hcs. simpl.
  eexists. split; [reflexivity | exact HF].
Qed.

Lemma to_float_ok (c : cell) : no_str c = true -> is_ok (to_float c) = true.
Proof. destruct c; simpl; intros H; [reflexivity | reflexivity | discriminate]. Qed.

Lemma no_str_nth (i : nat) (s : Series) :
  numeric s = true -> no_str (nth i s NaN) = true.
Proof.
  intros H. destruct (nth_in_or_default i s NaN) as [Hin | ->]; [| reflexivity].
  unfold numeric in H. rewrite forallb_forall in H. auto.
Qed.

Lemma to_numpy_ok (df : DataFrame) :
  numeric_frame df -> is_ok (to_numpy df) = true.
Proof.
  intros H. unfold to_numpy. apply rmap_ok_all. intros i _.
  apply rmap_ok_all. intros cs Hcs. apply to_float_ok. apply no_str_nth.
  unfold numeric_frame in H. rewrite Forall_forall in H. auto.
Qed.

(** With statistics that hold no string the continuous features are
    defined. *)
Lemma numerical_features_ok (self : Dataset) (mu sd : option Labelled) :
  well_formed self = true ->
  clean (stats_or_empty mu) -> clean (stats_or_empty sd) ->
  is_ok (numerical_features self mu sd) = true.
Proof.
  unfold well_formed, numerical_features. intros H Hmu Hsd.
  apply andb_true_iff in H. destruct H as [H _].
  destruct (cont_cols self) as [cols |]; [| reflexivity].
  destruct (getitems_numeric _ _ H) as [sub [Hsub [Hnum _]]].
  rewrite Hsub. simpl. unfold copy.
  destruct (preprocess_continuous_ok sub _ _ Hnum Hmu Hsd) as [df' [Hdf' Hn]].
  rewrite Hdf'. simpl.
  pose proof (to_numpy_ok df' Hn) as Hok.
  destruct (to_numpy df'); [reflexivity | discriminate].
Qed.

Lemma code_of_no_str (v : cell) (enc : list (cell * nat)) :
  no_str (code_of v enc) = true.
Proof.
  induction enc as [| [v' k] enc IH]; simpl; [reflexivity |].
  destruct (cell_eqb v v'); [reflexivity | exact IH].
Qed.

(** The categorical features are defined as soon as the columns exist. *)
Lemma categorical_features_ok (self : Dataset) (modes : option Labelled) :
  well_formed self = true ->
  is_ok (categorical_features self modes) = true.
Proof.
  unfold well_formed, categorical_features. intros H.
  apply andb_true_iff in H. destruct H as [_ H].
  destruct (cat_cols self) as [cols |]; [| reflexivity].
  destruct (getitems_columns _ _ H) as [sub [Hsub _]].
  rewrite Hsub. simpl.
  match goal with |- context [to_numpy ?d] =>
    assert (Hn : numeric_frame d) end.
  { unfold numeric_frame, preprocess_categoricals. simpl.
    apply Forall_map. apply Forall_forall. intros cs _. simpl.
    unfold numeric. apply forallb_forall. intros x Hx.
    apply in_map_iff in Hx. destruct Hx as [y [<- _]]. apply code_of_no_str. }
  pose proof (to_numpy_ok _ Hn) as Hok.
  destruct (to_numpy _); [reflexivity | discriminate].
Qed.

End StatisticsFacts.

Section ModeFacts.
Import Pandas Datasets.

Lemma insert_sorted_length (x : cell) (l : Series) :
  length (insert_sorted x l) = S (length l).
Proof.
  induction l as [| y l IH]; simpl; [reflexivity |].
  destruct (cell_leb x y); simpl; [reflexivity | now rewrite IH].
Qed.

Lemma sort_cells_length (l : Series) : length (sort_cells l) = length l.
Proof.
  induction l as [| x l IH]; simpl; [reflexivity |].
  unfold sort_cells in *. simpl. now rewrite insert_sorted_length, IH.
Qed.

Lemma max_attained {A} (f : A -> nat) (l : list A) :
  l <> [] -> exists x, In x l /\ f x = fold_right Nat.max 0 (map f l).
Proof.
  induction l as [| x l IH]; [congruence |]. intros _. simpl.
  destruct l as [| y l].
  - exists x. split; [now left |]. simpl. lia.
  - destruct IH as [z [Hz Hf]]; [discriminate |].
    destruct (Nat.max_spec (f x) (fold_right Nat.max 0 (map f (y :: l))))
      as [[_ ->] | [_ ->]].
    + exists z. split; [now right | exact Hf].
    + exists x. split; [now left | reflexivity].
Qed.

(** A column has a mode exactly when it holds a value. *)
Lemma series_mode_empty (s : Series) :
  series_mode s = [] <-> existsb notna s = false.
Proof.
  unfold series_mode.
  set (vals := filter notna s).
  assert (Hvals : vals = [] <-> existsb notna s = false).
  { unfold vals. induction s as [| x s IH]; simpl; [tauto |].
    destruct (notna x); simpl; [split; discriminate | exact IH]. }
  rewrite <- Hvals. split.
  - intros H. apply (f_equal (@length cell)) in H.
    rewrite sort_cells_length in H. simpl in H.
    destruct vals as [| v vals'] eqn:Hv; [reflexivity | exfalso].
    set (d := unique (v :: vals')) in *.
    destruct (max_attained (fun x => count x (v :: vals')) d) as [z [Hz Hm]].
    { unfold d. simpl. discriminate. }
    apply length_zero_iff_nil in H.
    assert (Hin : In z (filter (fun x => count x (v :: vals')
                     =? fold_right Nat.max 0 (map (fun x => count x (v :: vals')) d)) d)).
    { apply filter_In. split; [exact Hz |]. now apply Nat.eqb_eq. }
    rewrite H in Hin. contradiction.
  - intros ->. reflexivity.
Qed.

(** [df.mode()] has a first row exactly when some column holds a value. *)
Lemma mode_has_row (df : DataFrame) :
  (0 <? shape0 (mode df)) = any_present df.
Proof.
  unfold shape0, mode, any_present. simpl.
  rewrite length_map, length_seq, map_map. simpl.
  induction (columns df) as [| [c s] cols IH]; simpl; [reflexivity |].
  destruct (existsb notna s) eqn:Hs; simpl.
  - assert (Hne : series_mode s <> []).
    { intros H. apply series_mode_empty in H. congruence. }
    destruct (series_mode s) as [| m ms]; [congruence |].
    apply Nat.ltb_lt. eapply Nat.lt_le_trans; [| apply Nat.le_max_l].
    simpl. lia.
  - apply series_mode_empty in Hs. rewrite Hs. simpl. exact IH.
Qed.

(** [get_modes] on a frame that holds the categorical columns: the first
    row of the modes, or an IndexError when no column holds a value. *)
Lemma get_modes_outcome (self : Dataset) (df sub : DataFrame) (cols : list string) :
  cat_cols self = Some cols -> getitems df cols = Ok sub ->
  get_modes self df
  = if any_present sub
    then Ok (Some (map (fun cs => (fst cs, nth 0 (snd cs) NaN))
                       (columns (mode sub))))
    else Raise IndexError.
Proof.
  intros Hc Hsub. unfold get_modes. rewrite Hc, Hsub. simpl.
  unfold iloc_row. rewrite mode_has_row.
  destruct (any_present sub); reflexivity.
Qed.

End ModeFacts.

(** ** Rows outside the training mask do not matter *)

Section AgreementFacts.
Import Pandas Datasets.

Lemma rmap_In {A B} (f : A -> result B) (xs : list A) (ys : list B) (y : B) :
  rmap f xs = Ok ys -> In y ys -> exists x, In x xs /\ f x = Ok y.
Proof.
  revert ys. induction xs as [| x xs IH]; simpl; intros ys H Hy.
  - inversion H; subst. contradiction.
  - apply rbind_ok in H. destruct H as [y' [Hx H]].
    apply rbind_ok in H. destruct H as [ys' [Hxs H]].
    inversion H; subst. destruct Hy as [<- | Hy]; [eauto |].
    destruct (IH ys' Hxs Hy) as [x' [Hin Hx']]. eauto.
Qed.

Lemma picks_ext {A} (pos : list nat) (l1 l2 : list A) :
  (forall p, In p pos -> nth_error l1 p = nth_error l2 p) ->
  picks pos l1 = picks pos l2.
Proof.
  unfold picks. induction pos as [| p pos IH]; simpl; intros H; [reflexivity |].
  rewrite (H p (or_introl eq_refl)), IH; auto.
Qed.

Lemma take_columns_ext (pos : list nat) (cols1 cols2 : list (string * Series)) :
  map fst cols1 = map fst cols2 ->
  (forall p, In p pos ->
     map (fun cs => (fst cs, nth_error (snd cs) p)) cols1
     = map (fun cs => (fst cs, nth_error (snd cs) p)) cols2) ->
  map (fun cs => (fst cs, picks pos (snd cs))) cols1
  = map (fun cs => (fst cs, picks pos (snd cs))) cols2.
Proof.
  revert cols2. induction cols1 as [| [c1 s1] cols1 IH];
    intros [| [c2 s2] cols2]; simpl; intros Hn Hrows;
    try discriminate; [reflexivity |].
  injection Hn as Hc Hn'. subst c2. f_equal.
  - f_equal. apply picks_ext. intros p Hp.
    specialize (Hrows p Hp). injection Hrows as Hs _. exact Hs.
  - apply IH; [exact Hn' |]. intros p Hp.
    specialize (Hrows p Hp). injection Hrows as _ Ht. exact Ht.
Qed.

(** Two frames that agree on the rows of a mask have the same sub-frame
    of those rows. *)
Lemma iloc_agree (mask : list Z) (df1 df2 : DataFrame) :
  agree_on mask df1 df2 -> iloc df1 mask = iloc df2 mask.
Proof.
  intros (Hn & Hcols & Hrows). unfold iloc. rewrite <- Hn.
  destruct (rmap (position (shape0 df1)) mask) as [pos |] eqn:Hpos;
    simpl; [| reflexivity].
  assert (Hp : forall p, In p pos -> row df1 p = row df2 p).
  { intros p Hin. destruct (rmap_In _ _ _ _ Hpos Hin) as [i [Hi Hip]]. eauto. }
  unfold take. f_equal. f_equal.
  - apply picks_ext. intros p Hin. specialize (Hp p Hin).
    unfold row in Hp. now inversion Hp.
  - apply take_columns_ext; [exact Hcols |]. intros p Hin.
    specialize (Hp p Hin). unfold row in Hp. now inversion Hp.
Qed.

End AgreementFacts.

Section TrainStatisticsFacts.
Import Numpy Pandas Datasets.
Variable sqrt : Q -> Q.

Lemma update_masks_stats_after (tr te : list Z) (va : option (list Z))
  (self : Dataset) :
  train_stats sqrt (snd (update_masks sqrt tr te va self))
  = train_stats sqrt (set_masks tr va te self).
Proof. apply train_stats_base. apply update_masks_base. Qed.

(** What [update_masks] does on a well-formed dataset, in full. *)
Lemma update_masks_run (tr te : list Z) (va : option (list Z)) (self : Dataset) :
  well_formed self = true ->
  let s1 := set_masks tr va te self in
  (forallb (in_range (shape0 (_original_data self))) tr
   && train_rows_have_category self tr = false /\
   update_masks sqrt tr te va self = (Raise IndexError, s1))
  \/
  (forallb (in_range (shape0 (_original_data self))) tr
   && train_rows_have_category self tr = true /\
   exists train_data mu sd modes xc xk,
     iloc (_original_data self) tr = Ok train_data /\
     get_mu_and_std sqrt self train_data = Ok (mu, sd) /\
     get_modes self train_data = Ok modes /\
     numerical_features self mu sd = Ok xc /\
     categorical_features self modes = Ok xk /\
     update_masks sqrt tr te va self
     = (Ok tt, store_x_cat xk (store_x_cont xc s1))).
Proof.
  intros Hwf s1. rewrite update_masks_eq. cbv zeta. fold s1.
  unfold train_stats. simpl.
  destruct (forallb (in_range (shape0 (_original_data self))) tr) eqn:Hr.
  - destruct (iloc_in_range _ _ Hr) as [pos [Hpos Hiloc]].
    rewrite Hiloc. simpl.
    destruct (get_mu_and_std_ok sqrt self pos Hwf) as [mu [sd [Hms [Hcm Hcs]]]].
    rewrite (get_mu_and_std_base sqrt s1 self _ eq_refl), Hms. simpl.
    rewrite (get_modes_base s1 self _ eq_refl).
    assert (Hmodes :
      get_modes self (take pos (_original_data self))
      = (if train_rows_have_category self tr
         then get_modes self (take pos (_original_data self))
         else Raise IndexError)
      /\ (train_rows_have_category self tr = true ->
          is_ok (get_modes self (take pos (_original_data self))) = true)).
    { unfold train_rows_have_category. rewrite Hiloc. simpl.
      destruct (cat_cols self) as [cols |] eqn:Hc.
      - unfold well_formed in Hwf. rewrite Hc in Hwf.
        apply andb_true_iff in Hwf. destruct Hwf as [_ Hcols].
        destruct (getitems_columns _ _ Hcols) as [sub [Hsub _]].
        rewrite (getitems_take _ _ _ pos Hsub).
        rewrite (get_modes_outcome self _ _ cols Hc (getitems_take _ _ _ pos Hsub)).
        destruct (any_present (take pos sub)); split; auto; discriminate.
      - unfold get_modes. rewrite Hc. split; reflexivity. }
    destruct Hmodes as [Hm Hmok].
    destruct (train_rows_have_category self tr) eqn:Hcat.
    + right. split; [reflexivity |].
      specialize (Hmok eq_refl).
      destruct (get_modes self (take pos (_original_data self))) as [modes |] eqn:Hgm;
        [| discriminate].
      simpl.
      change (numerical_features s1 mu sd) with (numerical_features self mu sd).
      pose proof (numerical_features_ok self mu sd Hwf Hcm Hcs) as Hnum.
      destruct (numerical_features self mu sd) as [xc |] eqn:Hxc; [| discriminate].
      assert (Hsame : categorical_features (store_x_cont xc s1) modes
                      = categorical_features self modes)
        by (destruct xc; reflexivity).
      rewrite Hsame.
      pose proof (categorical_features_ok self modes Hwf) as Hk.
      destruct (categorical_features self modes) as [xk |] eqn:Hxk;
        [| discriminate].
      exists (take pos (_original_data self)), mu, sd, modes, xc, xk.
      repeat split; auto.
    + left. split; [reflexivity |]. rewrite Hm. reflexivity.
  - left. split; [reflexivity |].
    rewrite (iloc_out_of_range _ _ Hr). reflexivity.
Qed.

End TrainStatisticsFacts.

(** ** The statistics of [update_masks] and what it checks *)

Section UpdateMasksStatistics.
Import Numpy Pandas Datasets.
Variable sqrt : Q -> Q.

(** The means, the standard deviations and the modes, as pandas computes
    them on a frame of training rows. *)
Lemma get_mu_and_std_inv (self : Dataset) (train_data : DataFrame)
  (mu sd : option Labelled) :
  get_mu_and_std sqrt self train_data = Ok (mu, sd) ->
  match cont_cols self with
  | Some cols =>
      exists sub m s,
        getitems train_data cols = Ok sub /\
        reduce series_mean sub = Ok m /\
        reduce (series_std sqrt) sub = Ok s /\
        mu = Some m /\ sd = Some s
  | None => mu = None /\ sd = None
  end.
Proof.
  unfold get_mu_and_std. destruct (cont_cols self) as [cols |].
  - intros H. apply rbind_ok in H. destruct H as [sub [Hsub H]].
    apply rbind_ok in H. destruct H as [m [Hm H]].
    apply rbind_ok in H. destruct H as [sub' [Hsub' H]].
    apply rbind_ok in H. destruct H as [s [Hs H]].
    inversion H; subst.
    assert (sub' = sub) by congruence. subst sub'.
    exists sub, m, s. auto.
  - intros H. inversion H. auto.
Qed.

Lemma get_modes_inv (self : Dataset) (train_data : DataFrame)
  (modes : option Labelled) :
  get_modes self train_data = Ok modes ->
  match cat_cols self with
  | Some cols =>
      exists sub first,
        getitems train_data cols = Ok sub /\
        iloc_row (mode sub) 0 = Ok first /\
        modes = Some first
  | None => modes = None
  end.
Proof.
  unfold get_modes. destruct (cat_cols self) as [cols |].
  - intros H. apply rbind_ok in H. destruct H as [sub [Hsub H]].
    apply rbind_ok in H. destruct H as [first [Hfirst H]].
    inversion H; subst. exists sub, first. auto.
  - intros H. inversion H. auto.
Qed.

Lemma numerical_features_inv (self : Dataset) (mu sd : option Labelled)
  (xc : option (Tensor float)) :
  numerical_features self mu sd = Ok xc ->
  match cont_cols self with
  | Some cols =>
      exists every temporary_df x,
        getitems (_original_data self) cols = Ok every /\
        preprocess_continuous every (stats_or_empty mu) (stats_or_empty sd)
        = Ok temporary_df /\
        to_numpy temporary_df = Ok x /\
        xc = Some x
  | None => xc = None
  end.
Proof.
  unfold numerical_features, copy. destruct (cont_cols self) as [cols |].
  - intros H. apply rbind_ok in H. destruct H as [every [He H]].
    apply rbind_ok in H. destruct H as [tmp [Ht H]].
    apply rbind_ok in H. destruct H as [x [Hx H]].
    inversion H; subst. exists every, tmp, x. auto.
  - intros H. inversion H. auto.
Qed.

Lemma categorical_features_inv (self : Dataset) (modes : option Labelled)
  (xk : option (Tensor (option Z))) :
  categorical_features self modes = Ok xk ->
  match cat_cols self with
  | Some cols =>
      exists every x,
        getitems (_original_data self) cols = Ok every /\
        to_numpy (fst (preprocess_categoricals every (stats_or_empty modes)
                                               (_encodings self))) = Ok x /\
        xk = Some (long x)
  | None => xk = None
  end.
Proof.
  unfold categorical_features, copy. destruct (cat_cols self) as [cols |].
  - intros H. apply rbind_ok in H. destruct H as [every [He H]].
    apply rbind_ok in H. destruct H as [x [Hx H]].
    inversion H; subst. exists every, x. auto.
  - intros H. inversion H. auto.
Qed.

(** C1, as the code has it. On a well-formed dataset, a call of
    [update_masks] with training indices [A] that [iloc] accepts (and, when
    there are categorical columns, with a categorical value among those rows)
    returns. The statistics it uses are those of the rows [A] alone: the
    means and the standard deviations that pandas computes on the continuous
    columns of the sub-frame of the rows [A], and the first row of the modes
    of its categorical columns. The matrices it stores are the continuous
    columns of the whole frame preprocessed with these means and standard
    deviations, and its categorical columns preprocessed with these modes.
    [current_train_stats] returns the same statistics afterwards, and so it
    does on any other dataset with the same columns whose frame holds the same
    rows at [A], whatever its other rows and its other masks. *)
Theorem update_masks_statistics_from_training_rows :
  forall (self : Dataset) (A te : list Z) (va : option (list Z)),
    well_formed self = true ->
    forallb (in_range (shape0 (_original_data self))) A = true ->
    train_rows_have_category self A = true ->
    let after := snd (update_masks sqrt A te va self) in
    exists train_data mu sd modes xc xk,
      iloc (_original_data self) A = Ok train_data /\
      match cont_cols self with
      | Some cols =>
          exists sub m s,
            getitems train_data cols = Ok sub /\
            reduce series_mean sub = Ok m /\
            reduce (series_std sqrt) sub = Ok s /\
            mu = Some m /\ sd = Some s
      | None => mu = None /\ sd = None
      end /\
      match cat_cols self with
      | Some cols =>
          exists sub first,
            getitems train_data cols = Ok sub /\
            iloc_row (mode sub) 0 = Ok first /\
            modes = Some first
      | None => modes = None
      end /\
      match cont_cols self with
      | Some cols =>
          exists every temporary_df x,
            getitems (_original_data self) cols = Ok every /\
            preprocess_continuous every (stats_or_empty mu) (stats_or_empty sd)
            = Ok temporary_df /\
            to_numpy temporary_df = Ok x /\
            xc = Some x /\ _x_cont after = Some x
      | None => xc = None /\ _x_cont after = _x_cont self
      end /\
      match cat_cols self with
      | Some cols =>
          exists every x,
            getitems (_original_data self) cols = Ok every /\
            to_numpy (fst (preprocess_categoricals every (stats_or_empty modes)
                                                   (_encodings self))) = Ok x /\
            xk = Some (long x) /\ _x_cat after = Some (long x)
      | None => xk = None /\ _x_cat after = _x_cat self
      end /\
      update_masks sqrt A te va self
      = (Ok tt, store_x_cat xk (store_x_cont xc (set_masks A va te self))) /\
      _train_mask after = A /\
      fst (current_train_stats sqrt after) = Ok (mu, sd, modes) /\
      (forall (other : Dataset) (te' : list Z) (va' : option (list Z)),
         cont_cols other = cont_cols self ->
         cat_cols other = cat_cols self ->
         agree_on A (_original_data self) (_original_data other) ->
         fst (current_train_stats sqrt (snd (update_masks sqrt A te' va' other)))
         = Ok (mu, sd, modes)).
Proof.
  intros self A te va Hwf Hr Hcat after.
  destruct (update_masks_run sqrt A te va self Hwf) as [[Hno _] | [_ Hrun]].
  { rewrite Hr, Hcat in Hno. discriminate. }
  destruct Hrun as (td & mu & sd & modes & xc & xk & Hi & Hms & Hm & Hxc & Hxk & Hu).
  exists td, mu, sd, modes, xc, xk.
  assert (Hstats : forall (other : Dataset) te' va',
             cont_cols other = cont_cols self ->
             cat_cols other = cat_cols self ->
             iloc (_original_data other) A = Ok td ->
             fst (current_train_stats sqrt (snd (update_masks sqrt A te' va' other)))
             = Ok (mu, sd, modes)).
  { intros other te' va' Hc Hk Hio.
    rewrite current_train_stats_eq. simpl.
    rewrite update_masks_stats_after. unfold train_stats. simpl.
    rewrite Hio. simpl.
    rewrite (get_mu_and_std_base sqrt (set_masks A va' te' other) self td Hc).
    rewrite Hms. simpl.
    rewrite (get_modes_base (set_masks A va' te' other) self td Hk), Hm.
    reflexivity. }
  pose proof (get_mu_and_std_inv _ _ _ _ Hms) as Hmu.
  pose proof (get_modes_inv _ _ _ Hm) as Hmo.
  pose proof (numerical_features_inv _ _ _ _ Hxc) as Hnf.
  pose proof (categorical_features_inv _ _ _ Hxk) as Hcf.
  assert (Hafter : after
                   = store_x_cat xk (store_x_cont xc (set_masks A va te self))).
  { unfold after. now rewrite Hu. }
  split; [exact Hi |]. split; [exact Hmu |]. split; [exact Hmo |].
  split; [| split; [| split; [exact Hu | split; [| split]]]].
  - destruct (cont_cols self) as [cols |].
    + destruct Hnf as (every & tmp & x & He & Ht & Hx & ->).
      exists every, tmp, x. repeat split; auto.
      rewrite Hafter. destruct xk; reflexivity.
    + subst xc. split; [reflexivity |].
      rewrite Hafter. destruct xk; reflexivity.
  - destruct (cat_cols self) as [cols |].
    + destruct Hcf as (every & x & He & Hx & ->).
      exists every, x. repeat split; auto. rewrite Hafter. reflexivity.
    + subst xk. split; [reflexivity |].
      rewrite Hafter. destruct xc; reflexivity.
  - rewrite Hafter. destruct xk, xc; reflexivity.
  - unfold after. now apply Hstats.
  - intros other te' va' Hc Hk Hagree. apply Hstats; auto.
    rewrite <- (iloc_agree A _ _ Hagree). exact Hi.
Qed.

(** C2, as the code has it. [update_masks] checks nothing itself. It
    stores the three masks first, whatever they are; on a well-formed
    dataset it then raises only an IndexError, and only when a training index
    is outside [-n, n) or no categorical column holds a value among the
    training rows: the validation and test masks have no part in the outcome.
    When it raises, the masks are the new ones already and the feature
    matrices are the old ones still. *)
Theorem update_masks_checks_nothing :
  forall (self : Dataset) (tr te : list Z) (va : option (list Z)),
    well_formed self = true ->
    let outcome := fst (update_masks sqrt tr te va self) in
    let after := snd (update_masks sqrt tr te va self) in
    outcome
    = (if forallb (in_range (shape0 (_original_data self))) tr
          && train_rows_have_category self tr
       then Ok tt else Raise IndexError) /\
    _train_mask after = tr /\ _valid_mask after = va /\ _test_mask after = te /\
    (outcome = Raise IndexError ->
     _x_cont after = _x_cont self /\ _x_cat after = _x_cat self).
Proof.
  intros self tr te va Hwf outcome after. unfold outcome, after.
  destruct (update_masks_base sqrt tr te va self)
    as (_ & _ & Ht & Hv & He & _).
  simpl in Ht, Hv, He.
  destruct (update_masks_run sqrt tr te va self Hwf)
    as [[Hno Hu] | [Hyes Hrun]].
  - rewrite Hno, Hu. simpl. repeat split; reflexivity.
  - destruct Hrun as (td & mu & sd & modes & xc & xk & _ & _ & _ & _ & _ & Hu).
    rewrite Hyes, Hu. simpl. destruct xc, xk; repeat split; discriminate.
Qed.

End UpdateMasksStatistics.

Lemma clinic_agrees_on_training_rows :
  Datasets.agree_on [0; 1]%Z clinic clinic_elsewhere.
Proof.
  split; [reflexivity | split; [reflexivity |]].
  intros i p [<- | [<- | []]] Hp; inversion Hp; reflexivity.
Qed.

Lemma update_masks_statistics_from_training_rows_witness :
  let self := clinic_dataset in
  let other := clinic_dataset_elsewhere in
  let A := [0; 1]%Z in
  Datasets.well_formed self = true /\
  forallb (Datasets.in_range (Pandas.shape0 (Datasets._original_data self))) A = true /\
  Datasets.train_rows_have_category self A = true /\
  Datasets.cont_cols other = Datasets.cont_cols self /\
  Datasets.cat_cols other = Datasets.cat_cols self /\
  Datasets.agree_on A (Datasets._original_data self)
                    (Datasets._original_data other) /\
  exists train_data mu sd modes,
    Pandas.iloc (Datasets._original_data self) A = Ok train_data /\
    (exists sub m s,
       Pandas.getitems train_data ["AGE"%string] = Ok sub /\
       Pandas.reduce Pandas.series_mean sub = Ok m /\
       Pandas.reduce (Pandas.series_std Numpy.sqrt_down) sub = Ok s /\
       mu = Some m /\ sd = Some s) /\
    (exists sub first,
       Pandas.getitems train_data ["SEX"%string] = Ok sub /\
       Pandas.iloc_row (Pandas.mode sub) 0 = Ok first /\
       modes = Some first) /\
    fst (Datasets.update_masks Numpy.sqrt_down A [3]%Z (Some [2]%Z) self) = Ok tt /\
    fst (Datasets.current_train_stats Numpy.sqrt_down
           (snd (Datasets.update_masks Numpy.sqrt_down A [3]%Z (Some [2]%Z) self)))
    = Ok (mu, sd, modes) /\
    fst (Datasets.current_train_stats Numpy.sqrt_down
           (snd (Datasets.update_masks Numpy.sqrt_down A [2]%Z None other)))
    = Ok (mu, sd, modes).
Proof.
  intros self other A.
  split; [reflexivity | split; [reflexivity | split; [reflexivity |
    split; [reflexivity | split; [reflexivity |
    split; [exact clinic_agrees_on_training_rows |]]]]]].
  destruct (update_masks_statistics_from_training_rows Numpy.sqrt_down self A
              [3]%Z (Some [2]%Z) eq_refl eq_refl eq_refl)
    as (td & mu & sd & modes & xc & xk & H1 & H2 & H3 & _ & _ & H6 & _ & H7 & H8).
  exists td, mu, sd, modes.
  split; [exact H1 | split; [exact H2 | split; [exact H3 |]]].
  split; [now rewrite H6 | split; [exact H7 |]].
  exact (H8 other [2]%Z None eq_refl eq_refl clinic_agrees_on_training_rows).
Defined.

Lemma update_masks_checks_nothing_witness :
  let self := clinic_dataset in
  let outcome := fst (Datasets.update_masks Numpy.sqrt_down [0; 9]%Z [3]%Z None self) in
  let after := snd (Datasets.update_masks Numpy.sqrt_down [0; 9]%Z [3]%Z None self) in
  Datasets.well_formed self = true /\
  outcome = Raise IndexError /\
  outcome
  = (if forallb (Datasets.in_range (Pandas.shape0 (Datasets._original_data self)))
                [0; 9]%Z
        && Datasets.train_rows_have_category self [0; 9]%Z
     then Ok tt else Raise IndexError) /\
  Datasets._train_mask after = [0; 9]%Z /\
  Datasets._valid_mask after = None /\
  Datasets._test_mask after = [3]%Z /\
  Datasets._x_cont after = Datasets._x_cont self /\
  Datasets._x_cat after = Datasets._x_cat self.
Proof.
  intros self outcome after.
  assert (Hraise : outcome = Raise IndexError) by reflexivity.
  split; [reflexivity | split; [exact Hraise |]].
  destruct (update_masks_checks_nothing Numpy.sqrt_down self [0; 9]%Z [3]%Z None
              eq_refl) as (Ho & Ht & Hv & He & Hx).
  split; [exact Ho | split; [exact Ht | split; [exact Hv | split; [exact He |]]]].
  exact (Hx Hraise).
Defined.

(** C2, as the claim has it, fails: row 1 is in the training mask and in
    the test mask, the test mask and the validation mask hold indices that
    are no rows of the frame of four, and [update_masks] returns all the
    same, the three masks stored as given. *)
Lemma overlapping_and_stray_masks_accepted :
  let train := [0; 1]%Z in
  let test := [1; 9]%Z in
  let valid := Some [99]%Z in
  let run := Datasets.update_masks Numpy.sqrt_down train test valid clinic_dataset in
  Datasets.masks_invalid 4 train test valid = true /\
  fst run = Ok tt /\
  Datasets._train_mask (snd run) = train /\
  Datasets._test_mask (snd run) = test /\
  Datasets._valid_mask (snd run) = valid.
Proof. vm_compute. repeat split. Qed.

(** C1, as the claim has it, fails on a call that raises. The dataset has
    its four rows in the training mask, as the constructor leaves it. A call
    with the training indices [[2]], a row without a categorical value,
    raises an IndexError after it has stored the masks: the training mask is
    [[2]], and the matrix of continuous features is still the one made with
    the mean and the standard deviation of the four rows, not the one the
    statistics of the row 2 alone give. *)
Lemma failed_update_keeps_stale_statistics :
  let self :=
    snd (Datasets.update_masks Numpy.sqrt_down [0; 1; 2; 3]%Z [] (Some [])
                               clinic_dataset) in
  let A := [2]%Z in
  let run := Datasets.update_masks Numpy.sqrt_down A [3]%Z (Some [0; 1]%Z) self in
  Datasets.well_formed self = true /\
  forallb (Datasets.in_range (Pandas.shape0 (Datasets._original_data self))) A
  = true /\
  Datasets.train_rows_have_category self A = false /\
  fst run = Raise IndexError /\
  Datasets._train_mask (snd run) = A /\
  Datasets._x_cont (snd run) = Datasets._x_cont self /\
  exists train_data sub m s every temporary_df x,
    Pandas.iloc (Datasets._original_data self) A = Ok train_data /\
    Pandas.getitems train_data ["AGE"%string] = Ok sub /\
    Pandas.reduce Pandas.series_mean sub = Ok m /\
    Pandas.reduce (Pandas.series_std Numpy.sqrt_down) sub = Ok s /\
    Pandas.getitems (Datasets._original_data self) ["AGE"%string] = Ok every /\
    Datasets.preprocess_continuous every m s = Ok temporary_df /\
    Datasets.to_numpy temporary_df = Ok x /\
    Datasets._x_cont (snd run) <> Some x.
Proof.
  intros self A run.
  split; [reflexivity | split; [reflexivity | split; [reflexivity |
    split; [reflexivity | split; [reflexivity | split; [reflexivity |]]]]]].
  do 7 eexists.
  split; [vm_compute; reflexivity |].
  split; [vm_compute; reflexivity |].
  split; [vm_compute; reflexivity |].
  split; [vm_compute; reflexivity |].
  split; [vm_compute; reflexivity |].
  split; [vm_compute; reflexivity |].
  split; [vm_compute; reflexivity |].
  vm_compute. discriminate.
Qed.

(** ** Positional selection *)

Section PicksFacts.
Import Pandas.
Context {A : Type}.

Lemma picks_app (p1 p2 : list nat) (l : list A) :
  picks (p1 ++ p2) l = picks p1 l ++ picks p2 l.
Proof. unfold picks. apply flat_map_app. Qed.

Lemma picks_In (pos : list nat) (l : list A) (x : A) :
  In x (picks pos l) <-> exists p, In p pos /\ nth_error l p = Some x.
Proof.
  unfold picks. rewrite in_flat_map. split.
  - intros [p [Hp Hx]]. exists p. split; [exact Hp |].
    destruct (nth_error l p); [| contradiction].
    destruct Hx as [-> | []]. reflexivity.
  - intros [p [Hp Hx]]. exists p. split; [exact Hp |].
    rewrite Hx. now left.
Qed.

Lemma picks_incl (pos : list nat) (l : list A) : incl (picks pos l) l.
Proof.
  intros x Hx. apply picks_In in Hx. destruct Hx as [p [_ Hp]].
  eapply nth_error_In; eauto.
Qed.

Lemma picks_length (pos : list nat) (l : list A) :
  Forall (fun p => p < length l) pos -> length (picks pos l) = length pos.
Proof.
  unfold picks. induction pos as [| p pos IH]; simpl; intros H; [reflexivity |].
  inversion H as [| ? ? Hp Hpos]; subst.
  rewrite length_app, (IH Hpos).
  destruct (nth_error l p) eqn:E; [reflexivity |].
  apply nth_error_None in E. lia.
Qed.

Lemma picks_seq (l : list A) : picks (seq 0 (length l)) l = l.
Proof.
  induction l as [| x l IH] using rev_ind; [reflexivity |].
  rewrite length_app. simpl. rewrite Nat.add_1_r, seq_S, picks_app. simpl.
  f_equal.
  - transitivity (picks (seq 0 (length l)) l); [| exact IH].
    apply picks_ext. intros p Hp. apply in_seq in Hp.
    rewrite nth_error_app1 by lia. reflexivity.
  - unfold picks. simpl. rewrite nth_error_app2 by lia.
    rewrite Nat.sub_diag. reflexivity.
Qed.

Lemma picks_perm (p1 p2 : list nat) (l : list A) :
  Permutation p1 p2 -> Permutation (picks p1 l) (picks p2 l).
Proof. intros H. unfold picks. now apply Permutation_flat_map. Qed.

(** Picking along a permutation of all the positions shuffles the list. *)
Lemma picks_shuffle (perm : list nat) (l : list A) :
  Permutation perm (seq 0 (length l)) -> Permutation (picks perm l) l.
Proof.
  intros H. rewrite <- (picks_seq l) at 2. now apply picks_perm.
Qed.

(** The first [k] picks along a permutation: [k] entries of the list, none
    of them twice. *)
Lemma picks_firstn (perm : list nat) (k : nat) (l : list A) :
  Permutation perm (seq 0 (length l)) -> k <= length l -> NoDup l ->
  length (picks (firstn k perm) l) = k /\ NoDup (picks (firstn k perm) l).
Proof.
  intros Hperm Hk Hnd. split.
  - rewrite picks_length.
    + rewrite length_firstn. apply Permutation_length in Hperm.
      rewrite length_seq in Hperm. lia.
    + apply Forall_forall. intros p Hp.
      assert (Hin : In p perm).
      { rewrite <- (firstn_skipn k perm). apply in_or_app. now left. }
      apply (Permutation_in _ Hperm) in Hin. apply in_seq in Hin. lia.
  - assert (Hall : NoDup (picks perm l)).
    { eapply Permutation_NoDup; [| exact Hnd].
      apply Permutation_sym. now apply picks_shuffle. }
    rewrite <- (firstn_skipn k perm), picks_app in Hall.
    eapply NoDup_app_remove_r. exact Hall.
Qed.

End PicksFacts.

(** ** Keys and groups *)

Section GroupFacts.
Import Pandas Sampling.

Lemma cell_eqb_refl (a : cell) : cell_eqb a a = true.
Proof.
  destruct a; simpl; [reflexivity | | apply String.eqb_refl].
  apply Qeq_bool_iff. reflexivity.
Qed.

Lemma cell_eqb_sym (a b : cell) : cell_eqb a b = cell_eqb b a.
Proof.
  destruct a, b; simpl; try reflexivity.
  - destruct (Qeq_bool q q0) eqn:E1, (Qeq_bool q0 q) eqn:E2; try reflexivity.
    + apply Qeq_bool_iff in E1. symmetry in E1. apply Qeq_bool_iff in E1. congruence.
    + apply Qeq_bool_iff in E2. symmetry in E2. apply Qeq_bool_iff in E2. congruence.
  - apply String.eqb_sym.
Qed.

Lemma cell_eqb_trans (a b c : cell) :
  cell_eqb a b = true -> cell_eqb b c = true -> cell_eqb a c = true.
Proof.
  destruct a, b, c; simpl; try discriminate; try reflexivity.
  - intros H1 H2. apply Qeq_bool_iff in H1, H2. apply Qeq_bool_iff.
    now rewrite H1.
  - intros H1 H2. apply String.eqb_eq in H1, H2. apply String.eqb_eq. congruence.
Qed.

Lemma positions_of_In (g : cell) (keys : Series) (p : nat) :
  In p (positions_of g keys)
  <-> exists k, nth_error keys p = Some k /\ cell_eqb g k = true.
Proof.
  unfold positions_of. rewrite filter_In, in_seq. split.
  - intros [_ H]. destruct (nth_error keys p) as [k |]; [eauto | discriminate].
  - intros [k [Hk Hg]]. split.
    + assert (p < length keys) by (apply nth_error_Some; congruence). lia.
    + rewrite Hk. exact Hg.
Qed.

Lemma positions_of_NoDup (g : cell) (keys : Series) : NoDup (positions_of g keys).
Proof. unfold positions_of. apply NoDup_filter. apply seq_NoDup. Qed.

Lemma positions_of_bound (g : cell) (keys : Series) (p : nat) :
  In p (positions_of g keys) -> p < length keys.
Proof.
  intros H. apply positions_of_In in H. destruct H as [k [Hk _]].
  apply nth_error_Some. congruence.
Qed.

(** A group has as many rows as its key has occurrences. *)
Lemma positions_of_length (g : cell) (keys : Series) :
  length (positions_of g keys) = count g keys.
Proof.
  unfold positions_of, count.
  induction keys as [| x keys IH] using rev_ind; [reflexivity |].
  rewrite length_app. simpl. rewrite Nat.add_1_r, seq_S.
  rewrite !filter_app, !length_app. simpl.
  rewrite nth_error_app2 by lia. rewrite Nat.sub_diag. simpl.
  f_equal.
  - rewrite <- IH. f_equal. apply filter_ext_in.
    intros p Hp. apply in_seq in Hp.
    rewrite nth_error_app1 by lia. reflexivity.
  - destruct (cell_eqb g x); reflexivity.
Qed.


Lemma unique_In (x : cell) (s : Series) : In x (unique s) -> In x s.
Proof.
  revert x. induction s as [| y s IH]; simpl; intros x H; [exact H |].
  destruct H as [-> | H]; [now left |].
  apply filter_In in H. right. apply IH. tauto.
Qed.

Lemma unique_apart (s : Series) : keys_apart (unique s).
Proof.
  induction s as [| x s [IHn IHa]]; simpl.
  - split; [constructor | intros a b []].
  - split.
    + constructor.
      * intros H. apply filter_In in H. destruct H as [_ H].
        rewrite cell_eqb_refl in H. discriminate.
      * now apply NoDup_filter.
    + intros a b [<- | Ha] [<- | Hb] Hab; try reflexivity.
      * apply filter_In in Hb. destruct Hb as [_ Hb].
        rewrite Hab in Hb. discriminate.
      * apply filter_In in Ha. destruct Ha as [_ Ha].
        rewrite cell_eqb_sym, Hab in Ha. discriminate.
      * apply filter_In in Ha, Hb. apply IHa; tauto.
Qed.

Lemma insert_sorted_perm (x : cell) (l : Series) :
  Permutation (insert_sorted x l) (x :: l).
Proof.
  induction l as [| y l IH]; simpl; [reflexivity |].
  destruct (cell_leb x y); [reflexivity |].
  rewrite IH. apply perm_swap.
Qed.

Lemma sort_cells_perm (l : Series) : Permutation (sort_cells l) l.
Proof.
  induction l as [| x l IH]; simpl; [reflexivity |].
  unfold sort_cells in *. simpl. rewrite insert_sorted_perm. now constructor.
Qed.

Lemma group_keys_apart (keys : Series) : keys_apart (group_keys keys).
Proof.
  unfold group_keys.
  destruct (unique_apart (filter notna keys)) as [Hn Ha].
  pose proof (sort_cells_perm (unique (filter notna keys))) as Hp.
  split.
  - eapply Permutation_NoDup; [apply Permutation_sym; exact Hp | exact Hn].
  - intros a b Hia Hib. apply Ha; eapply Permutation_in; eauto.
Qed.

Lemma group_keys_present (keys : Series) (k : cell) :
  In k (group_keys keys) -> notna k = true /\ In k keys.
Proof.
  unfold group_keys. intros H.
  apply (Permutation_in _ (sort_cells_perm _)) in H.
  apply unique_In in H. apply filter_In in H. tauto.
Qed.

End GroupFacts.

(** ** Rounding and the size drawn from a stratum *)

Section RoundingFacts.
Import Numpy Sampling.

Lemma rint_nonneg (q : Q) : (0 <= q)%Q -> (0 <= rint q)%Z.
Proof.
  intros H. unfold rint.
  assert (Hf : (0 <= Qfloor q)%Z).
  { change 0%Z with (Qfloor 0). now apply Qfloor_resp_le. }
  destruct (q - inject_Z (Qfloor q) ?= 1 # 2)%Q; [| lia | lia].
  destruct (Z.even (Qfloor q)); lia.
Qed.

Lemma rint_le (q : Q) (s : Z) : (q <= inject_Z s)%Q -> (rint q <= s)%Z.
Proof.
  intros H. unfold rint.
  assert (Hf : (Qfloor q <= s)%Z).
  { rewrite <- (Qfloor_Z s). now apply Qfloor_resp_le. }
  destruct (Qcompare_spec (q - inject_Z (Qfloor q)) (1 # 2)) as [E | E | E].
  - assert (Hlt : (Qfloor q < s)%Z).
    { rewrite Zlt_Qlt. lra. }
    destruct (Z.even (Qfloor q)); lia.
  - exact Hf.
  - assert (Hlt : (Qfloor q < s)%Z) by (rewrite Zlt_Qlt; lra). lia.
Qed.

(** The size drawn from a stratum is a number of rows the stratum has,
    as long as the sample is no larger than the frame. *)
Lemma stratum_size_bounds (n : Q) (len_x len_sample : nat) :
  (0 <= n)%Q -> (n <= inject_Z (Z.of_nat len_sample))%Q ->
  0 < len_sample ->
  (0 <= stratum_size n len_x len_sample <= Z.of_nat len_x)%Z.
Proof.
  intros Hn Hle Hpos. unfold stratum_size.
  assert (HN : (0 < inject_Z (Z.of_nat len_sample))%Q).
  { change 0%Q with (inject_Z 0). rewrite <- Zlt_Qlt. lia. }
  assert (Hx : (0 <= inject_Z (Z.of_nat len_x))%Q).
  { change 0%Q with (inject_Z 0). rewrite <- Zle_Qle. lia. }
  split.
  - apply rint_nonneg. apply Qle_shift_div_l; [exact HN |]. nra.
  - apply rint_le. apply Qle_shift_div_r; [exact HN |]. nra.
Qed.

Lemma Qlt_bool_iff (a b : Q) : Qlt_bool a b = true <-> (a < b)%Q.
Proof.
  unfold Qlt_bool. rewrite negb_true_iff. split.
  - intros H. apply Qnot_le_lt. intros Hle.
    apply Qle_bool_iff in Hle. congruence.
  - intros H. destruct (Qle_bool b a) eqn:E; [| reflexivity].
    apply Qle_bool_iff in E. lra.
Qed.

(** The sample size is defined for every [n >= 0], and is not negative. *)
Lemma sample_size_nonneg (n : Q) (rows : nat) :
  (0 <= n)%Q -> exists n', sample_size n rows = Ok n' /\ (0 <= n')%Q.
Proof.
  intros Hn. unfold sample_size.
  destruct (Qlt_bool n 0) eqn:E0.
  { apply Qlt_bool_iff in E0. lra. }
  destruct (Qlt_bool 0 n && Qlt_bool n 1) eqn:E1.
  - eexists. split; [reflexivity |].
    unfold py_int.
    assert (Hp : (0 <= n * inject_Z (Z.of_nat rows))%Q).
    { assert (0 <= inject_Z (Z.of_nat rows))%Q
        by (change 0%Q with (inject_Z 0); rewrite <- Zle_Qle; lia).
      nra. }
    destruct (Qle_bool 0 (n * inject_Z (Z.of_nat rows))) eqn:E2.
    + change 0%Q with (inject_Z 0). rewrite <- Zle_Qle.
      change 0%Z with (Qfloor 0). now apply Qfloor_resp_le.
    + apply Qle_bool_iff in Hp. congruence.
  - eexists. split; [reflexivity | exact Hn].
Qed.



Lemma sample_size_negative (n : Q) (rows : nat) :
  (n < 0)%Q -> sample_size n rows = Raise (Exception "n must be greater than 0").
Proof.
  intros Hn. unfold sample_size.
  apply Qlt_bool_iff in Hn. now rewrite Hn.
Qed.

End RoundingFacts.

(** ** [stratified_sample] and [split_train_test] *)


Section ResamplingFacts.
Import Numpy Pandas Sampling.
Variable rng : Type.
Variable permutation : rng -> nat -> list nat * rng.
Variable qcut : Series -> nat -> result Series.

(** What is assumed of numpy and pandas: a permutation is one, and the
    buckets come one per value. *)
Hypothesis permutation_spec :
  forall g n, Permutation (fst (permutation g n)) (seq 0 n).
Hypothesis qcut_length :
  forall x q buckets, qcut x q = Ok buckets -> length buckets = length x.

Lemma draw_spec (random_state : option rng) (n : nat) (g : rng) :
  exists perm g',
    draw permutation random_state n g = (Ok perm, g') /\
    Permutation perm (seq 0 n).
Proof.
  unfold draw. destruct random_state as [seeded |].
  - exists (fst (permutation seeded n)), g. split; [reflexivity | auto].
  - exists (fst (permutation g n)), (snd (permutation g n)).
    split; [reflexivity | auto].
Qed.

(** A draw of [k] rows from a group that has them: [k] rows of the group,
    none of them twice. *)
Lemma sample_n_spec (x : list nat) (k : Z) (random_state : option rng) (g : rng) :
  NoDup x -> (0 <= k <= Z.of_nat (length x))%Z ->
  exists d g',
    sample_n permutation x k random_state g = (Ok d, g') /\
    length d = Z.to_nat k /\ NoDup d /\ incl d x.
Proof.
  intros Hnd Hk. unfold sample_n.
  destruct (Z.ltb_spec (Z.of_nat (length x)) k); [lia |].
  destruct (draw_spec random_state (length x) g) as [perm [g' [Hd Hp]]].
  unfold bind, ret. rewrite Hd.
  exists (picks (firstn (Z.to_nat k) perm) x), g'.
  destruct (picks_firstn perm (Z.to_nat k) x Hp) as [Hlen Hno]; [lia | exact Hnd |].
  repeat split; auto. apply picks_incl.
Qed.

(** A draw of more rows than the group has is refused. *)
Lemma sample_n_too_many (x : list nat) (k : Z) (random_state : option rng) (g : rng) :
  (Z.of_nat (length x) < k)%Z ->
  sample_n permutation x k random_state g = (Raise ValueError, g).
Proof.
  intros H. unfold sample_n.
  destruct (Z.ltb_spec (Z.of_nat (length x)) k); [reflexivity | lia].
Qed.

Lemma shuffle_spec (x : list nat) (random_state : option rng) (g : rng) :
  exists pos g',
    shuffle permutation x random_state g = (Ok pos, g') /\ Permutation pos x.
Proof.
  unfold shuffle, bind, ret.
  destruct (draw_spec random_state (length x) g) as [perm [g' [Hd Hp]]].
  rewrite Hd. exists (picks perm x), g'. split; [reflexivity |].
  now apply picks_shuffle.
Qed.

Lemma apply_sample_spec (keys : Series) (n : Q) (len_sample : nat)
  (random_state : option rng) (ks : Series) :
  (forall k, In k ks ->
     (0 <= stratum_size n (count k keys) len_sample <= Z.of_nat (count k keys))%Z) ->
  forall g, exists ds g',
    apply_sample permutation (map (fun k => (k, positions_of k keys)) ks)
                 n len_sample random_state g = (Ok (concat ds), g') /\
    draws_of keys n len_sample ks ds.
Proof.
  induction ks as [| k ks IH]; intros Hsz g; simpl.
  - exists [], g. split; [reflexivity | constructor].
  - rewrite positions_of_length.
    destruct (sample_n_spec (positions_of k keys)
                (stratum_size n (count k keys) len_sample) random_state g
                (positions_of_NoDup k keys)) as [d [g1 [Hd [Hlen [Hnd Hincl]]]]].
    { rewrite positions_of_length. apply Hsz. now left. }
    destruct (IH (fun k' Hk' => Hsz k' (or_intror Hk')) g1)
      as [ds [g2 [Hds HF]]].
    unfold bind, ret. rewrite Hd, Hds.
    exists (d :: ds), g2. split; [reflexivity |].
    constructor; [| exact HF]. repeat split; auto.
    rewrite Hlen. apply Z2Nat.id. apply Hsz. now left.
Qed.

(** A stratum that is asked for more rows than it has makes the whole
    sampling raise. *)
Lemma apply_sample_refuses (keys : Series) (n : Q) (len_sample : nat)
  (random_state : option rng) (ks : Series) :
  (forall k, In k ks -> (0 <= stratum_size n (count k keys) len_sample)%Z) ->
  (exists k, In k ks /\
             (Z.of_nat (count k keys) < stratum_size n (count k keys) len_sample)%Z) ->
  forall g,
    fst (apply_sample permutation (map (fun k => (k, positions_of k keys)) ks)
                      n len_sample random_state g) = Raise ValueError.
Proof.
  induction ks as [| k ks IH]; intros Hpos [k' [Hin Hbig]] g.
  - contradiction.
  - simpl. rewrite positions_of_length. unfold bind.
    destruct (Z.ltb_spec (Z.of_nat (count k keys))
                (stratum_size n (count k keys) len_sample)) as [Hk | Hk].
    + rewrite sample_n_too_many by (now rewrite positions_of_length).
      reflexivity.
    + destruct (sample_n_spec (positions_of k keys)
                  (stratum_size n (count k keys) len_sample) random_state g
                  (positions_of_NoDup k keys)) as [d [g1 [Hd _]]].
      { rewrite positions_of_length. split; [apply Hpos; now left | exact Hk]. }
      rewrite Hd.
      assert (Hrest : exists k0, In k0 ks /\
                (Z.of_nat (count k0 keys)
                 < stratum_size n (count k0 keys) len_sample)%Z).
      { destruct Hin as [<- | Hin]; [lia | eauto]. }
      specialize (IH (fun k0 H0 => Hpos k0 (or_intror H0)) Hrest g1).
      destruct (apply_sample _ _ _ _ _ g1) as [[rest | e] g2]; simpl in *;
        [discriminate | congruence].
Qed.


Lemma positions_of_apart (a b : cell) (keys : Series) (p : nat) :
  In p (positions_of a keys) -> In p (positions_of b keys) ->
  cell_eqb a b = true.
Proof.
  intros Ha Hb. apply positions_of_In in Ha, Hb.
  destruct Ha as [k [Hk Ha]]. destruct Hb as [k' [Hk' Hb]].
  assert (k' = k) by congruence. subst k'.
  rewrite cell_eqb_sym in Hb. eapply cell_eqb_trans; eauto.
Qed.





Lemma sample_size_ok (n : Q) (rows : nat) (n' : Q) :
  sample_size n rows = Ok n' -> (0 <= n)%Q /\ (0 <= n')%Q.
Proof.
  intros H. destruct (Qlt_le_dec n 0) as [Hneg | Hpos].
  - rewrite (sample_size_negative n rows Hneg) in H. discriminate.
  - destruct (sample_size_nonneg n rows Hpos) as [m [Hm Hm0]].
    rewrite Hm in H. inversion H; subst. auto.
Qed.

Lemma getitem_column_names (df : DataFrame) (c : string) (s : Series) :
  getitem df c = Ok s -> existsb (String.eqb c) (column_names df) = true.
Proof.
  unfold getitem, column_names.
  induction (columns df) as [| [c' s'] cols IH]; simpl; [discriminate |].
  destruct (String.eqb c c'); [reflexivity | exact IH].
Qed.

(** The run of [stratified_sample] when every stratum can give its
    share: the strata, the draws of the strata, their shuffle and the frame
    returned. *)
Lemma stratified_sample_run (df : DataFrame) (target_col : string) (n : Q)
  (quantiles : nat) (random_state : option rng) (g : rng)
  (target keys : Series) (n' : Q) :
  getitem df target_col = Ok target ->
  length target = shape0 df ->
  sample_size n (shape0 df) = Ok n' ->
  (n' <= inject_Z (Z.of_nat (shape0 df)))%Q ->
  (if 10 <? length (unique target)
   then qcut target quantiles else Ok target) = Ok keys ->
  exists (ds : list (list nat)) (pos : list nat) (sample : DataFrame) (g1 g2 : rng),
    length keys = shape0 df /\
    stratification qcut df target_col quantiles = Ok (sample, keys) /\
    index sample = index df /\
    apply_sample permutation (groupby keys) n' (shape0 df) random_state g
    = (Ok (concat ds), g1) /\
    draws_of keys n' (shape0 df) (group_keys keys) ds /\
    Permutation pos (concat ds) /\
    stratified_sample permutation qcut df target_col n quantiles random_state g
    = (Ok (drop_column "quantiles" (take pos sample)), g2).
Proof.
  intros Htarget Hlen Hsize Hle Hkeys.
  destruct (sample_size_ok _ _ _ Hsize) as [_ Hn'].
  set (sample := if 10 <? length (unique target)
                 then assign "quantiles" keys df else df).
  assert (Hstrat : stratification qcut df target_col quantiles = Ok (sample, keys)).
  { unfold stratification, sample. rewrite Htarget. simpl.
    destruct (10 <? length (unique target)).
    - rewrite Hkeys. reflexivity.
    - inversion Hkeys; reflexivity. }
  assert (Hidx : index sample = index df).
  { unfold sample. destruct (10 <? length (unique target)); reflexivity. }
  assert (Hklen : length keys = shape0 df).
  { destruct (10 <? length (unique target)).
    - rewrite (qcut_length _ _ _ Hkeys). exact Hlen.
    - inversion Hkeys; subst. exact Hlen. }
  assert (Hsz : forall k, In k (group_keys keys) ->
            (0 <= stratum_size n' (count k keys) (shape0 df)
             <= Z.of_nat (count k keys))%Z).
  { intros k Hk. apply stratum_size_bounds; auto.
    apply group_keys_present in Hk. destruct Hk as [_ Hk].
    rewrite <- Hklen. destruct keys; [contradiction | simpl; lia]. }
  destruct (apply_sample_spec keys n' (shape0 df) random_state
              (group_keys keys) Hsz g) as [ds [g1 [Hdrawn HF]]].
  destruct (shuffle_spec (concat ds) random_state g1) as [pos [g2 [Hsh Hperm]]].
  exists ds, pos, sample, g1, g2.
  repeat split; auto.
  unfold stratified_sample.
  rewrite (getitem_column_names _ _ _ Htarget). simpl.
  unfold bind, lift, ret, copy. rewrite Hsize, Hstrat. simpl.
  unfold shape0 at 1. rewrite Hidx. fold (shape0 df).
  unfold groupby. rewrite Hdrawn, Hsh. reflexivity.
Qed.





(** Whatever [stratified_sample] returns, its rows carry labels of the
    frame it was given. *)
Lemma stratified_sample_index (df : DataFrame) (target_col : string) (n : Q)
  (quantiles : nat) (random_state : option rng) (g g' : rng) (test : DataFrame) :
  stratified_sample permutation qcut df target_col n quantiles random_state g
  = (Ok test, g') ->
  incl (index test) (index df).
Proof.
  unfold stratified_sample.
  destruct (negb _); [discriminate |].
  unfold bind, lift, ret, copy.
  destruct (sample_size n (shape0 df)); [| discriminate].
  destruct (stratification qcut df target_col quantiles) as [[sample keys] |] eqn:Hst;
    [| discriminate].
  simpl.
  destruct (apply_sample _ _ _ _ _ g) as [[drawn |] g1]; [| discriminate].
  destruct (shuffle _ _ _ g1) as [[pos |] g2]; [| discriminate].
  intros H. inversion H; subst. simpl.
  assert (Hidx : index sample = index df).
  { unfold stratification in Hst.
    destruct (getitem df target_col); simpl in Hst; [| discriminate].
    destruct (10 <? _).
    - destruct (qcut _ _); simpl in Hst; inversion Hst; reflexivity.
    - inversion Hst; reflexivity. }
  rewrite Hidx. apply picks_incl.
Qed.

Lemma existsb_Zeqb (l : Z) (ls : list Z) :
  existsb (Z.eqb l) ls = true <-> In l ls.
Proof.
  rewrite existsb_exists. split.
  - intros [x [Hx E]]. apply Z.eqb_eq in E. now subst.
  - intros H. exists l. split; [exact H | apply Z.eqb_refl].
Qed.

Lemma kept_index (labels idx : list Z) (l : Z) :
  In l (picks (kept_positions labels idx) idx) <-> In l idx /\ ~ In l labels.
Proof.
  rewrite picks_In. unfold kept_positions. split.
  - intros [p [Hp Hl]]. apply filter_In in Hp. destruct Hp as [_ Hp].
    rewrite Hl in Hp. apply negb_true_iff in Hp. split.
    + eapply nth_error_In; eauto.
    + intros Hin. apply existsb_Zeqb in Hin. congruence.
  - intros [Hin Hnot]. apply In_nth_error in Hin. destruct Hin as [p Hp].
    exists p. split; [| exact Hp]. apply filter_In. split.
    + apply in_seq. assert (p < length idx) by (apply nth_error_Some; congruence). lia.
    + rewrite Hp. apply negb_true_iff.
      destruct (existsb (Z.eqb l) labels) eqn:E; [| reflexivity].
      apply existsb_Zeqb in E. contradiction.
Qed.

(** Whenever the stratified sample of the test rows is drawn,
    [split_train_test] returns it with the train partition, and the two
    partition the row labels of the input. *)
Lemma split_train_test_partition (df : DataFrame) (target_col : string)
  (test_size : Q) (random_state : option rng) (g g' : rng) (test : DataFrame) :
  stratified_sample permutation qcut df target_col test_size 4 random_state g
  = (Ok test, g') ->
  exists train,
    split_train_test permutation qcut df target_col test_size random_state g
    = (Ok (train, test), g') /\
    (forall l, In l (index train) -> ~ In l (index test)) /\
    (forall l, In l (index df) -> In l (index train) \/ In l (index test)) /\
    incl (index train) (index df) /\
    incl (index test) (index df).
Proof.
  intros Hs.
  pose proof (stratified_sample_index _ _ _ _ _ _ _ _ Hs) as Hincl.
  exists (take (kept_positions (index test) (index df)) df).
  split; [| repeat split].
  - unfold split_train_test, bind, lift, ret. rewrite Hs.
    unfold drop.
    assert (Hall : forallb (fun l => existsb (Z.eqb l) (index df)) (index test) = true).
    { apply forallb_forall. intros l Hl. apply existsb_Zeqb. now apply Hincl. }
    rewrite Hall. reflexivity.
  - intros l Hl. simpl in Hl. apply kept_index in Hl. tauto.
  - intros l Hl. simpl.
    destruct (in_dec Z.eq_dec l (index test)) as [Hin | Hout]; [now right |].
    left. apply kept_index. auto.
  - intros l Hl. simpl in Hl. apply kept_index in Hl. tauto.
  - exact Hincl.
Qed.

End ResamplingFacts.

(** The generator and the bucketing of the instances are as assumed. *)
Lemma reversal_spec (g n : nat) :
  Permutation (fst (Sampling.reversal g n)) (seq 0 n).
Proof.
  unfold Sampling.reversal. simpl. destruct (Nat.even g).
  - reflexivity.
  - apply Permutation_sym, Permutation_rev.
Qed.

Lemma rank_qcut_length (x : Pandas.Series) (q : nat) (buckets : Pandas.Series) :
  Sampling.rank_qcut x q = Ok buckets -> length buckets = length x.
Proof.
  unfold Sampling.rank_qcut. intros H. inversion H. apply length_map.
Qed.




(** ** The constructor builds well-formed datasets *)

Section ConstructorFacts.
Import Numpy Pandas Datasets.
Variable sqrt : Q -> Q.
Variable PARTICIPANT : string.

Lemma existsb_lookup {A} (c : string) (kvs : list (string * A)) :
  existsb (String.eqb c) (map fst kvs) = negb (is_none (lookup c kvs)).
Proof.
  induction kvs as [| [k v] kvs IH]; simpl; [reflexivity |].
  destruct (String.eqb c k); [reflexivity | exact IH].
Qed.

Lemma check_columns_validity_ok (df : DataFrame) (cols : list string) :
  check_columns_validity df (Some cols) = Ok tt -> has_columns df cols = true.
Proof.
  unfold check_columns_validity, has_columns, column_names.
  destruct (forallb _ cols) eqn:E; [intros _ | discriminate].
  rewrite forallb_forall in *. intros c Hc.
  rewrite <- existsb_lookup. auto.
Qed.

Lemma of_float_no_str (f : float) : no_str (of_float f) = true.
Proof. destruct f; reflexivity. Qed.

Lemma converted_numeric (fs : list float) : numeric (map of_float fs) = true.
Proof.
  unfold numeric. rewrite forallb_forall. intros x Hx.
  apply in_map_iff in Hx. destruct Hx as [f [<- _]]. apply of_float_no_str.
Qed.

(** A column without a string is converted into itself. *)
Lemma to_float_no_str (s : Series) :
  numeric s = true ->
  exists fs, rmap to_float s = Ok fs /\ map of_float fs = s.
Proof.
  induction s as [| x s IH]; simpl; intros H.
  - exists []. auto.
  - apply andb_true_iff in H. destruct H as [Hx Hs].
    destruct (IH Hs) as [fs [Hfs Hmap]]. rewrite Hfs.
    destruct x; simpl in *; try discriminate;
      eexists; (split; [reflexivity |]); simpl; now rewrite Hmap.
Qed.

Lemma lookup_converted {A} (c : string) (cv kvs : list (string * A)) :
  lookup c (map (fun cs => match lookup (fst cs) cv with
                           | Some col => (fst cs, col)
                           | None => cs
                           end) kvs)
  = match lookup c kvs with
    | Some s => Some (match lookup c cv with Some col => col | None => s end)
    | None => None
    end.
Proof.
  induction kvs as [| [k v] kvs IH]; simpl; [reflexivity |].
  destruct (lookup k cv) as [col |] eqn:Hk; simpl;
    destruct (String.eqb_spec c k) as [-> | Hne]; try exact IH;
    rewrite Hk; reflexivity.
Qed.

(** The columns converted by [astype_float], as the list it assigns. *)
Lemma converted_columns (df : DataFrame) (cols : list string) :
  forall cs cv,
    rmap (fun c => rbind (getitem df c) (fun s => Ok (c, s))) cols = Ok cs ->
    rmap (fun cs0 : string * Series =>
            rbind (rmap to_float (snd cs0))
                  (fun fs => Ok (fst cs0, map of_float fs))) cs = Ok cv ->
    forall c,
      match lookup c cv with
      | Some col =>
          In c cols /\
          exists s fs, lookup c (columns df) = Some s /\
                       rmap to_float s = Ok fs /\ col = map of_float fs
      | None => ~ In c cols
      end.
Proof.
  induction cols as [| c0 cols IH]; simpl; intros cs cv Hcs Hcv c.
  - inversion Hcs; subst. simpl in Hcv. inversion Hcv; subst. simpl. tauto.
  - apply rbind_ok in Hcs. destruct Hcs as [[c' s] [Hc Hcs]].
    apply rbind_ok in Hcs. destruct Hcs as [cs' [Hcs' Hcs]].
    inversion Hcs; subst; clear Hcs.
    apply rbind_ok in Hc. destruct Hc as [s' [Hs' Hc]].
    inversion Hc; subst; clear Hc.
    unfold getitem in Hs'.
    destruct (lookup c' (columns df)) as [s0 |] eqn:Hl; [| discriminate].
    inversion Hs'; subst; clear Hs'.
    simpl in Hcv.
    apply rbind_ok in Hcv. destruct Hcv as [[c1 col1] [H1 Hcv]].
    apply rbind_ok in Hcv. destruct Hcv as [cv' [Hcv' Hcv]].
    inversion Hcv; subst; clear Hcv.
    apply rbind_ok in H1. destruct H1 as [fs [Hfs H1]].
    inversion H1; subst; clear H1. simpl.
    specialize (IH cs' cv' Hcs' Hcv' c).
    destruct (String.eqb_spec c c1) as [-> | Hne].
    + split; [now left |]. exists s, fs. auto.
    + destruct (lookup c cv') as [col |].
      * destruct IH as [Hin Hex]. split; [now right | exact Hex].
      * intros [Heq | Hin]; [now subst | contradiction].
Qed.

(** The frame [astype_float] returns: the frame it was given, with the
    listed columns converted. *)
Lemma astype_float_frame (df data : DataFrame) (cols : list string) :
  astype_float df (Some cols) = Ok data ->
  index data = index df /\
  column_names data = column_names df /\
  forall c,
    lookup c (columns data)
    = match lookup c (columns df) with
      | Some s =>
          if existsb (String.eqb c) cols
          then match rmap to_float s with
               | Ok fs => Some (map of_float fs)
               | Raise _ => Some s
               end
          else Some s
      | None => None
      end.
Proof.
  unfold astype_float, getitems. intros H.
  apply rbind_ok in H. destruct H as [sub [Hsub H]].
  apply rbind_ok in Hsub. destruct Hsub as [cs [Hcs Hsub]].
  inversion Hsub; subst; clear Hsub. simpl in H.
  apply rbind_ok in H. destruct H as [cv [Hcv H]].
  inversion H; subst; clear H. simpl.
  split; [reflexivity | split].
  - unfold column_names. simpl. rewrite map_map. apply map_ext.
    intros [c s]. simpl. destruct (lookup c cv); reflexivity.
  - intros c. rewrite lookup_converted.
    pose proof (converted_columns df cols cs cv Hcs Hcv c) as Hc.
    unfold Series in *.
    set (l := @lookup (list cell) c (columns df)) in *.
    set (lc := @lookup (list cell) c cv) in *.
    destruct l as [s |]; [| reflexivity].
    destruct lc as [col |].
    + destruct Hc as [Hin (s' & fs & Hs' & Hfs & ->)].
      inversion Hs'; subst.
      assert (E : existsb (String.eqb c) cols = true).
      { apply existsb_exists. exists c. split; [exact Hin | apply String.eqb_refl]. }
      rewrite E, Hfs. reflexivity.
    + assert (E : existsb (String.eqb c) cols = false).
      { apply not_true_is_false. intros E. apply existsb_exists in E.
        destruct E as [x [Hx E]]. apply String.eqb_eq in E. subst. contradiction. }
      rewrite E. reflexivity.
Qed.

Lemma astype_float_shape (df data : DataFrame) (cont : option (list string)) :
  astype_float df cont = Ok data ->
  index data = index df /\ column_names data = column_names df.
Proof.
  destruct cont as [cols |].
  - intros H. destruct (astype_float_frame df data cols H) as (Hi & Hn & _). auto.
  - simpl. intros H. inversion H. auto.
Qed.

Lemma astype_float_ok (df data : DataFrame) (cols : list string) :
  astype_float df (Some cols) = Ok data -> has_numeric_columns data cols = true.
Proof.
  intros H. pose proof (astype_float_frame df data cols H) as (_ & _ & Hl).
  unfold has_numeric_columns. rewrite forallb_forall. intros c Hc.
  rewrite Hl.
  assert (E : existsb (String.eqb c) cols = true).
  { apply existsb_exists. exists c. split; [exact Hc | apply String.eqb_refl]. }
  rewrite E.
  unfold astype_float, getitems in H.
  apply rbind_ok in H. destruct H as [sub [Hsub H]].
  apply rbind_ok in Hsub. destruct Hsub as [cs [Hcs Hsub]].
  inversion Hsub; subst; clear Hsub. simpl in H.
  apply rbind_ok in H. destruct H as [cv [Hcv _]].
  pose proof (converted_columns df cols cs cv Hcs Hcv c) as Hcc.
  destruct (lookup c cv) as [col |]; [| contradiction].
  destruct Hcc as [_ (s & fs & Hs & Hfs & _)].
  rewrite Hs, Hfs. apply converted_numeric.
Qed.

Lemma has_columns_names (df data : DataFrame) (cols : list string) :
  column_names data = column_names df ->
  has_columns data cols = has_columns df cols.
Proof.
  unfold has_columns, column_names. intros Hn.
  induction cols as [| c cols IH]; simpl; [reflexivity |].
  rewrite IH, <- !existsb_lookup, Hn. reflexivity.
Qed.

Lemma well_formed_base (a b : Dataset) :
  same_base a b -> well_formed a = well_formed b.
Proof.
  intros (_ & _ & _ & _ & _ & Ho & _ & _ & Hc & Hk & _).
  unfold well_formed. now rewrite Ho, Hc, Hk.
Qed.

(** Every dataset the constructor returns is well formed, holds the frame
    and the columns it was given, and has every row in its training mask. *)
Lemma constructor_well_formed (df : DataFrame) (target : string)
  (cont cat : option (list string)) (self : Dataset) :
  PetaleNNDataset__init__ sqrt PARTICIPANT df target cont cat = Ok self ->
  well_formed self = true /\
  astype_float df cont = Ok (_original_data self) /\
  cont_cols self = cont /\ cat_cols self = cat /\
  _train_mask self = map Z.of_nat (seq 0 (shape0 df)).
Proof.
  unfold PetaleNNDataset__init__.
  destruct (negb _); [discriminate |].
  destruct (is_none cont && is_none cat); [discriminate |].
  destruct (check_columns_validity df cont) as [[] |] eqn:Hcont; [| discriminate].
  destruct (check_columns_validity df cat) as [[] |] eqn:Hcat; [| discriminate].
  simpl.
  destruct (getitem df PARTICIPANT) as [ids |]; [| discriminate]. simpl.
  destruct (_initialize_targets df target) as [y |]; [| discriminate]. simpl.
  destruct (extract_encodings df cat) as [enc |]; [| discriminate]. simpl.
  destruct (astype_float df cont) as [data |] eqn:Hfloat; [| discriminate]. simpl.
  match goal with
  | |- context [update_masks sqrt ?tr ?te ?va ?s0] =>
      pose proof (update_masks_base sqrt tr te va s0) as Hb;
      destruct (update_masks sqrt tr te va s0) as [[[] | e] s1]
  end; [| discriminate].
  intros H. inversion H; subst; clear H. simpl in Hb.
  rewrite (well_formed_base _ _ Hb).
  destruct Hb as (_ & _ & Ht & _ & _ & Ho & _ & _ & Hc & Hk & _).
  simpl in *. subst. repeat split; auto.
  unfold well_formed. simpl. apply andb_true_iff. split.
  - destruct (cont_cols self) as [cols |]; [| reflexivity].
    now apply (astype_float_ok df).
  - destruct (cat_cols self) as [cols |]; [| reflexivity].
    rewrite (has_columns_names df (_original_data self) cols
               (proj2 (astype_float_shape _ _ _ Hfloat))).
    now apply check_columns_validity_ok.
Qed.

End ConstructorFacts.

(** The constructor on the frame of four patients: the dataset of the
    instances after its first [update_masks], every row a training row. *)
Example constructor_on_clinic :
  Datasets.PetaleNNDataset__init__ Numpy.sqrt_down "Participant" clinic "VO2"
    (Some ["AGE"%string]) (Some ["SEX"%string])
  = Ok (snd (Datasets.update_masks Numpy.sqrt_down [0; 1; 2; 3]%Z [] (Some [])
               clinic_dataset)).
Proof. vm_compute. reflexivity. Qed.

(** With the rows 0 and 1 for training, the ages 8 and 12 have the mean 10;
    the missing age of row 2 is filled with that mean and is 0 once
    standardized, and the missing sex of row 2 takes the code of the mode. *)
Example missing_values_take_training_statistics :
  let after :=
    snd (Datasets.update_masks Numpy.sqrt_down [0; 1]%Z [3]%Z (Some [2]%Z)
           clinic_dataset) in
  match Datasets._x_cont after, Datasets._x_cat after with
  | Some x, Some c =>
      Numpy.feq (nth 0 (nth 2 x []) None) (Some 0%Q) /\
      nth 0 (nth 2 c []) None = Some 0%Z
  | _, _ => False
  end.
Proof. vm_compute. split; reflexivity. Qed.

(** A frame of 100 rows, 60 of one class and 40 of the other, sampled at
    the fraction 0.2: a sample size of 20, 12 rows of the first class and 8
    of the second. *)
Example shares_of_a_60_40_frame :
  Sampling.sample_size (1 # 5) 100 = Ok (inject_Z 20) /\
  Sampling.stratum_size (inject_Z 20) 60 100 = 12%Z /\
  Sampling.stratum_size (inject_Z 20) 40 100 = 8%Z.
Proof. repeat split; reflexivity. Qed.

(** The rounding is to the even integer on a tie, so that two strata of 5
    rows among 10, sampled at 5 rows, give 2 rows each and 4 rows in all; and
    a stratum too small for its share to reach one half gives none. *)
Example shares_round_half_to_even :
  Sampling.stratum_size (inject_Z 5) 5 10 = 2%Z /\
  Sampling.stratum_size (inject_Z 3) 1 10 = 0%Z.
Proof. split; reflexivity. Qed.

(** ** [split_train_test] and [stratified_sample]: rows, columns, refusals *)

Section SplitFacts.
Import Numpy Pandas Sampling.
Variable rng : Type.
Variable permutation : rng -> nat -> list nat * rng.
Variable qcut : Series -> nat -> result Series.

Hypothesis permutation_spec :
  forall g n, Permutation (fst (permutation g n)) (seq 0 n).
Hypothesis qcut_length :
  forall x q buckets, qcut x q = Ok buckets -> length buckets = length x.

Lemma picks_NoDup {A} (pos : list nat) (l : list A) :
  NoDup pos -> NoDup l -> NoDup (picks pos l).
Proof.
  intros Hpos Hl. induction Hpos as [| p pos Hp Hpos IH]; [constructor |].
  unfold picks in *. simpl.
  destruct (nth_error l p) as [x |] eqn:E; [| exact IH].
  simpl. constructor; [| exact IH].
  intros Hin. apply (picks_In pos l x) in Hin. destruct Hin as [q [Hq Hx]].
  assert (p = q).
  { rewrite NoDup_nth_error in Hl. apply Hl; [| congruence].
    apply nth_error_Some. congruence. }
  subst q. contradiction.
Qed.

(** The labels kept by [df.drop(labels)] are the labels of the frame that
    are none of [labels], in the order of the frame. *)
Lemma picks_kept_positions (labels idx : list Z) :
  picks (kept_positions labels idx) idx
  = filter (fun l => negb (existsb (Z.eqb l) labels)) idx.
Proof.
  unfold kept_positions.
  induction idx as [| x idx IH] using rev_ind; [reflexivity |].
  rewrite length_app. simpl. rewrite Nat.add_1_r, seq_S, !filter_app, picks_app.
  simpl. rewrite nth_error_app2 by lia. rewrite Nat.sub_diag. simpl.
  f_equal.
  - rewrite <- IH.
    transitivity (picks (filter (fun p => match nth_error idx p with
                                          | Some l => negb (existsb (Z.eqb l) labels)
                                          | None => false
                                          end) (seq 0 (length idx))) (idx ++ [x])).
    + f_equal. apply filter_ext_in. intros p Hp. apply in_seq in Hp.
      rewrite nth_error_app1 by lia. reflexivity.
    + apply picks_ext. intros p Hp. apply filter_In in Hp.
      destruct Hp as [Hp _]. apply in_seq in Hp.
      rewrite nth_error_app1 by lia. reflexivity.
  - destruct (negb (existsb (Z.eqb x) labels)); simpl; [| reflexivity].
    unfold picks. simpl. rewrite nth_error_app2 by lia.
    rewrite Nat.sub_diag. reflexivity.
Qed.

(** Dropping distinct labels of a frame of distinct labels removes as
    many rows as there are labels. *)
Lemma filter_out_length (labels idx : list Z) :
  NoDup labels -> NoDup idx -> incl labels idx ->
  length (filter (fun l => negb (existsb (Z.eqb l) labels)) idx) + length labels
  = length idx.
Proof.
  intros Hl Hi Hincl.
  rewrite <- (filter_length (fun l => existsb (Z.eqb l) labels) idx).
  rewrite Nat.add_comm. f_equal.
  apply Permutation_length. apply NoDup_Permutation.
  - exact Hl.
  - now apply NoDup_filter.
  - intros l. rewrite filter_In, existsb_Zeqb. split; [auto | tauto].
Qed.

Lemma sample_n_ok (x : list nat) (k : Z) (random_state : option rng)
  (g g' : rng) (d : list nat) :
  NoDup x ->
  sample_n permutation x k random_state g = (Ok d, g') ->
  NoDup d /\ incl d x.
Proof.
  intros Hx. unfold sample_n.
  destruct (Z.ltb_spec (Z.of_nat (length x)) k) as [| Hk]; [discriminate |].
  destruct (draw_spec rng permutation permutation_spec random_state (length x) g)
    as [perm [g1 [Hd Hp]]].
  unfold bind, ret. rewrite Hd. intros H. inversion H; subst.
  split; [| apply picks_incl].
  apply (picks_firstn perm (Z.to_nat k) x Hp); [lia | exact Hx].
Qed.

Lemma apply_sample_ok (keys : Series) (n : Q) (len_sample : nat)
  (random_state : option rng) (ks : Series) :
  keys_apart ks ->
  forall g g' drawn,
    apply_sample permutation (map (fun k => (k, positions_of k keys)) ks)
                 n len_sample random_state g = (Ok drawn, g') ->
    NoDup drawn /\
    forall p, In p drawn -> exists k, In k ks /\ In p (positions_of k keys).
Proof.
  intros [Hnd Hap]. revert Hap.
  induction Hnd as [| k ks Hk Hnd IH]; intros Hap g g' drawn; simpl.
  - unfold ret. intros H. inversion H; subst. split; [constructor | intros p []].
  - unfold bind, ret.
    destruct (sample_n permutation (positions_of k keys) _ random_state g)
      as [[d | e] g1] eqn:Hd; [| discriminate].
    destruct (apply_sample permutation _ n len_sample random_state g1)
      as [[rest | e] g2] eqn:Hrest; [| discriminate].
    intros H. inversion H; subst.
    destruct (sample_n_ok _ _ _ _ _ _ (positions_of_NoDup k keys) Hd) as [Hdn Hdi].
    destruct (IH (fun a b Ha Hb => Hap a b (or_intror Ha) (or_intror Hb))
                 g1 g' rest Hrest) as [Hrn Hri].
    split.
    + apply NoDup_app; [exact Hdn | exact Hrn |].
      intros p Hp Hq. destruct (Hri p Hq) as [k' [Hk' Hp']].
      assert (k = k').
      { apply Hap; [now left | now right |].
        eapply positions_of_apart; eauto. }
      subst k'. contradiction.
    + intros p Hp. apply in_app_iff in Hp. destruct Hp as [Hp | Hp].
      * exists k. split; [now left | now apply Hdi].
      * destruct (Hri p Hp) as [k' [Hk' Hp']]. exists k'. split; [now right | exact Hp'].
Qed.

(** The rows [stratified_sample] returns are rows of the frame at
    positions that are all different. *)
Lemma stratified_sample_positions (df : DataFrame) (target_col : string) (n : Q)
  (quantiles : nat) (random_state : option rng) (g g' : rng) (test : DataFrame) :
  stratified_sample permutation qcut df target_col n quantiles random_state g
  = (Ok test, g') ->
  exists pos, NoDup pos /\ index test = picks pos (index df).
Proof.
  unfold stratified_sample.
  destruct (negb _); [discriminate |].
  unfold bind, lift, ret, copy.
  destruct (sample_size n (shape0 df)); [| discriminate].
  destruct (stratification qcut df target_col quantiles) as [[sample keys] |] eqn:Hst;
    [| discriminate].
  simpl.
  destruct (apply_sample _ _ _ _ _ g) as [[drawn |] g1] eqn:Hdrawn; [| discriminate].
  destruct (shuffle_spec rng permutation permutation_spec drawn random_state g1)
    as [pos [g2 [Hsh Hperm]]].
  rewrite Hsh. intros H. inversion H; subst. simpl.
  assert (Hidx : index sample = index df).
  { unfold stratification in Hst.
    destruct (getitem df target_col); simpl in Hst; [| discriminate].
    destruct (10 <? _).
    - destruct (qcut _ _); simpl in Hst; inversion Hst; reflexivity.
    - inversion Hst; reflexivity. }
  exists pos. split; [| now rewrite Hidx].
  eapply Permutation_NoDup; [apply Permutation_sym; exact Hperm |].
  unfold groupby in Hdrawn.
  exact (proj1 (apply_sample_ok keys _ _ random_state (group_keys keys)
                  (group_keys_apart keys) g g1 drawn Hdrawn)).
Qed.

Lemma split_train_test_inv (df : DataFrame) (target_col : string)
  (test_size : Q) (random_state : option rng) (g g' : rng)
  (train test : DataFrame) :
  split_train_test permutation qcut df target_col test_size random_state g
  = (Ok (train, test), g') ->
  stratified_sample permutation qcut df target_col test_size 4 random_state g
  = (Ok test, g') /\
  drop (index test) df = Ok train.
Proof.
  unfold split_train_test, bind, lift, ret. intros H.
  destruct (stratified_sample _ _ _ _ _ _ _ g) as [[t |] g1]; [| discriminate].
  destruct (drop (index t) df) eqn:Hd; inversion H; subst. auto.
Qed.

Lemma getitem_rectangular (df : DataFrame) (c : string) (s : Series) :
  Datasets.rectangular df = true -> getitem df c = Ok s -> length s = shape0 df.
Proof.
  unfold Datasets.rectangular, getitem. generalize (shape0 df). intros n.
  induction (columns df) as [| [c' s'] cols IH]; simpl; [discriminate |].
  intros Hrect Hget. apply andb_prop in Hrect. destruct Hrect as [Hlen Hrect].
  destruct (String.eqb c c').
  - inversion Hget; subst. now apply Nat.eqb_eq.
  - now apply IH.
Qed.

(** The column of buckets leaves no trace in the rows that are returned. *)
Lemma drop_quantiles_assign (buckets : Series) (pos : list nat) (df : DataFrame) :
  drop_column "quantiles" (take pos (assign "quantiles" buckets df))
  = drop_column "quantiles" (take pos df).
Proof.
  unfold drop_column, take, assign. simpl. f_equal.
  induction (columns df) as [| [c s] cols IH]; simpl; [reflexivity |].
  destruct (String.eqb c "quantiles") eqn:E; simpl; rewrite ?String.eqb_refl, ?E; simpl.
  - reflexivity.
  - now rewrite IH.
Qed.

(** The rows [stratified_sample] returns are the rows of the frame at
    positions of the frame that are all different. *)
Lemma stratified_sample_rows (df : DataFrame) (target_col : string) (n : Q)
  (quantiles : nat) (random_state : option rng) (g g' : rng) (test : DataFrame) :
  Datasets.rectangular df = true ->
  stratified_sample permutation qcut df target_col n quantiles random_state g
  = (Ok test, g') ->
  exists pos,
    NoDup pos /\ (forall p, In p pos -> p < shape0 df) /\
    test = drop_column "quantiles" (take pos df).
Proof.
  intros Hrect. unfold stratified_sample.
  destruct (negb _); [discriminate |].
  unfold bind, lift, ret, copy.
  destruct (sample_size n (shape0 df)); [| discriminate].
  destruct (stratification qcut df target_col quantiles) as [[sample keys] |] eqn:Hst;
    [| discriminate].
  simpl.
  destruct (apply_sample _ _ _ _ _ g) as [[drawn |] g1] eqn:Hdrawn; [| discriminate].
  destruct (shuffle_spec rng permutation permutation_spec drawn random_state g1)
    as [pos [g2 [Hsh Hperm]]].
  rewrite Hsh. intros H. inversion H; subst.
  unfold groupby in Hdrawn.
  destruct (apply_sample_ok keys _ _ random_state (group_keys keys)
              (group_keys_apart keys) g g1 drawn Hdrawn) as [Hnd Hin].
  assert (Hkeys : length keys = shape0 df /\
                  drop_column "quantiles" (take pos sample)
                  = drop_column "quantiles" (take pos df)).
  { unfold stratification in Hst.
    destruct (getitem df target_col) as [target |] eqn:Htarget; simpl in Hst;
      [| discriminate].
    pose proof (getitem_rectangular _ _ _ Hrect Htarget) as Hlen.
    destruct (10 <? _).
    - destruct (qcut target quantiles) as [buckets |] eqn:Hq; simpl in Hst;
        inversion Hst; subst.
      split; [| apply drop_quantiles_assign].
      rewrite <- Hlen. eapply qcut_length; eauto.
    - inversion Hst; subst. auto. }
  destruct Hkeys as [Hlen Hrows].
  exists pos. split; [| split].
  - eapply Permutation_NoDup; [apply Permutation_sym; exact Hperm | exact Hnd].
  - intros p Hp. rewrite <- Hlen.
    destruct (Hin p (Permutation_in _ Hperm Hp)) as [k [_ Hk]].
    eapply positions_of_bound; eauto.
  - exact Hrows.
Qed.

(** With labels that are all different, [df.drop] of the labels at some
    positions keeps the rows at the other positions. *)
Lemma kept_positions_picks (pos : list nat) (idx : list Z) :
  NoDup idx ->
  kept_positions (picks pos idx) idx
  = filter (fun p => negb (existsb (Nat.eqb p) pos)) (seq 0 (length idx)).
Proof.
  intros Hnd. unfold kept_positions. apply filter_ext_in. intros p Hp.
  apply in_seq in Hp.
  destruct (nth_error idx p) as [l |] eqn:Hl;
    [| apply nth_error_None in Hl; lia].
  f_equal.
  destruct (existsb (Nat.eqb p) pos) eqn:E.
  - apply existsb_Zeqb. apply picks_In. exists p. split; [| exact Hl].
    apply existsb_exists in E. destruct E as [q [Hq E]].
    apply Nat.eqb_eq in E. now subst.
  - destruct (existsb (Z.eqb l) (picks pos idx)) eqn:E'; [| reflexivity].
    apply existsb_Zeqb in E'. apply picks_In in E'. destruct E' as [q [Hq Hlq]].
    assert (p = q).
    { rewrite NoDup_nth_error in Hnd. apply Hnd; [lia | congruence]. }
    subst q.
    assert (existsb (Nat.eqb p) pos = true).
    { apply existsb_exists. exists p. split; [exact Hq | apply Nat.eqb_refl]. }
    congruence.
Qed.

(** Positions that are all different, with the positions that are none
    of them, are the positions of the frame, each of them once. *)
Lemma positions_partition (pos : list nat) (n : nat) :
  NoDup pos -> (forall p, In p pos -> p < n) ->
  Permutation (pos ++ filter (fun p => negb (existsb (Nat.eqb p) pos)) (seq 0 n))
              (seq 0 n).
Proof.
  intros Hnd Hb.
  assert (Hmem : forall p, existsb (Nat.eqb p) pos = true <-> In p pos).
  { intros p. rewrite existsb_exists. split.
    - intros [q [Hq E]]. apply Nat.eqb_eq in E. now subst.
    - intros Hp. exists p. split; [exact Hp | apply Nat.eqb_refl]. }
  apply NoDup_Permutation.
  - apply NoDup_app; [exact Hnd | apply NoDup_filter, seq_NoDup |].
    intros p Hp Hq. apply filter_In in Hq. destruct Hq as [_ Hq].
    apply negb_true_iff in Hq. apply Hmem in Hp. congruence.
  - apply seq_NoDup.
  - intros p. rewrite in_app_iff, filter_In, in_seq. split.
    + intros [Hp | [Hp _]]; [specialize (Hb p Hp) |]; lia.
    + intros Hp. destruct (existsb (Nat.eqb p) pos) eqn:E.
      * left. now apply Hmem.
      * right. split; [lia | reflexivity].
Qed.

(** C9, as the code has it. On a frame whose row labels are all
    different, and whose columns have as many cells as the frame has rows,
    every split that [split_train_test] returns assigns every row of the
    frame to exactly one partition: the test partition is made of the rows at positions
    [pos_test], all different, without the column [quantiles]; the train
    partition is made of the rows at the other positions, in the order of
    the frame; the two lists of positions together hold every position of
    the frame once; and no row label is in both partitions. For a test size
    that, taken as a count, lies between 0 and the number of rows, and a
    target that can be bucketed, [split_train_test] returns such a split.
    With repeated row labels rows are lost: [cohort_in_pairs]. *)
Theorem split_train_test_disjoint :
  forall (df : DataFrame) (target_col : string) (test_size : Q)
         (random_state : option rng) (g : rng),
    NoDup (index df) ->
    Datasets.rectangular df = true ->
    (forall (target keys : Series) (n' : Q),
       getitem df target_col = Ok target ->
       sample_size test_size (shape0 df) = Ok n' ->
       (n' <= inject_Z (Z.of_nat (shape0 df)))%Q ->
       (if 10 <? length (unique target)
        then qcut target 4 else Ok target) = Ok keys ->
       exists train test g',
         split_train_test permutation qcut df target_col test_size random_state g
         = (Ok (train, test), g')) /\
    (forall (train test : DataFrame) (g' : rng),
       split_train_test permutation qcut df target_col test_size random_state g
       = (Ok (train, test), g') ->
       exists pos_test pos_train : list nat,
         test = drop_column "quantiles" (take pos_test df) /\
         train = take pos_train df /\
         NoDup pos_test /\
         pos_train
         = filter (fun p => negb (existsb (Nat.eqb p) pos_test))
                  (seq 0 (shape0 df)) /\
         Permutation (pos_test ++ pos_train) (seq 0 (shape0 df)) /\
         (forall l, In l (index train) -> ~ In l (index test)) /\
         (forall l, In l (index df) -> In l (index train) \/ In l (index test))).
Proof.
  intros df target_col test_size random_state g Hnd Hrect. split.
  - intros target keys n' Htarget Hsize Hle Hkeys.
    destruct (stratified_sample_run rng permutation qcut permutation_spec qcut_length
                df target_col test_size 4 random_state g
                target keys n' Htarget (getitem_rectangular _ _ _ Hrect Htarget)
                Hsize Hle Hkeys)
      as (ds & pos & sample & g1 & g2 & _ & _ & _ & _ & _ & _ & Hrun).
    destruct (split_train_test_partition rng permutation qcut
                _ _ _ _ _ _ _ Hrun) as [train [Hsplit _]].
    eauto.
  - intros train test g' Hsplit.
    destruct (split_train_test_inv _ _ _ _ _ _ _ _ Hsplit) as [Hs Hdrop].
    destruct (stratified_sample_rows _ _ _ _ _ _ _ _ Hrect Hs)
      as [pos [Hpos [Hbound Htest]]].
    assert (Hidx : index test = picks pos (index df)) by (now subst test).
    assert (Htrain : train = take (kept_positions (index test) (index df)) df).
    { unfold drop in Hdrop.
      destruct (forallb _ (index test)); inversion Hdrop; reflexivity. }
    rewrite Hidx, (kept_positions_picks _ _ Hnd) in Htrain.
    exists pos, (filter (fun p => negb (existsb (Nat.eqb p) pos))
                        (seq 0 (shape0 df))).
    split; [exact Htest |]. split; [exact Htrain |]. split; [exact Hpos |].
    split; [reflexivity |].
    split; [now apply positions_partition |].
    destruct (split_train_test_partition rng permutation qcut
                _ _ _ _ _ _ _ Hs) as [train' [Hsplit' [Hd [Hc _]]]].
    rewrite Hsplit in Hsplit'. inversion Hsplit'; subst train'. auto.
Qed.

(** X1. With row labels that are all different, every split that
    [split_train_test] returns keeps every row once: the test rows carry
    labels that are all different, the train rows are the rows of the frame
    whose label is not a test label, in the order of the frame, and the two
    together have as many rows as the frame. *)
Theorem split_train_test_keeps_every_row :
  forall (df : DataFrame) (target_col : string) (test_size : Q)
         (random_state : option rng) (g g' : rng) (train test : DataFrame),
    NoDup (index df) ->
    split_train_test permutation qcut df target_col test_size random_state g
    = (Ok (train, test), g') ->
    NoDup (index test) /\
    index train
    = filter (fun l => negb (existsb (Z.eqb l) (index test))) (index df) /\
    shape0 train + shape0 test = shape0 df.
Proof.
  intros df target_col test_size random_state g g' train test Hnd Hsplit.
  destruct (split_train_test_inv _ _ _ _ _ _ _ _ Hsplit) as [Hs Hdrop].
  destruct (stratified_sample_positions _ _ _ _ _ _ _ _ Hs) as [pos [Hpos Hidx]].
  assert (Htest : NoDup (index test)).
  { rewrite Hidx. now apply picks_NoDup. }
  assert (Hincl : incl (index test) (index df)).
  { rewrite Hidx. apply picks_incl. }
  assert (Htrain : index train
                   = filter (fun l => negb (existsb (Z.eqb l) (index test)))
                            (index df)).
  { unfold drop in Hdrop.
    destruct (forallb _ (index test)); inversion Hdrop; subst. simpl.
    apply picks_kept_positions. }
  split; [exact Htest | split; [exact Htrain |]].
  unfold shape0. rewrite Htrain. now apply filter_out_length.
Qed.

Lemma column_names_take (pos : list nat) (df : DataFrame) :
  column_names (take pos df) = column_names df.
Proof.
  unfold column_names, take. simpl. rewrite map_map. reflexivity.
Qed.

Lemma column_names_drop_column (name : string) (df : DataFrame) :
  column_names (drop_column name df)
  = filter (fun c => negb (String.eqb c name)) (column_names df).
Proof.
  unfold column_names, drop_column. simpl.
  induction (columns df) as [| [c s] cols IH]; simpl; [reflexivity |].
  destruct (negb (String.eqb c name)); simpl; now rewrite IH.
Qed.

Lemma set_column_other_names (name : string) (col : Series)
  (cols : list (string * Series)) :
  filter (fun c => negb (String.eqb c name)) (map fst (set_column name col cols))
  = filter (fun c => negb (String.eqb c name)) (map fst cols).
Proof.
  induction cols as [| [c s] cols IH]; simpl.
  - now rewrite String.eqb_refl.
  - destruct (String.eqb c name) eqn:E; simpl.
    + rewrite String.eqb_refl. simpl. reflexivity.
    + rewrite E. simpl. now rewrite IH.
Qed.

(** X2. The frame [stratified_sample] returns has the columns of
    the frame it was given, in the same order, without any column named
    [quantiles]: the column of buckets it may add is removed, and so is a
    column of that name the frame came with. *)
Theorem stratified_sample_columns :
  forall (df : DataFrame) (target_col : string) (n : Q) (quantiles : nat)
         (random_state : option rng) (g g' : rng) (sample : DataFrame),
    stratified_sample permutation qcut df target_col n quantiles random_state g
    = (Ok sample, g') ->
    column_names sample
    = filter (fun c => negb (String.eqb c "quantiles")) (column_names df).
Proof.
  intros df target_col n quantiles random_state g g' sample.
  unfold stratified_sample.
  destruct (negb _); [discriminate |].
  unfold bind, lift, ret, copy.
  destruct (sample_size n (shape0 df)); [| discriminate].
  destruct (stratification qcut df target_col quantiles) as [[st keys] |] eqn:Hst;
    [| discriminate].
  simpl.
  destruct (apply_sample _ _ _ _ _ g) as [[drawn |] g1]; [| discriminate].
  destruct (shuffle _ _ _ g1) as [[pos |] g2]; [| discriminate].
  intros H. inversion H; subst.
  rewrite column_names_drop_column, column_names_take.
  unfold stratification in Hst.
  destruct (getitem df target_col); simpl in Hst; [| discriminate].
  destruct (10 <? _).
  - destruct (qcut _ _); simpl in Hst; inversion Hst; subst.
    unfold column_names, assign. simpl. apply set_column_other_names.
  - inversion Hst; reflexivity.
Qed.

(** X3. [stratified_sample] refuses a target that is no column of
    the frame, and then a negative sample size, each with its own message
    and before any random number is drawn; the target is checked first. *)
Theorem stratified_sample_refusals :
  forall (df : DataFrame) (target_col : string) (n : Q) (quantiles : nat)
         (random_state : option rng) (g : rng),
    (existsb (String.eqb target_col) (column_names df) = false ->
     stratified_sample permutation qcut df target_col n quantiles random_state g
     = (Raise (Exception "Target column not part of the dataframe"), g)) /\
    (existsb (String.eqb target_col) (column_names df) = true ->
     (n < 0)%Q ->
     stratified_sample permutation qcut df target_col n quantiles random_state g
     = (Raise (Exception "n must be greater than 0"), g)).
Proof.
  intros df target_col n quantiles random_state g. unfold stratified_sample.
  split.
  - intros ->. reflexivity.
  - intros -> Hn. simpl. unfold bind, lift.
    now rewrite (sample_size_negative n (shape0 df) Hn).
Qed.

Lemma rint_zero (q : Q) : (q == 0)%Q -> rint q = 0%Z.
Proof.
  intros H. unfold rint. rewrite (Qfloor_comp q 0 H).
  change (Qfloor 0) with 0%Z.
  destruct (Qcompare_spec (q - inject_Z 0) (1 # 2)) as [E | E | E].
  - exfalso. rewrite H in E. discriminate.
  - reflexivity.
  - exfalso. rewrite H in E. discriminate.
Qed.

Lemma draws_of_nothing (keys : Series) (n : Q) (len_sample : nat)
  (ks : Series) (ds : list (list nat)) :
  (n == 0)%Q -> draws_of keys n len_sample ks ds -> concat ds = [].
Proof.
  intros Hn. induction 1 as [| k d ks ds [Hlen _] _ IH]; [reflexivity |].
  simpl. rewrite IH, app_nil_r.
  unfold stratum_size in Hlen. rewrite rint_zero in Hlen.
  - destruct d; [reflexivity | discriminate].
  - rewrite Hn. unfold Qdiv. ring.
Qed.

(** X4. A sample size of zero, and a fraction too small to reach one
    row of the frame, are accepted: [split_train_test] then returns a test
    partition without any row and a train partition with every row of the
    frame. *)
Theorem split_with_empty_test :
  forall (df : DataFrame) (target_col : string) (test_size : Q)
         (random_state : option rng) (g : rng)
         (target keys : Series) (n' : Q),
    getitem df target_col = Ok target ->
    length target = shape0 df ->
    sample_size test_size (shape0 df) = Ok n' ->
    (n' == 0)%Q ->
    (if 10 <? length (unique target)
     then qcut target 4 else Ok target) = Ok keys ->
    exists train test g',
      split_train_test permutation qcut df target_col test_size random_state g
      = (Ok (train, test), g') /\
      index test = [] /\
      index train = index df.
Proof.
  intros df target_col test_size random_state g target keys n'
         Htarget Hlen Hsize Hzero Hkeys.
  assert (Hle : (n' <= inject_Z (Z.of_nat (shape0 df)))%Q).
  { rewrite Hzero. unfold Qle. simpl. lia. }
  destruct (stratified_sample_run rng permutation qcut permutation_spec qcut_length
              df target_col test_size 4 random_state g
              target keys n' Htarget Hlen Hsize Hle Hkeys)
    as (ds & pos & sample & g1 & g2 & _ & _ & Hidx & _ & HF & Hperm & Hrun).
  rewrite (draws_of_nothing _ _ _ _ _ Hzero HF) in Hperm.
  apply Permutation_sym, Permutation_nil in Hperm. subst pos.
  exists (take (kept_positions [] (index df)) df),
         (drop_column "quantiles" (take [] sample)), g2.
  split; [| split].
  - unfold split_train_test, bind, lift, ret. rewrite Hrun. reflexivity.
  - reflexivity.
  - simpl. rewrite picks_kept_positions. simpl.
    clear. induction (index df) as [| l idx IH]; simpl; [reflexivity | now rewrite IH].
Qed.

End SplitFacts.

Lemma split_train_test_keeps_every_row_witness :
  let df := cohort in
  let test :=
    {| Pandas.index := [0; 2; 10]%Z;
       Pandas.columns :=
         [("LEVEL"%string, [Pandas.Str "A"; Pandas.Str "A"; Pandas.Str "B"]);
          ("VO2"%string, [Pandas.Num 31; Pandas.Num 28; Pandas.Num 49])] |} in
  let train := Pandas.take [1; 3; 4; 5; 6; 7; 8; 9; 11] df in
  NoDup (Pandas.index df) /\
  Sampling.split_train_test Sampling.reversal Sampling.rank_qcut
                            df "LEVEL" (1 # 4) None 0
  = (Ok (train, test), 3) /\
  NoDup (Pandas.index test) /\
  Pandas.index train
  = filter (fun l => negb (existsb (Z.eqb l) (Pandas.index test))) (Pandas.index df) /\
  Pandas.shape0 train + Pandas.shape0 test = Pandas.shape0 df.
Proof.
  intros df test train.
  assert (Hnd : NoDup (Pandas.index df)).
  { repeat (apply NoDup_cons; [simpl; lia |]). apply NoDup_nil. }
  assert (Hsplit : Sampling.split_train_test Sampling.reversal Sampling.rank_qcut
                     df "LEVEL" (1 # 4) None 0 = (Ok (train, test), 3))
    by (vm_compute; reflexivity).
  split; [exact Hnd | split; [exact Hsplit |]].
  exact (split_train_test_keeps_every_row nat Sampling.reversal Sampling.rank_qcut
           reversal_spec df "LEVEL" (1 # 4) None 0 3 train test Hnd Hsplit).
Defined.

Lemma split_train_test_disjoint_witness :
  let df := cohort in
  let keys := cohort_levels in
  let test :=
    {| Pandas.index := [0; 2; 10]%Z;
       Pandas.columns :=
         [("LEVEL"%string, [Pandas.Str "A"; Pandas.Str "A"; Pandas.Str "B"]);
          ("VO2"%string, [Pandas.Num 31; Pandas.Num 28; Pandas.Num 49])] |} in
  let train := Pandas.take [1; 3; 4; 5; 6; 7; 8; 9; 11] df in
  NoDup (Pandas.index df) /\
  Datasets.rectangular df = true /\
  (Pandas.getitem df "LEVEL" = Ok keys /\
   Sampling.sample_size (1 # 4) (Pandas.shape0 df) = Ok (inject_Z 3) /\
   (inject_Z 3 <= inject_Z (Z.of_nat (Pandas.shape0 df)))%Q /\
   (if 10 <? length (Pandas.unique keys)
    then Sampling.rank_qcut keys 4 else Ok keys) = Ok keys /\
   exists train test g',
     Sampling.split_train_test Sampling.reversal Sampling.rank_qcut
                               df "LEVEL" (1 # 4) None 0
     = (Ok (train, test), g')) /\
  (Sampling.split_train_test Sampling.reversal Sampling.rank_qcut
                             df "LEVEL" (1 # 4) None 0
   = (Ok (train, test), 3) /\
   exists pos_test pos_train : list nat,
     test = Sampling.drop_column "quantiles" (Pandas.take pos_test df) /\
     train = Pandas.take pos_train df /\
     NoDup pos_test /\
     pos_train
     = filter (fun p => negb (existsb (Nat.eqb p) pos_test))
              (seq 0 (Pandas.shape0 df)) /\
     Permutation (pos_test ++ pos_train) (seq 0 (Pandas.shape0 df)) /\
     (forall l, In l (Pandas.index train) -> ~ In l (Pandas.index test)) /\
     (forall l, In l (Pandas.index df) ->
                In l (Pandas.index train) \/ In l (Pandas.index test))).
Proof.
  intros df keys test train.
  assert (Hnd : NoDup (Pandas.index df)).
  { repeat (apply NoDup_cons; [simpl; lia |]). apply NoDup_nil. }
  assert (Hrect : Datasets.rectangular df = true) by reflexivity.
  assert (H4 : (inject_Z 3 <= inject_Z (Z.of_nat (Pandas.shape0 df)))%Q)
    by (unfold Qle; simpl; lia).
  assert (Hsplit : Sampling.split_train_test Sampling.reversal Sampling.rank_qcut
                     df "LEVEL" (1 # 4) None 0 = (Ok (train, test), 3))
    by (vm_compute; reflexivity).
  pose proof (split_train_test_disjoint nat Sampling.reversal Sampling.rank_qcut
                reversal_spec rank_qcut_length df "LEVEL" (1 # 4) None 0
                Hnd Hrect)
    as [Hreturns Hpartition].
  split; [exact Hnd | split; [exact Hrect | split]].
  - split; [reflexivity | split; [reflexivity | split; [exact H4 |
      split; [reflexivity |]]]].
    exact (Hreturns keys keys (inject_Z 3) eq_refl eq_refl H4 eq_refl).
  - split; [exact Hsplit |]. exact (Hpartition train test 3 Hsplit).
Defined.

(** C9, as the claim has it, fails on a frame with repeated row labels:
    the split of [cohort_in_pairs], whose labels come in pairs, returns
    three test rows and six train rows of the twelve: [df.drop]
    removes the two rows of every test label, so the rows at positions 1, 3
    and 11 are in neither partition, and no choice of positions makes the
    two partitions hold every row once. *)
Lemma repeated_labels_lose_rows :
  let df := cohort_in_pairs in
  let test := Sampling.drop_column "quantiles" (Pandas.take [0; 2; 10] df) in
  let train := Pandas.take [4; 5; 6; 7; 8; 9] df in
  Datasets.rectangular df = true /\
  Sampling.split_train_test Sampling.reversal Sampling.rank_qcut
                            df "LEVEL" (1 # 4) None 0
  = (Ok (train, test), 3) /\
  Pandas.index test = [0; 1; 5]%Z /\
  Pandas.index train = [2; 2; 3; 3; 4; 4]%Z /\
  Pandas.shape0 df = 12 /\
  Pandas.shape0 train + Pandas.shape0 test = 9 /\
  (forall l, In l (Pandas.index train) -> ~ In l (Pandas.index test)) /\
  (forall pos_test pos_train : list nat,
     test = Sampling.drop_column "quantiles" (Pandas.take pos_test df) ->
     train = Pandas.take pos_train df ->
     Permutation (pos_test ++ pos_train) (seq 0 (Pandas.shape0 df)) ->
     False).
Proof.
  intros df test train.
  split; [reflexivity |]. split; [vm_compute; reflexivity |].
  split; [reflexivity |]. split; [reflexivity |].
  split; [reflexivity |]. split; [reflexivity |]. split.
  - intros l Hl Ht. simpl in Hl, Ht. lia.
  - intros pos_test pos_train Htest Htrain Hperm.
    assert (Hrange : Forall (fun p => p < length (Pandas.index df))
                            (pos_test ++ pos_train)).
    { apply Forall_forall. intros p Hp.
      apply (Permutation_in _ Hperm) in Hp. apply in_seq in Hp.
      unfold Pandas.shape0 in Hp. lia. }
    apply Forall_app in Hrange. destruct Hrange as [Rtest Rtrain].
    apply (@picks_length _ pos_test (Pandas.index df)) in Rtest.
    apply (@picks_length _ pos_train (Pandas.index df)) in Rtrain.
    apply (f_equal (fun d => length (Pandas.index d))) in Htest, Htrain.
    change (3 = length (Pandas.picks pos_test (Pandas.index df))) in Htest.
    change (6 = length (Pandas.picks pos_train (Pandas.index df))) in Htrain.
    apply Permutation_length in Hperm.
    rewrite length_app, length_seq, <- Rtest, <- Rtrain, <- Htest, <- Htrain in Hperm.
    discriminate.
Qed.

Lemma stratified_sample_columns_witness :
  let sample :=
    {| Pandas.index := [12; 11]%Z;
       Pandas.columns :=
         [("LEVEL"%string, [Pandas.Str "B"; Pandas.Str "A"])] |} in
  Sampling.stratified_sample Sampling.reversal Sampling.rank_qcut
                             banded "LEVEL" (inject_Z 2) 4 None 1
  = (Ok sample, 4) /\
  Pandas.column_names sample
  = filter (fun c => negb (String.eqb c "quantiles")) (Pandas.column_names banded).
Proof.
  intros sample.
  assert (Hrun : Sampling.stratified_sample Sampling.reversal Sampling.rank_qcut
                   banded "LEVEL" (inject_Z 2) 4 None 1 = (Ok sample, 4))
    by (vm_compute; reflexivity).
  split; [exact Hrun |].
  exact (stratified_sample_columns nat Sampling.reversal Sampling.rank_qcut
           banded "LEVEL" (inject_Z 2) 4 None 1 4 sample Hrun).
Defined.

Lemma stratified_sample_refusals_witness :
  (existsb (String.eqb "WEIGHT") (Pandas.column_names cohort) = false /\
   Sampling.stratified_sample Sampling.reversal Sampling.rank_qcut
                              cohort "WEIGHT" (1 # 4) 4 None 0
   = (Raise (Exception "Target column not part of the dataframe"), 0)) /\
  (existsb (String.eqb "LEVEL") (Pandas.column_names cohort) = true /\
   (- (1) < 0)%Q /\
   Sampling.stratified_sample Sampling.reversal Sampling.rank_qcut
                              cohort "LEVEL" (- (1)) 4 None 0
   = (Raise (Exception "n must be greater than 0"), 0)).
Proof.
  assert (Hneg : (- (1) < 0)%Q) by reflexivity.
  split.
  - split; [reflexivity |].
    exact (proj1 (stratified_sample_refusals nat Sampling.reversal
                    Sampling.rank_qcut cohort "WEIGHT" (1 # 4) 4 None 0) eq_refl).
  - split; [reflexivity | split; [exact Hneg |]].
    exact (proj2 (stratified_sample_refusals nat Sampling.reversal
                    Sampling.rank_qcut cohort "LEVEL" (- (1)) 4 None 0)
                 eq_refl Hneg).
Defined.

Lemma split_with_empty_test_witness :
  let df := cohort in
  let keys := cohort_levels in
  Pandas.getitem df "LEVEL" = Ok keys /\
  length keys = Pandas.shape0 df /\
  Sampling.sample_size (1 # 20) (Pandas.shape0 df) = Ok (inject_Z 0) /\
  (inject_Z 0 == 0)%Q /\
  (if 10 <? length (Pandas.unique keys)
   then Sampling.rank_qcut keys 4 else Ok keys) = Ok keys /\
  exists train test g',
    Sampling.split_train_test Sampling.reversal Sampling.rank_qcut
                              df "LEVEL" (1 # 20) None 0
    = (Ok (train, test), g') /\
    Pandas.index test = [] /\
    Pandas.index train = Pandas.index df.
Proof.
  intros df keys.
  assert (Hzero : (inject_Z 0 == 0)%Q) by reflexivity.
  split; [reflexivity | split; [reflexivity | split; [reflexivity |
    split; [exact Hzero | split; [reflexivity |]]]]].
  exact (split_with_empty_test nat Sampling.reversal Sampling.rank_qcut
           reversal_spec rank_qcut_length df "LEVEL" (1 # 20) None 0
           keys keys (inject_Z 0) eq_refl eq_refl eq_refl Hzero eq_refl).
Defined.

(** ** The constructor: when it returns and what it raises *)

Section ConstructorOutcomeFacts.
Import Numpy Pandas Datasets.
Variable sqrt : Q -> Q.
Variable PARTICIPANT : string.

Lemma rmap_length {A B} (f : A -> result B) (xs : list A) (ys : list B) :
  rmap f xs = Ok ys -> length ys = length xs.
Proof.
  revert ys. induction xs as [| x xs IH]; simpl; intros ys H.
  - inversion H; reflexivity.
  - apply rbind_ok in H. destruct H as [y [_ H]].
    apply rbind_ok in H. destruct H as [ys' [Hxs H]].
    inversion H; subst. simpl. f_equal. now apply IH.
Qed.










Lemma check_columns_validity_listed (df : DataFrame) (cols : option (list string)) :
  check_columns_validity df cols
  = if listed df cols then Ok tt else Raise AssertionError.
Proof. destruct cols; reflexivity. Qed.







End ConstructorOutcomeFacts.


(** ** The feature matrices and the items of a dataset *)

Section FeatureShapeFacts.
Import Numpy Pandas Datasets.
Variable sqrt : Q -> Q.
Variable PARTICIPANT : string.

Lemma getitems_shape (df sub : DataFrame) (cols : list string) :
  getitems df cols = Ok sub ->
  index sub = index df /\ length (columns sub) = length cols.
Proof.
  unfold getitems. intros H. apply rbind_ok in H.
  destruct H as [cs [Hcs H]]. inversion H; subst. simpl.
  split; [reflexivity | now apply rmap_length in Hcs].
Qed.

Lemma preprocess_continuous_shape (df t : DataFrame) (mu sd : Labelled) :
  preprocess_continuous df mu sd = Ok t ->
  index t = index df /\ length (columns t) = length (columns df).
Proof.
  unfold preprocess_continuous. intros H. apply rbind_ok in H.
  destruct H as [cs [Hcs H]]. inversion H; subst. simpl.
  split; [reflexivity | now apply rmap_length in Hcs].
Qed.

Lemma to_numpy_shape (df : DataFrame) (x : Tensor float) :
  to_numpy df = Ok x ->
  length x = shape0 df /\ Forall (fun r => length r = length (columns df)) x.
Proof.
  unfold to_numpy. intros H. split.
  - apply rmap_length in H. now rewrite length_seq in H.
  - apply Forall_forall. intros r Hr.
    destruct (rmap_In _ _ _ _ H Hr) as [i [_ Hi]].
    now apply rmap_length in Hi.
Qed.

Lemma numerical_features_shape (self : Dataset) (mu sd : option Labelled)
  (xc : option (Tensor float)) :
  numerical_features self mu sd = Ok xc ->
  match cont_cols self with
  | Some cols =>
      exists x, xc = Some x /\ length x = shape0 (_original_data self) /\
                Forall (fun r => length r = length cols) x
  | None => xc = None
  end.
Proof.
  unfold numerical_features.
  destruct (cont_cols self) as [cols |]; [| intros H; now inversion H].
  intros H. apply rbind_ok in H. destruct H as [sub [Hsub H]].
  apply rbind_ok in H. destruct H as [t [Ht H]].
  apply rbind_ok in H. destruct H as [x [Hx H]]. inversion H; subst.
  destruct (getitems_shape _ _ _ Hsub) as [Hi Hc].
  destruct (preprocess_continuous_shape _ _ _ _ Ht) as [Hi' Hc'].
  destruct (to_numpy_shape _ _ Hx) as [Hn Hr].
  exists x. split; [reflexivity | split].
  - rewrite Hn. unfold shape0, copy in *. now rewrite Hi', Hi.
  - unfold copy in *. now rewrite Hc', Hc in Hr.
Qed.

Lemma categorical_features_shape (self : Dataset) (modes : option Labelled)
  (xk : option (Tensor (option Z))) :
  categorical_features self modes = Ok xk ->
  match cat_cols self with
  | Some cols =>
      exists x, xk = Some x /\ length x = shape0 (_original_data self) /\
                Forall (fun r => length r = length cols) x
  | None => xk = None
  end.
Proof.
  unfold categorical_features.
  destruct (cat_cols self) as [cols |]; [| intros H; now inversion H].
  intros H. apply rbind_ok in H. destruct H as [sub [Hsub H]].
  apply rbind_ok in H. destruct H as [x [Hx H]]. inversion H; subst.
  destruct (getitems_shape _ _ _ Hsub) as [Hi Hc].
  destruct (to_numpy_shape _ _ Hx) as [Hn Hr].
  unfold preprocess_categoricals, copy, shape0 in *. simpl in *.
  rewrite length_map in Hr.
  exists (long x). unfold long. split; [reflexivity | split].
  - rewrite length_map. rewrite <- Hi. exact Hn.
  - apply Forall_map. revert Hr. apply Forall_impl. intros r Hr.
    rewrite length_map. rewrite <- Hc. exact Hr.
Qed.

(** What a call of [update_masks] that returns has stored. *)
Lemma update_masks_returns (tr te : list Z) (va : option (list Z))
  (self self' : Dataset) :
  update_masks sqrt tr te va self = (Ok tt, self') ->
  exists stats xc xk,
    numerical_features self (fst (fst stats)) (snd (fst stats)) = Ok xc /\
    categorical_features self (snd stats) = Ok xk /\
    self' = store_x_cat xk (store_x_cont xc (set_masks tr va te self)).
Proof.
  rewrite update_masks_eq. cbv zeta.
  destruct (train_stats sqrt _) as [stats |]; [| discriminate].
  destruct (numerical_features _ _ _) as [xc |] eqn:Hxc; [| discriminate].
  destruct (categorical_features _ _) as [xk |] eqn:Hxk; [| discriminate].
  intros H. inversion H; subst. exists stats, xc, xk.
  split; [exact Hxc | split; [| reflexivity]].
  rewrite <- Hxk. destruct xc; reflexivity.
Qed.

Lemma stored_feature_shapes (self self' : Dataset) (tr te : list Z)
  (va : option (list Z)) :
  update_masks sqrt tr te va self = (Ok tt, self') ->
  match cont_cols self with
  | Some cols =>
      exists x, _x_cont self' = Some x /\
                length x = shape0 (_original_data self) /\
                Forall (fun r => length r = length cols) x
  | None => _x_cont self' = _x_cont self
  end /\
  match cat_cols self with
  | Some cols =>
      exists x, _x_cat self' = Some x /\
                length x = shape0 (_original_data self) /\
                Forall (fun r => length r = length cols) x
  | None => _x_cat self' = _x_cat self
  end.
Proof.
  intros H.
  destruct (update_masks_returns _ _ _ _ _ H) as (stats & xc & xk & Hxc & Hxk & ->).
  apply numerical_features_shape in Hxc.
  apply categorical_features_shape in Hxk.
  split.
  - destruct (cont_cols self) as [cols |].
    + destruct Hxc as [x [-> Hx]]. exists x. split; [| exact Hx].
      destruct xk; reflexivity.
    + subst xc. destruct xk; reflexivity.
  - destruct (cat_cols self) as [cols |].
    + destruct Hxk as [x [-> Hx]]. exists x. split; [| exact Hx]. reflexivity.
    + subst xk. destruct xc; reflexivity.
Qed.

(** X6. When [update_masks] returns, the matrix of continuous features
    has one row for every row of the original frame, whichever mask the row
    is in or in none, and one entry per continuous column; so has the matrix
    of categorical features, with one entry per categorical column. Without
    a list of columns the matrix is left as it was. *)
Theorem update_masks_feature_shapes :
  forall (self self' : Dataset) (tr te : list Z) (va : option (list Z)),
    update_masks sqrt tr te va self = (Ok tt, self') ->
    match cont_cols self with
    | Some cols =>
        exists x, _x_cont self' = Some x /\
                  length x = shape0 (_original_data self) /\
                  Forall (fun r => length r = length cols) x
    | None => _x_cont self' = _x_cont self
    end /\
    match cat_cols self with
    | Some cols =>
        exists x, _x_cat self' = Some x /\
                  length x = shape0 (_original_data self) /\
                  Forall (fun r => length r = length cols) x
    | None => _x_cat self' = _x_cat self
    end.
Proof.
  intros self self' tr te va H. exact (stored_feature_shapes _ _ _ _ _ H).
Qed.

Lemma tensor_at_in_range {A} (t : list A) (idx : Z) :
  in_range (length t) idx = true ->
  exists a, tensor_at t idx = Ok a /\ In a t.
Proof.
  intros H. unfold tensor_at.
  destruct (position_in_range _ _ H) as [p [-> Hp]]. simpl.
  destruct (nth_error t p) as [a |] eqn:E.
  - exists a. split; [reflexivity |]. eapply nth_error_In; eauto.
  - apply nth_error_None in E. lia.
Qed.

Lemma tensor_at_out_of_range {A} (t : list A) (idx : Z) :
  in_range (length t) idx = false -> tensor_at t idx = Raise IndexError.
Proof.
  intros H. unfold tensor_at. now rewrite (position_out_of_range _ _ H).
Qed.

Lemma lookup_In {A} (c : string) (kvs : list (string * A)) (v : A) :
  lookup c kvs = Some v -> In (c, v) kvs.
Proof.
  induction kvs as [| [k w] kvs IH]; simpl; [discriminate |].
  destruct (String.eqb_spec c k) as [-> | _].
  - intros H. inversion H. now left.
  - intros H. right. now apply IH.
Qed.

(** The dataset the constructor returns is the one its first
    [update_masks] leaves, every row a training row. *)
Lemma constructor_inv (df : DataFrame) (target : string)
  (cont cat : option (list string)) (self : Dataset) :
  PetaleNNDataset__init__ sqrt PARTICIPANT df target cont cat = Ok self ->
  is_none cont && is_none cat = false /\
  exists self0,
    _initialize_targets df target = Ok (_y self0) /\
    _n self0 = shape0 df /\ shape0 (_original_data self0) = shape0 df /\
    cont_cols self0 = cont /\ cat_cols self0 = cat /\
    update_masks sqrt (map Z.of_nat (seq 0 (shape0 df))) [] (Some []) self0
    = (Ok tt, self).
Proof.
  unfold PetaleNNDataset__init__.
  destruct (negb _); [discriminate |].
  destruct (is_none cont && is_none cat); [discriminate |].
  destruct (check_columns_validity df cont) as [[] |]; [| discriminate].
  destruct (check_columns_validity df cat) as [[] |]; [| discriminate].
  simpl.
  destruct (getitem df PARTICIPANT) as [ids |]; [| discriminate]. simpl.
  destruct (_initialize_targets df target) as [y |]; [| discriminate]. simpl.
  destruct (extract_encodings df cat) as [enc |]; [| discriminate]. simpl.
  destruct (astype_float df cont) as [data |] eqn:Hfloat; [| discriminate].
  simpl.
  assert (Hshape : shape0 data = shape0 df).
  { unfold shape0. now rewrite (proj1 (astype_float_shape _ _ _ Hfloat)). }
  match goal with
  | |- context [update_masks sqrt ?tr ?te ?va ?s0] =>
      destruct (update_masks sqrt tr te va s0) as [[[] | e] s1] eqn:Hu;
      [| discriminate];
      intros H; inversion H; subst; split; [reflexivity |]; exists s0
  end.
  repeat split; auto.
Qed.

(** X7. A dataset the constructor returns has the length of the frame,
    and [__getitem__] returns an item for every index from [-n] to [n - 1]:
    a row of continuous features with one entry per continuous column (the
    empty row without such columns), a row of categorical codes with one entry
    per categorical column, and the target at that index; any other index is
    an IndexError. *)
Theorem constructed_dataset_items :
  forall (df : DataFrame) (target : string) (cont cat : option (list string))
         (self : Dataset),
    rectangular df = true ->
    PetaleNNDataset__init__ sqrt PARTICIPANT df target cont cat = Ok self ->
    CustomDataset__len__ self = shape0 df /\
    forall idx : Z,
      if in_range (shape0 df) idx
      then exists x c y,
             PetaleNNDataset__getitem__ self idx = Ok (x, c, y) /\
             length x = match cont with Some cols => length cols | None => 0 end /\
             length c = match cat with Some cols => length cols | None => 0 end /\
             tensor_at (_y self) idx = Ok y
      else PetaleNNDataset__getitem__ self idx = Raise IndexError.
Proof.
  intros df target cont cat self Hrect Hinit.
  destruct (constructor_inv _ _ _ _ _ Hinit)
    as (Hnone & self0 & Hy & Hn & Ho & Hc & Hk & Hu).
  pose proof (update_masks_base sqrt (map Z.of_nat (seq 0 (shape0 df))) []
                (Some []) self0) as Hb.
  rewrite Hu in Hb.
  destruct Hb as (_ & _ & _ & _ & _ & Ho' & Hn' & Hy' & Hc' & Hk' & _).
  simpl in Ho', Hn', Hy', Hc', Hk'.
  pose proof (stored_feature_shapes _ _ _ _ _ Hu) as [Hxc Hxk].
  rewrite Hc, Ho in Hxc. rewrite Hk, Ho in Hxk.
  assert (Hylen : length (_y self) = shape0 df).
  { rewrite Hy'. unfold _initialize_targets, getitem in Hy.
    destruct (lookup target (columns df)) as [col |] eqn:Hl; [| discriminate].
    simpl in Hy. apply rmap_length in Hy. rewrite Hy.
    apply lookup_In in Hl. unfold rectangular in Hrect.
    rewrite forallb_forall in Hrect. specialize (Hrect _ Hl).
    now apply Nat.eqb_eq in Hrect. }
  split; [unfold CustomDataset__len__; congruence |].
  intros idx. unfold PetaleNNDataset__getitem__, _define_item_getter.
  rewrite Hc', Hk', Hc, Hk.
  destruct (in_range (shape0 df) idx) eqn:Hr.
  - assert (Hyi : exists y, tensor_at (_y self) idx = Ok y).
    { destruct (tensor_at_in_range (_y self) idx) as [y [Hy0 _]];
        [now rewrite Hylen | eauto]. }
    destruct Hyi as [y Hyi].
    destruct cont as [ccols |], cat as [kcols |]; try discriminate.
    + destruct Hxc as [x [Hx [Hxl Hxr]]]. destruct Hxk as [k [Hk0 [Hkl Hkr]]].
      rewrite Hx, Hk0. simpl.
      destruct (tensor_at_in_range x idx) as [r [Hr0 Hin]]; [now rewrite Hxl |].
      destruct (tensor_at_in_range k idx) as [q [Hq0 Hqin]]; [now rewrite Hkl |].
      rewrite Hr0, Hq0, Hyi. simpl. exists r, q, y.
      rewrite Forall_forall in Hxr, Hkr. repeat split; auto.
    + destruct Hxc as [x [Hx [Hxl Hxr]]]. rewrite Hx. simpl.
      destruct (tensor_at_in_range x idx) as [r [Hr0 Hin]]; [now rewrite Hxl |].
      rewrite Hr0, Hyi. simpl. exists r, [], y.
      rewrite Forall_forall in Hxr. repeat split; auto.
    + destruct Hxk as [k [Hk0 [Hkl Hkr]]]. rewrite Hk0. simpl.
      destruct (tensor_at_in_range k idx) as [q [Hq0 Hqin]]; [now rewrite Hkl |].
      rewrite Hq0, Hyi. simpl. exists [], q, y.
      rewrite Forall_forall in Hkr. repeat split; auto.
  - destruct cont as [ccols |], cat as [kcols |]; try discriminate.
    + destruct Hxc as [x [Hx [Hxl _]]]. rewrite Hx. simpl.
      rewrite tensor_at_out_of_range by (now rewrite Hxl). reflexivity.
    + destruct Hxc as [x [Hx [Hxl _]]]. rewrite Hx. simpl.
      rewrite tensor_at_out_of_range by (now rewrite Hxl). reflexivity.
    + destruct Hxk as [k [Hk0 [Hkl _]]]. rewrite Hk0. simpl.
      rewrite tensor_at_out_of_range by (now rewrite Hkl). reflexivity.
Qed.

End FeatureShapeFacts.

Lemma update_masks_feature_shapes_witness :
  let self := clinic_dataset in
  let run := Datasets.update_masks Numpy.sqrt_down [0; 1]%Z [3]%Z (Some [2]%Z) self in
  fst run = Ok tt /\
  (exists x, Datasets._x_cont (snd run) = Some x /\
             length x = 4 /\ Forall (fun r => length r = 1) x) /\
  (exists x, Datasets._x_cat (snd run) = Some x /\
             length x = 4 /\ Forall (fun r => length r = 1) x).
Proof.
  intros self run.
  assert (Hrun : Datasets.update_masks Numpy.sqrt_down [0; 1]%Z [3]%Z (Some [2]%Z) self
                 = (Ok tt, snd run)) by (vm_compute; reflexivity).
  split; [reflexivity |].
  exact (update_masks_feature_shapes Numpy.sqrt_down self (snd run)
           [0; 1]%Z [3]%Z (Some [2]%Z) Hrun).
Defined.

Lemma constructed_dataset_items_witness :
  let built :=
    snd (Datasets.update_masks Numpy.sqrt_down [0; 1; 2; 3]%Z [] (Some [])
           clinic_dataset) in
  Datasets.rectangular clinic = true /\
  Datasets.PetaleNNDataset__init__ Numpy.sqrt_down "Participant" clinic "VO2"
    (Some ["AGE"%string]) (Some ["SEX"%string]) = Ok built /\
  Datasets.CustomDataset__len__ built = 4 /\
  (exists x c y,
     Datasets.PetaleNNDataset__getitem__ built (-1) = Ok (x, c, y) /\
     length x = 1 /\ length c = 1 /\
     Datasets.tensor_at (Datasets._y built) (-1) = Ok y) /\
  Datasets.PetaleNNDataset__getitem__ built 4 = Raise IndexError.
Proof.
  intros built.
  assert (Hrect : Datasets.rectangular clinic = true) by reflexivity.
  assert (Hinit : Datasets.PetaleNNDataset__init__ Numpy.sqrt_down "Participant"
                    clinic "VO2" (Some ["AGE"%string]) (Some ["SEX"%string])
                  = Ok built) by (vm_compute; reflexivity).
  destruct (constructed_dataset_items Numpy.sqrt_down "Participant" clinic "VO2"
              (Some ["AGE"%string]) (Some ["SEX"%string]) built Hrect Hinit)
    as [Hlen Hitems].
  split; [exact Hrect | split; [exact Hinit | split; [exact Hlen | split]]].
  - exact (Hitems (-1)%Z).
  - exact (Hitems 4%Z).
Defined.

(** ** [PetaleGNNDataset._update_graph]: the edges of the graph *)

Section GraphFacts.
Import Numpy Pandas Datasets Sampling ForestDatasets.

Lemma combine_app_same {A B} (a1 a2 : list A) (b1 b2 : list B) :
  length a1 = length b1 ->
  combine (a1 ++ a2) (b1 ++ b2) = combine a1 b1 ++ combine a2 b2.
Proof.
  revert b1. induction a1 as [| x a1 IH]; intros [| y b1] H; simpl in *;
    try discriminate; [reflexivity |].
  f_equal. apply IH. lia.
Qed.

Lemma In_combine_repeat {A B} (v : A) (l : list B) (a : A) (b : B) :
  In (a, b) (combine (repeat v (length l)) l) <-> a = v /\ In b l.
Proof.
  induction l as [| y l IH]; simpl; [tauto |].
  rewrite IH. split.
  - intros [H | [-> H]]; [inversion H; subst; auto | auto].
  - intros [-> [-> | H]]; [now left | right; auto].
Qed.

Lemma remaining_idx_In (i n j : nat) :
  i < n -> (In j (remaining_idx i n) <-> j < n /\ j <> i).
Proof.
  intros Hi. unfold remaining_idx. rewrite in_app_iff, !in_seq. lia.
Qed.

Lemma remaining_idx_length (i n : nat) :
  i < n -> length (remaining_idx i n) = n - 1.
Proof.
  intros Hi. unfold remaining_idx. rewrite length_app, !length_seq. lia.
Qed.

(** The edges one turn of the loop on [i] adds: from the row [i] of the
    subset to every other row of the subset. *)
Lemma block_edges (idx : list Z) (i : nat) (a b : Z) :
  i < length idx ->
  length (picks (remaining_idx i (length idx)) idx) = length idx - 1 /\
  (In (a, b) (combine (repeat (nth i idx 0%Z) (length idx - 1))
                      (picks (remaining_idx i (length idx)) idx))
   <-> nth_error idx i = Some a /\
       exists j, j <> i /\ nth_error idx j = Some b).
Proof.
  intros Hi.
  assert (Hlen : length (picks (remaining_idx i (length idx)) idx)
                 = length idx - 1).
  { rewrite picks_length; [now apply remaining_idx_length |].
    apply Forall_forall. intros j Hj. now apply remaining_idx_In in Hj. }
  split; [exact Hlen |].
  rewrite <- Hlen, In_combine_repeat, picks_In.
  assert (Hnth : nth_error idx i = Some (nth i idx 0%Z))
    by (now apply nth_error_nth').
  split.
  - intros [-> [j [Hj Hb]]]. split; [exact Hnth |].
    exists j. split; [| exact Hb]. apply remaining_idx_In in Hj; tauto.
  - intros [Ha [j [Hj Hb]]]. split; [congruence |].
    exists j. split; [| exact Hb]. apply remaining_idx_In; [exact Hi |].
    split; [| exact Hj]. apply nth_error_Some. congruence.
Qed.

Lemma subset_loop (idx : list Z) (ixs : list nat) (st en : list Z) :
  Forall (fun i => i < length idx) ixs ->
  length st = length en ->
  let e := fold_left (fun e i =>
                        (fst e ++ repeat (nth i idx 0%Z) (length idx - 1),
                         snd e ++ picks (remaining_idx i (length idx)) idx))
                     ixs (st, en) in
  length (fst e) = length (snd e) /\
  forall a b,
    In (a, b) (combine (fst e) (snd e))
    <-> In (a, b) (combine st en) \/
        exists i j, In i ixs /\ j <> i /\
                    nth_error idx i = Some a /\ nth_error idx j = Some b.
Proof.
  revert st en. induction ixs as [| i ixs IH]; intros st en Hall Hlen; simpl.
  - split; [exact Hlen |]. intros a b. split; [auto |].
    intros [H | (i & j & [] & _)]. exact H.
  - inversion Hall as [| ? ? Hi His]; subst.
    destruct (block_edges idx i 0%Z 0%Z Hi) as [Hblock _].
    destruct (IH (st ++ repeat (nth i idx 0%Z) (length idx - 1))
                 (en ++ picks (remaining_idx i (length idx)) idx) His)
      as [Hl Hin].
    { rewrite !length_app, repeat_length, Hblock. lia. }
    split; [exact Hl |]. intros a b. rewrite Hin.
    rewrite combine_app_same by exact Hlen. rewrite in_app_iff.
    rewrite (proj2 (block_edges idx i a b Hi)).
    split.
    + intros [[H | [Ha [j [Hj Hb]]]] | (i' & j & Hi' & Hj & Ha & Hb)].
      * now left.
      * right. exists i, j. auto.
      * right. exists i', j. auto.
    + intros [H | (i' & j & [<- | Hi'] & Hj & Ha & Hb)].
      * left. now left.
      * left. right. eauto.
      * right. exists i', j. auto.
Qed.

(** The edges [subset_edges] adds for a subset of rows: one from every
    row of the subset to every other row of it. *)
Lemma subset_edges_spec (idx : list Z) (st en : list Z) :
  length st = length en ->
  let e := subset_edges idx (st, en) in
  length (fst e) = length (snd e) /\
  forall a b,
    In (a, b) (combine (fst e) (snd e))
    <-> In (a, b) (combine st en) \/
        exists i j, i <> j /\
                    nth_error idx i = Some a /\ nth_error idx j = Some b.
Proof.
  intros Hlen. unfold subset_edges.
  destruct (subset_loop idx (seq 0 (length idx)) st en) as [Hl Hin].
  { apply Forall_forall. intros i Hi. apply in_seq in Hi. lia. }
  { exact Hlen. }
  split; [exact Hl |]. intros a b. rewrite (Hin a b). clear.
  split; (intros [H | (i & j & H)]; [now left | right]).
  - destruct H as (_ & Hj & Ha & Hb). exists i, j. auto.
  - destruct H as (Hij & Ha & Hb). exists i, j. repeat split; auto.
    apply in_seq. assert (i < length idx) by (apply nth_error_Some; congruence).
    lia.
Qed.

Lemma picks_nth {A} (pos : list nat) (l : list A) (i : nat) :
  Forall (fun p => p < length l) pos ->
  nth_error (picks pos l) i
  = match nth_error pos i with
    | Some p => nth_error l p
    | None => None
    end.
Proof.
  intros H. revert i. induction H as [| p pos Hp _ IH]; intros i.
  - destruct i; reflexivity.
  - unfold picks in *. simpl.
    destruct (nth_error l p) as [x |] eqn:E.
    + destruct i; simpl; [now rewrite E | apply IH].
    + apply nth_error_None in E. lia.
Qed.

(** Two different places of the subset of a code are two different rows
    of the frame that hold the code. *)
Lemma rows_with_code_pairs (value : nat) (col : Series) (idx : list Z) (a b : Z) :
  length col = length idx ->
  let pos := positions_of (Num (inject_Z (Z.of_nat value))) col in
  (exists i j, i <> j /\
               nth_error (rows_with_code value col idx) i = Some a /\
               nth_error (rows_with_code value col idx) j = Some b)
  <-> (exists p q, p <> q /\ In p pos /\ In q pos /\
                   nth_error idx p = Some a /\ nth_error idx q = Some b).
Proof.
  intros Hlen pos. unfold rows_with_code. fold pos.
  assert (Hall : Forall (fun p => p < length idx) pos).
  { apply Forall_forall. intros p Hp. rewrite <- Hlen.
    eapply positions_of_bound; eauto. }
  assert (Hnd : NoDup pos) by apply positions_of_NoDup.
  split.
  - intros (i & j & Hij & Ha & Hb).
    rewrite (picks_nth pos idx i Hall) in Ha.
    rewrite (picks_nth pos idx j Hall) in Hb.
    destruct (nth_error pos i) as [p |] eqn:Ep; [| discriminate].
    destruct (nth_error pos j) as [q |] eqn:Eq; [| discriminate].
    exists p, q. repeat split; eauto using nth_error_In.
    intros ->. apply Hij.
    rewrite NoDup_nth_error in Hnd. apply Hnd; [| congruence].
    apply nth_error_Some. congruence.
  - intros (p & q & Hpq & Hp & Hq & Ha & Hb).
    apply In_nth_error in Hp, Hq. destruct Hp as [i Hi]. destruct Hq as [j Hj].
    exists i, j. repeat split.
    + intros ->. congruence.
    + now rewrite (picks_nth pos idx i Hall), Hi.
    + now rewrite (picks_nth pos idx j Hall), Hj.
Qed.

Lemma codes_loop (col : Series) (idx : list Z) (codes : list nat) (st en : list Z) :
  length st = length en ->
  let e := fold_left (fun e value =>
                        subset_edges (rows_with_code value col idx) e)
                     codes (st, en) in
  length (fst e) = length (snd e) /\
  forall a b,
    In (a, b) (combine (fst e) (snd e))
    <-> In (a, b) (combine st en) \/
        exists value i j,
          In value codes /\ i <> j /\
          nth_error (rows_with_code value col idx) i = Some a /\
          nth_error (rows_with_code value col idx) j = Some b.
Proof.
  revert st en. induction codes as [| v codes IH]; intros st en Hlen; simpl.
  - split; [exact Hlen |]. intros a b. split; [auto |].
    intros [H | (v & i & j & [] & _)]. exact H.
  - destruct (subset_edges_spec (rows_with_code v col idx) st en Hlen)
      as [Hl1 Hin1].
    destruct (subset_edges (rows_with_code v col idx) (st, en)) as [st1 en1].
    simpl in Hl1, Hin1.
    destruct (IH st1 en1 Hl1) as [Hl Hin].
    split; [exact Hl |]. intros a b. rewrite Hin, Hin1. split.
    + intros [[H | (i & j & H)] | (v' & i & j & Hv & H)].
      * now left.
      * right. exists v, i, j. split; [now left | exact H].
      * right. exists v', i, j. split; [now right | exact H].
    + intros [H | (v' & i & j & [<- | Hv] & H)].
      * left. now left.
      * left. right. eauto.
      * right. exists v', i, j. auto.
Qed.

Lemma dict_set_twice {V} (k : string) (v1 v2 : V) (d : list (string * V)) :
  dict_set k v2 (dict_set k v1 d) = dict_set k v2 d.
Proof.
  induction d as [| [k' v] d IH]; simpl.
  - now rewrite String.eqb_refl.
  - destruct (String.eqb k' k) eqn:E; simpl.
    + now rewrite String.eqb_refl.
    + now rewrite E, IH.
Qed.

Lemma lookup_dict_set {V} (k k' : string) (v : V) (d : list (string * V)) :
  lookup k (dict_set k' v d) = if String.eqb k k' then Some v else lookup k d.
Proof.
  induction d as [| [c w] d IH]; simpl.
  - reflexivity.
  - destruct (String.eqb_spec c k') as [-> | Hc]; simpl.
    + destruct (String.eqb k k'); reflexivity.
    + rewrite IH. destruct (String.eqb_spec k c) as [-> | Hk]; [| reflexivity].
      destruct (String.eqb_spec c k'); [contradiction | reflexivity].
Qed.

(** The loop on the codes of a column writes, at each of its turns, the
    edges gathered so far under the name of the column; without any code it
    writes nothing, and it never looks the column up. *)
Lemma values_loop_eq (x : DataFrame) (e_types : string) (codes : list nat) :
  forall (e : list Z * list Z) (gs : list (string * (list Z * list Z))),
    values_loop x e_types codes e gs
    = match codes with
      | [] => Ok gs
      | _ =>
          rbind (getitem x e_types) (fun col =>
            Ok (dict_set e_types
                  (fold_left (fun e value =>
                                subset_edges (rows_with_code value col (index x)) e)
                             codes e) gs))
      end.
Proof.
  induction codes as [| v codes IH]; intros e gs; simpl; [reflexivity |].
  destruct (getitem x e_types) as [col |] eqn:Hcol; simpl; [| reflexivity].
  rewrite IH. destruct codes as [| v' codes]; [reflexivity |].
  simpl. now rewrite dict_set_twice.
Qed.

Lemma graph_structure_other (x : DataFrame) (e_types : string) :
  forall (encodings : Encodings) (gs0 gs : list (string * (list Z * list Z))),
    ~ In e_types (map fst encodings) ->
    graph_structure_of encodings x gs0 = Ok gs ->
    lookup e_types gs = lookup e_types gs0.
Proof.
  induction encodings as [| [k vs] encodings IH]; intros gs0 gs Hk H; simpl in H.
  - now inversion H.
  - apply rbind_ok in H. destruct H as [gs1 [H1 H]].
    simpl in Hk. rewrite (IH gs1 gs) by tauto.
    rewrite values_loop_eq in H1. destruct (map snd vs); [now inversion H1 |].
    apply rbind_ok in H1. destruct H1 as [col [_ H1]]. inversion H1; subst.
    rewrite lookup_dict_set.
    destruct (String.eqb_spec e_types k); [| reflexivity]. subst. tauto.
Qed.

(** X8. For every categorical column that has codes, [_update_graph]
    hands [heterograph] the edges from every row to every other row that
    holds the same code in that column, and no other edge: the graph is
    symmetric and, with row labels that are all different, has no loop. *)
Theorem graph_edges_join_rows_of_a_category :
  forall (encodings : Encodings) (x : DataFrame)
         (gs : list (string * (list Z * list Z)))
         (e_types : string) (e_values : list (cell * nat)) (col : Series),
    NoDup (map fst encodings) ->
    In (e_types, e_values) encodings ->
    e_values <> [] ->
    getitem x e_types = Ok col ->
    length col = shape0 x ->
    graph_structure_of encodings x [] = Ok gs ->
    exists edges_start edges_end,
      lookup e_types gs = Some (edges_start, edges_end) /\
      length edges_start = length edges_end /\
      (forall a b,
         In (a, b) (combine edges_start edges_end)
         <-> exists value p q,
               In value (map snd e_values) /\ p <> q /\
               In p (positions_of (Num (inject_Z (Z.of_nat value))) col) /\
               In q (positions_of (Num (inject_Z (Z.of_nat value))) col) /\
               nth_error (index x) p = Some a /\
               nth_error (index x) q = Some b) /\
      (forall a b,
         In (a, b) (combine edges_start edges_end) ->
         In (b, a) (combine edges_start edges_end)) /\
      (NoDup (index x) ->
       forall a b, In (a, b) (combine edges_start edges_end) -> a <> b).
Proof.
  intros encodings x gs e_types e_values col Hnd Hin Hne Hcol Hlen.
  assert (Hmain : forall gs0,
            graph_structure_of encodings x gs0 = Ok gs ->
            lookup e_types gs
            = Some (fold_left (fun e value =>
                                 subset_edges (rows_with_code value col (index x)) e)
                              (map snd e_values) ([], []))).
  { revert Hnd Hin. clear Hlen.
    induction encodings as [| [k vs] encodings IH]; intros Hnd Hin gs0 H;
      [contradiction |].
    simpl in H. apply rbind_ok in H. destruct H as [gs1 [H1 H]].
    simpl in Hnd. inversion Hnd as [| ? ? Hk Hnd']; subst.
    destruct Hin as [E | Hin].
    - inversion E; subst.
      rewrite (graph_structure_other x e_types encodings gs1 gs Hk H).
      rewrite values_loop_eq in H1.
      destruct (map snd e_values) as [| v vs'] eqn:Hvs.
      + destruct e_values; [contradiction | discriminate].
      + rewrite Hcol in H1. simpl in H1. inversion H1; subst.
        rewrite lookup_dict_set, String.eqb_refl. reflexivity.
    - apply (IH Hnd' Hin gs1 H). }
  intros Hrun. specialize (Hmain [] Hrun).
  destruct (codes_loop col (index x) (map snd e_values) [] [] eq_refl)
    as [Hl Hedges].
  destruct (fold_left _ (map snd e_values) ([], [])) as [st en].
  simpl in Hl, Hedges.
  assert (Hiff : forall a b,
            In (a, b) (combine st en)
            <-> exists value p q,
                  In value (map snd e_values) /\ p <> q /\
                  In p (positions_of (Num (inject_Z (Z.of_nat value))) col) /\
                  In q (positions_of (Num (inject_Z (Z.of_nat value))) col) /\
                  nth_error (index x) p = Some a /\
                  nth_error (index x) q = Some b).
  { intros a b. rewrite Hedges. split.
    - intros [[] | (v & i & j & Hv & Hij)].
      destruct (proj1 (rows_with_code_pairs v col (index x) a b Hlen))
        as (p & q & H); [eauto |].
      exists v, p, q. tauto.
    - intros (v & p & q & Hv & H). right.
      destruct (proj2 (rows_with_code_pairs v col (index x) a b Hlen))
        as (i & j & H'); [exists p, q; tauto |].
      exists v, i, j. tauto. }
  exists st, en. split; [exact Hmain | split; [exact Hl | split; [exact Hiff |]]].
  split.
  - intros a b Hab. apply Hiff in Hab. apply Hiff.
    destruct Hab as (v & p & q & Hv & Hpq & Hp & Hq & Ha & Hb).
    exists v, q, p. repeat split; auto.
  - intros Hidx a b Hab. apply Hiff in Hab.
    destruct Hab as (v & p & q & Hv & Hpq & Hp & Hq & Ha & Hb).
    intros ->. apply Hpq.
    rewrite NoDup_nth_error in Hidx. apply Hidx; [| congruence].
    apply nth_error_Some. congruence.
Qed.

End GraphFacts.

Lemma graph_edges_join_rows_of_a_category_witness :
  let col := [Pandas.Num 0; Pandas.Num 1; Pandas.Num 1; Pandas.Num 1] in
  let gs := [("SEX"%string, ([1; 1; 2; 2; 3; 3]%Z, [2; 3; 1; 3; 1; 2]%Z))] in
  NoDup (map fst sex_encodings) /\
  In ("SEX"%string, [(Pandas.Str "F", 0); (Pandas.Str "M", 1)]) sex_encodings /\
  [(Pandas.Str "F", 0); (Pandas.Str "M", 1)] <> [] /\
  Pandas.getitem encoded_clinic "SEX" = Ok col /\
  length col = Pandas.shape0 encoded_clinic /\
  ForestDatasets.graph_structure_of sex_encodings encoded_clinic [] = Ok gs /\
  NoDup (Pandas.index encoded_clinic) /\
  exists edges_start edges_end,
    Pandas.lookup "SEX" gs = Some (edges_start, edges_end) /\
    length edges_start = length edges_end /\
    (forall a b,
       In (a, b) (combine edges_start edges_end) -> In (b, a) (combine edges_start edges_end)) /\
    (forall a b, In (a, b) (combine edges_start edges_end) -> a <> b).
Proof.
  intros col gs.
  assert (Hkeys : NoDup (map fst sex_encodings)).
  { repeat constructor. simpl. tauto. }
  assert (Hin : In ("SEX"%string, [(Pandas.Str "F", 0); (Pandas.Str "M", 1)])
                   sex_encodings) by (now left).
  assert (Hne : [(Pandas.Str "F", 0); (Pandas.Str "M", 1)] <> []) by discriminate.
  assert (Hidx : NoDup (Pandas.index encoded_clinic)).
  { repeat (apply NoDup_cons; [simpl; lia |]). apply NoDup_nil. }
  split; [exact Hkeys | split; [exact Hin | split; [exact Hne |
    split; [reflexivity | split; [reflexivity | split; [reflexivity |
    split; [exact Hidx |]]]]]]].
  destruct (graph_edges_join_rows_of_a_category sex_encodings encoded_clinic gs
              "SEX" [(Pandas.Str "F", 0); (Pandas.Str "M", 1)] col
              Hkeys Hin Hne eq_refl eq_refl eq_refl)
    as (st & en & Hl & Hlen & _ & Hsym & Hloop).
  exists st, en. split; [exact Hl | split; [exact Hlen | split; [exact Hsym |]]].
  exact (Hloop Hidx).
Defined.

(** ** [PetaleRFDataset]: the frame of features *)

Section ForestFacts.
Import Numpy Pandas Datasets Sampling ForestDatasets.
Variable sqrt : Q -> Q.
Variable PARTICIPANT : string.

Lemma standardize_no_str (m sd x v : cell) :
  standardize m sd x = Ok v -> no_str v = true.
Proof.
  destruct x; simpl; try discriminate.
  - intros H. now inversion H.
  - destruct m, sd; simpl; intros H; inversion H; reflexivity.
Qed.

Lemma preprocess_continuous_numeric (df t : DataFrame) (mu sd : Labelled) :
  preprocess_continuous df mu sd = Ok t -> numeric_frame t.
Proof.
  unfold preprocess_continuous. intros H. apply rbind_ok in H.
  destruct H as [cs [Hcs H]]. inversion H; subst. unfold numeric_frame. simpl.
  apply Forall_forall. intros [c col] Hin.
  destruct (rmap_In _ _ _ _ Hcs Hin) as [[c0 col0] [_ Hc]].
  apply rbind_ok in Hc. destruct Hc as [col' [Hcol Hc]]. inversion Hc; subst.
  simpl. unfold numeric. apply forallb_forall. intros v Hv.
  destruct (rmap_In _ _ _ _ Hcol Hv) as [x [_ Hx]].
  eapply standardize_no_str; eauto.
Qed.

Lemma preprocess_categoricals_numeric (df : DataFrame) (modes : Labelled)
  (enc : option Encodings) :
  numeric_frame (fst (preprocess_categoricals df modes enc)).
Proof.
  unfold numeric_frame, preprocess_categoricals. simpl.
  apply Forall_map. apply Forall_forall. intros cs _. simpl.
  unfold numeric. apply forallb_forall. intros x Hx.
  apply in_map_iff in Hx. destruct Hx as [y [<- _]]. apply code_of_no_str.
Qed.

Lemma setitems_ok (keys : list string) (value df : DataFrame) :
  length (columns value) = length keys ->
  setitems keys value df
  = Ok (fold_left (fun d kc => assign (fst kc) (snd (snd kc)) d)
                  (combine keys (columns value)) df).
Proof.
  intros H. unfold setitems. rewrite H, Nat.eqb_refl. reflexivity.
Qed.

(** The two setters of [PetaleRFDataset], step by step. *)
Lemma RF_numerical_setter_eq (mu sd : option Labelled) (self : RFDataset) :
  RF_numerical_setter mu sd self
  = match cont_cols (base self) with
    | None => (Ok tt, self)
    | Some cols =>
        match getitems (_original_data (base self)) cols with
        | Raise e => (Raise e, self)
        | Ok sub =>
            match preprocess_continuous (copy sub) (stats_or_empty mu)
                                        (stats_or_empty sd) with
            | Raise e => (Raise e, self)
            | Ok t =>
                (Ok tt,
                 set_x (fold_left (fun d kc => assign (fst kc) (snd (snd kc)) d)
                                  (combine cols (columns t)) (_x self)) self)
            end
        end
    end.
Proof.
  unfold RF_numerical_setter, bind, get, lift, ret, modify.
  destruct (cont_cols (base self)) as [cols |]; [| reflexivity].
  destruct (getitems _ cols) as [sub |] eqn:Hsub; simpl; [| reflexivity].
  destruct (preprocess_continuous _ _ _) as [t |] eqn:Ht; simpl; [| reflexivity].
  rewrite setitems_ok; [reflexivity |].
  destruct (getitems_shape _ _ _ Hsub) as [_ Hc].
  destruct (preprocess_continuous_shape _ _ _ _ Ht) as [_ Hc'].
  unfold copy in *. congruence.
Qed.

Lemma RF_categorical_setter_eq (modes : option Labelled) (self : RFDataset) :
  RF_categorical_setter modes self
  = match cat_cols (base self) with
    | None => (Ok tt, self)
    | Some cols =>
        match getitems (_original_data (base self)) cols with
        | Raise e => (Raise e, self)
        | Ok sub =>
            (Ok tt,
             set_x (fold_left (fun d kc => assign (fst kc) (snd (snd kc)) d)
                      (combine cols
                         (columns (fst (preprocess_categoricals (copy sub)
                                          (stats_or_empty modes)
                                          (_encodings (base self))))))
                      (_x self)) self)
        end
    end.
Proof.
  unfold RF_categorical_setter, bind, get, lift, ret, modify.
  destruct (cat_cols (base self)) as [cols |]; [| reflexivity].
  destruct (getitems _ cols) as [sub |] eqn:Hsub; simpl; [| reflexivity].
  rewrite setitems_ok; [reflexivity |].
  destruct (getitems_shape _ _ _ Hsub) as [_ Hc].
  unfold preprocess_categoricals, copy. simpl. now rewrite length_map.
Qed.

Lemma RF_update_masks_eq (tr te : list Z) (va : option (list Z)) (rf : RFDataset) :
  RF_update_masks sqrt tr te va rf
  = let s1 := on_base (set_masks tr va te) rf in
    match train_stats sqrt (base s1) with
    | Raise e => (Raise e, s1)
    | Ok stats =>
        match RF_numerical_setter (fst (fst stats)) (snd (fst stats)) s1 with
        | (Ok _, s2) => RF_categorical_setter (snd stats) s2
        | (Raise e, s2) => (Raise e, s2)
        end
    end.
Proof.
  unfold RF_update_masks. unfold bind at 1. unfold modify at 1.
  unfold bind at 1. unfold RF_current_train_stats.
  rewrite current_train_stats_eq. cbv zeta. destruct rf as [b x]. simpl.
  destruct (train_stats sqrt _) as [stats |]; [| reflexivity].
  unfold bind. destruct (RF_numerical_setter _ _ _) as [[[] | e] s2]; reflexivity.
Qed.

Lemma outcome_of_numerical_features (self : Dataset) (mu sd : option Labelled) :
  outcome_of (numerical_features self mu sd)
  = match cont_cols self with
    | None => Ok tt
    | Some cols =>
        outcome_of
          (rbind (getitems (_original_data self) cols) (fun sub =>
             preprocess_continuous (copy sub) (stats_or_empty mu) (stats_or_empty sd)))
    end.
Proof.
  unfold numerical_features.
  destruct (cont_cols self) as [cols |]; [| reflexivity].
  destruct (getitems _ cols) as [sub |]; simpl; [| reflexivity].
  destruct (preprocess_continuous _ _ _) as [t |] eqn:Ht; simpl; [| reflexivity].
  pose proof (to_numpy_ok t (preprocess_continuous_numeric _ _ _ _ Ht)) as Hok.
  destruct (to_numpy t); [reflexivity | discriminate].
Qed.

Lemma outcome_of_categorical_features (self : Dataset) (modes : option Labelled) :
  outcome_of (categorical_features self modes)
  = match cat_cols self with
    | None => Ok tt
    | Some cols => outcome_of (getitems (_original_data self) cols)
    end.
Proof.
  unfold categorical_features.
  destruct (cat_cols self) as [cols |]; [| reflexivity].
  destruct (getitems _ cols) as [sub |]; simpl; [| reflexivity].
  pose proof (to_numpy_ok _ (preprocess_categoricals_numeric (copy sub)
                               (stats_or_empty modes) (_encodings self))) as Hok.
  destruct (to_numpy _); [reflexivity | discriminate].
Qed.

(** X9. A [PetaleRFDataset] takes [update_masks] as a
    [PetaleNNDataset] on the same frame does: the call returns for the same
    masks and raises the same exception for the others, and the masks are
    stored as given either way. *)
Theorem rf_update_masks_outcome :
  forall (rf : RFDataset) (tr te : list Z) (va : option (list Z)),
    fst (RF_update_masks sqrt tr te va rf)
    = fst (update_masks sqrt tr te va (base rf)) /\
    base (snd (RF_update_masks sqrt tr te va rf))
    = set_masks tr va te (base rf).
Proof.
  intros rf tr te va.
  rewrite RF_update_masks_eq, update_masks_eq. cbv zeta.
  destruct rf as [b x]. unfold on_base. simpl.
  set (s1 := set_masks tr va te b).
  destruct (train_stats sqrt s1) as [[[mu sd] modes] |]; simpl; [| auto].
  rewrite RF_numerical_setter_eq. simpl.
  pose proof (outcome_of_numerical_features s1 mu sd) as Hnum.
  change (cont_cols s1) with (cont_cols b) in Hnum.
  change (_original_data s1) with (_original_data b) in Hnum.
  assert (Hcat : forall (xc : option (Tensor float)) (s2 : RFDataset),
            base s2 = s1 ->
            fst (RF_categorical_setter modes s2)
            = fst (match categorical_features (store_x_cont xc s1) modes with
                   | Ok xk => (Ok tt, store_x_cat xk (store_x_cont xc s1))
                   | Raise e => (Raise e, store_x_cont xc s1)
                   end) /\
            base (snd (RF_categorical_setter modes s2)) = s1).
  { intros xc s2 Hs2. rewrite RF_categorical_setter_eq, Hs2.
    pose proof (outcome_of_categorical_features (store_x_cont xc s1) modes) as Hk.
    assert (E1 : cat_cols (store_x_cont xc s1) = cat_cols b)
      by (destruct xc; reflexivity).
    assert (E2 : _original_data (store_x_cont xc s1) = _original_data b)
      by (destruct xc; reflexivity).
    rewrite E1, E2 in Hk.
    change (cat_cols s1) with (cat_cols b).
    change (_original_data s1) with (_original_data b).
    destruct (cat_cols b) as [cols |].
    - destruct (getitems (_original_data b) cols) as [sub |]; simpl in *.
      + destruct (categorical_features _ modes); simpl in *;
          [auto | discriminate].
      + destruct (categorical_features _ modes); simpl in *;
          [discriminate | inversion Hk; auto].
    - destruct (categorical_features _ modes); simpl in *;
        [auto | discriminate]. }
  destruct (cont_cols b) as [cols |].
  - destruct (getitems (_original_data b) cols) as [sub |]; simpl in *.
    + destruct (preprocess_continuous _ _ _) as [t |]; simpl in *.
      * destruct (numerical_features s1 mu sd) as [xc |]; simpl in *;
          [| discriminate].
        apply Hcat. reflexivity.
      * destruct (numerical_features s1 mu sd) as [xc |]; simpl in *;
          [discriminate | inversion Hnum; auto].
    + destruct (numerical_features s1 mu sd) as [xc |]; simpl in *;
        [discriminate | inversion Hnum; auto].
  - destruct (numerical_features s1 mu sd) as [xc |]; simpl in *;
      [| discriminate].
    apply Hcat. reflexivity.
Qed.

Lemma set_column_names (name : string) (col : Series)
  (cols : list (string * Series)) :
  In name (map fst cols) ->
  map fst (set_column name col cols) = map fst cols.
Proof.
  induction cols as [| [c v] cols IH]; simpl; [contradiction |].
  destruct (String.eqb_spec c name) as [-> | Hc]; [reflexivity |].
  intros [H | H]; [contradiction |]. simpl. now rewrite IH.
Qed.

Lemma lookup_set_column_other (c name : string) (col : Series)
  (cols : list (string * Series)) :
  c <> name -> lookup c (set_column name col cols) = lookup c cols.
Proof.
  intros Hc. induction cols as [| [k v] cols IH]; simpl.
  - destruct (String.eqb_spec c name); [contradiction | reflexivity].
  - destruct (String.eqb_spec k name) as [-> | Hk]; simpl.
    + destruct (String.eqb_spec c name); [contradiction | reflexivity].
    + now rewrite IH.
Qed.

(** Assigning columns one by one keeps the index, keeps every column that
    is not assigned, and adds no column when the keys are columns already. *)
Lemma assign_fold (kcs : list (string * (string * Series))) :
  forall x : DataFrame,
    let x' := fold_left (fun d kc => assign (fst kc) (snd (snd kc)) d) kcs x in
    index x' = index x /\
    (forall c, ~ In c (map fst kcs) ->
               lookup c (columns x') = lookup c (columns x)) /\
    ((forall k, In k (map fst kcs) -> In k (column_names x)) ->
     column_names x' = column_names x).
Proof.
  induction kcs as [| [k [c0 col]] kcs IH]; intros x; simpl.
  - repeat split; reflexivity.
  - destruct (IH (assign k col x)) as (Hi & Hl & Hn). simpl in *.
    split; [exact Hi | split].
    + intros c Hc. rewrite Hl by tauto. unfold assign. simpl.
      apply lookup_set_column_other. intros ->. tauto.
    + intros Hk.
      assert (Hnames : column_names (assign k col x) = column_names x).
      { unfold column_names, assign. simpl. apply set_column_names.
        apply Hk. now left. }
      rewrite Hn; [exact Hnames |].
      intros k' Hk'. rewrite Hnames. apply Hk. now right.
Qed.

Lemma combine_keys {A} (keys : list string) (l : list A) (k : string) :
  In k (map fst (combine keys l)) -> In k keys.
Proof.
  intros H. apply in_map_iff in H. destruct H as [[k' a] [<- H]].
  now apply in_combine_l in H.
Qed.

(** What a call of [update_masks] that returns has done to [_x]: the
    columns of the two lists are assigned, the others are left alone. *)
Lemma RF_update_masks_frame (rf rf' : RFDataset) (tr te : list Z)
  (va : option (list Z)) :
  RF_update_masks sqrt tr te va rf = (Ok tt, rf') ->
  index (_x rf') = index (_x rf) /\
  (forall c, ~ In c (listing (cont_cols (base rf))) ->
             ~ In c (listing (cat_cols (base rf))) ->
             lookup c (columns (_x rf')) = lookup c (columns (_x rf))) /\
  ((forall c, In c (listing (cont_cols (base rf)) ++ listing (cat_cols (base rf))) ->
              In c (column_names (_x rf))) ->
   column_names (_x rf') = column_names (_x rf)).
Proof.
  rewrite RF_update_masks_eq. cbv zeta.
  destruct rf as [b x]. unfold on_base. simpl.
  destruct (train_stats sqrt _) as [[[mu sd] modes] |]; simpl; [| discriminate].
  rewrite RF_numerical_setter_eq. simpl.
  assert (Hcat : forall x1 : DataFrame,
            RF_categorical_setter modes
              {| base := set_masks tr va te b; _x := x1 |} = (Ok tt, rf') ->
            index (_x rf') = index x1 /\
            (forall c, ~ In c (listing (cat_cols b)) ->
                       lookup c (columns (_x rf')) = lookup c (columns x1)) /\
            ((forall c, In c (listing (cat_cols b)) -> In c (column_names x1)) ->
             column_names (_x rf') = column_names x1)).
  { intros x1. rewrite RF_categorical_setter_eq. simpl.
    destruct (cat_cols b) as [cols |]; simpl.
    - destruct (getitems (_original_data b) cols) as [sub |]; [| discriminate].
      intros H. inversion H; subst. simpl.
      match goal with |- context [fold_left _ ?kcs x1] =>
        destruct (assign_fold kcs x1) as (Hi & Hl & Hn) end.
      split; [exact Hi | split].
      + intros c Hc. apply Hl. intros Hin. apply combine_keys in Hin. tauto.
      + intros Hk. apply Hn. intros k Hin. apply combine_keys in Hin. auto.
    - intros H. inversion H; subst. simpl. repeat split; reflexivity. }
  destruct (cont_cols b) as [cols |]; simpl.
  - destruct (getitems (_original_data b) cols) as [sub |]; [| discriminate].
    destruct (preprocess_continuous _ _ _) as [t |]; [| discriminate].
    unfold set_x. simpl. intros H. apply Hcat in H.
    destruct H as (Hi & Hl & Hn).
    match type of Hi with context [fold_left _ ?kcs x] =>
      destruct (assign_fold kcs x) as (Hi0 & Hl0 & Hn0) end.
    split; [congruence | split].
    + intros c Hc Hk. rewrite Hl by exact Hk. apply Hl0.
      intros Hin. apply combine_keys in Hin. tauto.
    + intros Hall.
      assert (Hn1 : column_names
                      (fold_left (fun d kc => assign (fst kc) (snd (snd kc)) d)
                                 (combine cols (columns t)) x)
                    = column_names x).
      { apply Hn0. intros k Hin. apply combine_keys in Hin.
        apply Hall. apply in_or_app. now left. }
      rewrite Hn; [exact Hn1 |].
      intros c Hc. rewrite Hn1. apply Hall. apply in_or_app. now right.
  - intros H. apply Hcat in H. destruct H as (Hi & Hl & Hn).
    split; [exact Hi | split].
    + intros c _ Hk. now apply Hl.
    + intros Hall. apply Hn. intros c Hc. apply Hall. exact Hc.
Qed.

Lemma set_column_In (name c : string) (col : Series)
  (cols : list (string * Series)) :
  In c (map fst (set_column name col cols)) <-> c = name \/ In c (map fst cols).
Proof.
  induction cols as [| [c' v] cols IH]; simpl.
  - intuition.
  - destruct (String.eqb_spec c' name) as [-> | Hc]; simpl.
    + intuition.
    + rewrite IH. intuition.
Qed.

Lemma assign_fold_names (kcs : list (string * (string * Series))) :
  forall (x : DataFrame) (c : string),
    In c (column_names (fold_left (fun d kc => assign (fst kc) (snd (snd kc)) d) kcs x))
    <-> In c (column_names x) \/ In c (map fst kcs).
Proof.
  induction kcs as [| [k [c0 col]] kcs IH]; intros x c; simpl.
  - intuition.
  - rewrite IH. unfold column_names, assign. simpl. rewrite set_column_In.
    intuition.
Qed.

Lemma combine_keys_all {A} (keys : list string) (l : list A) :
  length l = length keys -> map fst (combine keys l) = keys.
Proof.
  revert l. induction keys as [| k keys IH]; intros [| a l] H; simpl in *;
    try discriminate; [reflexivity |].
  f_equal. apply IH. lia.
Qed.

(** The columns of [_x] after [update_masks] are those it had and the
    listed ones. *)
Lemma RF_update_masks_names (rf rf' : RFDataset) (tr te : list Z)
  (va : option (list Z)) :
  RF_update_masks sqrt tr te va rf = (Ok tt, rf') ->
  forall c, In c (column_names (_x rf'))
            <-> In c (column_names (_x rf)) \/
                In c (listing (cont_cols (base rf)) ++ listing (cat_cols (base rf))).
Proof.
  rewrite RF_update_masks_eq. cbv zeta.
  destruct rf as [b x]. unfold on_base. simpl.
  destruct (train_stats sqrt _) as [[[mu sd] modes] |]; simpl; [| discriminate].
  rewrite RF_numerical_setter_eq. simpl.
  assert (Hcat : forall x1 : DataFrame,
            RF_categorical_setter modes
              {| base := set_masks tr va te b; _x := x1 |} = (Ok tt, rf') ->
            forall c, In c (column_names (_x rf'))
                      <-> In c (column_names x1) \/ In c (listing (cat_cols b))).
  { intros x1. rewrite RF_categorical_setter_eq. simpl.
    destruct (cat_cols b) as [cols |]; simpl.
    - destruct (getitems (_original_data b) cols) as [sub |] eqn:Hsub;
        [| discriminate].
      intros H c. inversion H; subst. simpl.
      rewrite assign_fold_names, combine_keys_all; [reflexivity |].
      destruct (getitems_shape _ _ _ Hsub) as [_ Hc].
      unfold preprocess_categoricals, copy. simpl. now rewrite length_map.
    - intros H c. inversion H; subst. simpl. intuition. }
  destruct (cont_cols b) as [cols |]; simpl.
  - destruct (getitems (_original_data b) cols) as [sub |] eqn:Hsub;
      [| discriminate].
    destruct (preprocess_continuous _ _ _) as [t |] eqn:Ht; [| discriminate].
    unfold set_x. simpl. intros H c. rewrite (Hcat _ H c).
    rewrite assign_fold_names, combine_keys_all, in_app_iff; [tauto |].
    destruct (getitems_shape _ _ _ Hsub) as [_ Hc].
    destruct (preprocess_continuous_shape _ _ _ _ Ht) as [_ Hc'].
    unfold copy in *. congruence.
  - intros H c. rewrite (Hcat _ H c). simpl. tauto.
Qed.

Lemma lookup_filter_names (labels : list string) (c : string)
  (cols : list (string * Series)) :
  lookup c (filter (fun cs => negb (existsb (String.eqb (fst cs)) labels)) cols)
  = if existsb (String.eqb c) labels then None else lookup c cols.
Proof.
  induction cols as [| [k v] cols IH]; simpl.
  - destruct (existsb _ labels); reflexivity.
  - destruct (existsb (String.eqb k) labels) eqn:E; simpl.
    + rewrite IH. destruct (String.eqb_spec c k) as [-> | Hc]; [| reflexivity].
      now rewrite E.
    + destruct (String.eqb_spec c k) as [-> | Hc]; [now rewrite E | exact IH].
Qed.

Lemma names_of_filter (labels : list string) (cols : list (string * Series)) :
  map fst (filter (fun cs => negb (existsb (String.eqb (fst cs)) labels)) cols)
  = filter (fun c => negb (existsb (String.eqb c) labels)) (map fst cols).
Proof.
  induction cols as [| [k v] cols IH]; simpl; [reflexivity |].
  destruct (negb _); simpl; now rewrite IH.
Qed.

Lemma RF_constructor_inv (df : DataFrame) (target : string)
  (cont cat : option (list string)) (self : RFDataset) :
  PetaleRFDataset__init__ sqrt PARTICIPANT df target cont cat = Ok self ->
  listed df cont = true /\ listed df cat = true /\
  exists x self0,
    drop_columns [PARTICIPANT; target] df = Ok x /\
    _x self0 = x /\
    cont_cols (base self0) = cont /\ cat_cols (base self0) = cat /\
    RF_update_masks sqrt (map Z.of_nat (seq 0 (shape0 df))) [] (Some []) self0
    = (Ok tt, self).
Proof.
  unfold PetaleRFDataset__init__.
  destruct (drop_columns [PARTICIPANT; target] df) as [x |]; [| discriminate].
  simpl.
  destruct (negb _); [discriminate |].
  destruct (is_none cont && is_none cat); [discriminate |].
  rewrite !check_columns_validity_listed.
  destruct (listed df cont); [| discriminate].
  destruct (listed df cat); [| discriminate]. simpl.
  destruct (getitem df PARTICIPANT) as [ids |]; [| discriminate]. simpl.
  destruct (RF_initialize_targets df target) as [y |]; [| discriminate]. simpl.
  destruct (extract_encodings df cat) as [enc |]; [| discriminate]. simpl.
  destruct (astype_float df cont) as [[] |]; [| discriminate]. simpl.
  match goal with
  | |- context [RF_update_masks sqrt ?tr ?te ?va ?s0] =>
      destruct (RF_update_masks sqrt tr te va s0) as [[[] | e] s1] eqn:Hu;
      [| discriminate];
      intros H; inversion H; subst; split; [reflexivity |];
      split; [reflexivity |]; exists x, s0
  end.
  repeat split; auto.
Qed.

(** X10. The frame [_x] of a [PetaleRFDataset] the constructor
    returns has the rows of the frame it was given. Its columns are the
    columns of the frame other than the column of participants and the
    target, and every listed column: the column of participants or the
    target, when it is listed as continuous or categorical, is a column of
    [_x] again. A column that is in neither list keeps the values of the
    frame as they are, unless it is the column of participants or the
    target, which is then no column of [_x]; and when neither of the two is
    listed, the columns of [_x] are the other columns of the frame, in the
    order of the frame. *)
Theorem rf_constructor_frame :
  forall (df : DataFrame) (target : string) (cont cat : option (list string))
         (self : RFDataset),
    PetaleRFDataset__init__ sqrt PARTICIPANT df target cont cat = Ok self ->
    index (_x self) = index df /\
    (forall c, In c (column_names (_x self))
               <-> In c (column_names df) /\
                   (existsb (String.eqb c) [PARTICIPANT; target] = false \/
                    In c (listing cont ++ listing cat))) /\
    (forall c, ~ In c (listing cont) -> ~ In c (listing cat) ->
       lookup c (columns (_x self))
       = if existsb (String.eqb c) [PARTICIPANT; target] then None
         else lookup c (columns df)) /\
    ((forall c, In c (listing cont ++ listing cat) ->
                existsb (String.eqb c) [PARTICIPANT; target] = false) ->
     column_names (_x self)
     = filter (fun c => negb (existsb (String.eqb c) [PARTICIPANT; target]))
              (column_names df)).
Proof.
  intros df target cont cat self Hinit.
  destruct (RF_constructor_inv _ _ _ _ _ Hinit)
    as (Hcont & Hcat & x & self0 & Hdrop & Hx & Hc & Hk & Hu).
  destruct (RF_update_masks_frame _ _ _ _ _ Hu) as (Hi & Hl & Hn).
  pose proof (RF_update_masks_names _ _ _ _ _ Hu) as Hm.
  rewrite Hx in Hi, Hl, Hn, Hm. rewrite Hc, Hk in Hl, Hn, Hm. clear Hx.
  assert (Hxi : index x = index df /\
                (forall c, lookup c (columns x)
                           = if existsb (String.eqb c) [PARTICIPANT; target]
                             then None else lookup c (columns df)) /\
                column_names x
                = filter (fun c => negb (existsb (String.eqb c) [PARTICIPANT; target]))
                         (column_names df)).
  { unfold drop_columns in Hdrop.
    destruct (forallb _ [PARTICIPANT; target]); [| discriminate].
    injection Hdrop as Hdrop. rewrite <- Hdrop.
    split; [reflexivity | split].
    - intros c. exact (lookup_filter_names [PARTICIPANT; target] c (columns df)).
    - exact (names_of_filter [PARTICIPANT; target] (columns df)). }
  destruct Hxi as (Hxi & Hxl & Hxn).
  assert (Hlisted : forall c, In c (listing cont ++ listing cat) ->
                              In c (column_names df)).
  { intros c Hin. apply in_app_or in Hin. destruct Hin as [Hin | Hin].
    - destruct cont as [cols |]; [| contradiction]. simpl in Hin, Hcont.
      rewrite forallb_forall in Hcont. specialize (Hcont c Hin).
      apply existsb_exists in Hcont. destruct Hcont as [c' [Hc' E]].
      apply String.eqb_eq in E. now subst.
    - destruct cat as [cols |]; [| contradiction]. simpl in Hin, Hcat.
      rewrite forallb_forall in Hcat. specialize (Hcat c Hin).
      apply existsb_exists in Hcat. destruct Hcat as [c' [Hc' E]].
      apply String.eqb_eq in E. now subst. }
  split; [congruence | split; [| split]].
  - intros c. rewrite Hm, Hxn, filter_In, negb_true_iff.
    specialize (Hlisted c). tauto.
  - intros c Hc1 Hc2. rewrite (Hl c Hc1 Hc2). apply Hxl.
  - intros Hall. rewrite Hn; [exact Hxn |].
    intros c Hin. rewrite Hxn. apply filter_In. split.
    + now apply Hlisted.
    + now rewrite (Hall c Hin).
Qed.

(** X11. Without the column of participants or without the target
    among the columns of the frame, the constructor of [PetaleRFDataset]
    raises a KeyError, from the [drop] of its first line, whatever the lists
    of columns; the constructor of [PetaleNNDataset] raises an AssertionError
    on a frame without the column of participants. *)
Theorem rf_constructor_key_error :
  forall (df : DataFrame) (target : string) (cont cat : option (list string)),
    (existsb (String.eqb PARTICIPANT) (column_names df)
     && existsb (String.eqb target) (column_names df) = false ->
     PetaleRFDataset__init__ sqrt PARTICIPANT df target cont cat = Raise KeyError) /\
    (existsb (String.eqb PARTICIPANT) (column_names df) = false ->
     PetaleNNDataset__init__ sqrt PARTICIPANT df target cont cat
     = Raise AssertionError).
Proof.
  intros df target cont cat. split.
  - intros H. unfold PetaleRFDataset__init__, drop_columns. simpl.
    rewrite andb_true_r, H. reflexivity.
  - intros H. unfold PetaleNNDataset__init__. rewrite H. reflexivity.
Qed.

End ForestFacts.

Lemma rf_constructor_frame_witness :
  (exists self,
     ForestDatasets.PetaleRFDataset__init__ Numpy.sqrt_down "Participant" clinic "VO2"
       (Some ["AGE"%string]) None = Ok self /\
     Pandas.index (ForestDatasets._x self) = Pandas.index clinic /\
     Pandas.lookup "SEX" (Pandas.columns (ForestDatasets._x self))
     = Some [Pandas.Str "F"; Pandas.Str "M"; Pandas.NaN; Pandas.Str "M"] /\
     Pandas.lookup "VO2" (Pandas.columns (ForestDatasets._x self)) = None /\
     ~ In "VO2"%string (Pandas.column_names (ForestDatasets._x self)) /\
     Pandas.column_names (ForestDatasets._x self) = ["AGE"%string; "SEX"%string]) /\
  (exists self,
     ForestDatasets.PetaleRFDataset__init__ Numpy.sqrt_down "Participant" clinic "VO2"
       (Some ["AGE"%string; "VO2"%string]) None = Ok self /\
     In "VO2"%string (Pandas.column_names (ForestDatasets._x self)) /\
     ~ In "Participant"%string (Pandas.column_names (ForestDatasets._x self))).
Proof.
  split.
  - destruct (ForestDatasets.PetaleRFDataset__init__ Numpy.sqrt_down "Participant"
                clinic "VO2" (Some ["AGE"%string]) None) as [self | e] eqn:Hinit;
      [| vm_compute in Hinit; discriminate].
    exists self. split; [reflexivity |].
    destruct (rf_constructor_frame Numpy.sqrt_down "Participant" clinic "VO2"
                (Some ["AGE"%string]) None self Hinit) as (Hi & Hm & Hl & Hn).
    split; [exact Hi | split; [| split; [| split]]].
    + apply (Hl "SEX"%string); simpl; intuition discriminate.
    + apply (Hl "VO2"%string); simpl; intuition discriminate.
    + intros Hin. apply Hm in Hin. destruct Hin as [_ [Hin | Hin]].
      * vm_compute in Hin. discriminate.
      * simpl in Hin. intuition discriminate.
    + apply Hn. intros c [<- | []]. reflexivity.
  - destruct (ForestDatasets.PetaleRFDataset__init__ Numpy.sqrt_down "Participant"
                clinic "VO2" (Some ["AGE"%string; "VO2"%string]) None)
      as [self | e] eqn:Hinit; [| vm_compute in Hinit; discriminate].
    exists self. split; [reflexivity |].
    destruct (rf_constructor_frame Numpy.sqrt_down "Participant" clinic "VO2"
                (Some ["AGE"%string; "VO2"%string]) None self Hinit)
      as (_ & Hm & _ & _).
    split.
    + apply Hm. simpl. intuition.
    + intros Hin. apply Hm in Hin. destruct Hin as [_ [Hin | Hin]].
      * vm_compute in Hin. discriminate.
      * simpl in Hin. intuition discriminate.
Defined.

Lemma rf_constructor_key_error_witness :
  let df := cohort in
  (existsb (String.eqb "Participant") (Pandas.column_names df)
   && existsb (String.eqb "VO2") (Pandas.column_names df) = false /\
   ForestDatasets.PetaleRFDataset__init__ Numpy.sqrt_down "Participant" df "VO2"
     (Some ["VO2"%string]) None = Raise KeyError) /\
  (existsb (String.eqb "Participant") (Pandas.column_names df) = false /\
   Datasets.PetaleNNDataset__init__ Numpy.sqrt_down "Participant" df "VO2"
     (Some ["VO2"%string]) None = Raise AssertionError).
Proof.
  intros df.
  destruct (rf_constructor_key_error Numpy.sqrt_down "Participant" df "VO2"
              (Some ["VO2"%string]) None) as [Hrf Hnn].
  split; (split; [reflexivity |]).
  - exact (Hrf eq_refl).
  - exact (Hnn eq_refl).
Defined.

(** ** [NNTrainer.fit]: what it leaves in the trainer, and what it refuses *)

Section NNTrainerStateFacts.
Import EarlyStopping Trainer.
Variable Model : Type.
Variable train : DataLoader -> Model -> Model * Q.
Variable validation_loss : Model -> Q.

(** [evaluate] and the loop of the epochs write the model and nothing else
    of the trainer. *)
Lemma evaluate_settings (es : EarlyStopper) (self self' : NNTrainer Model)
  (files files' : Files Model) (r : result (Q * EarlyStopper)) :
  evaluate validation_loss es (self, files) = (r, (self', files')) ->
  batch_size self' = batch_size self /\ epochs self' = epochs self /\
  early_stopping_activated self' = early_stopping_activated self /\
  trainer_patience self' = trainer_patience self /\
  metric_defined self' = metric_defined self /\
  trial_defined self' = trial_defined self.
Proof.
  unfold evaluate.
  destruct (model self) as [m |]; [| intros H; inversion H; subst; auto 6].
  destruct (early_stopping_activated self) eqn:Ha;
    [| intros H; inversion H; subst; rewrite Ha; auto 6].
  destruct (call _ m es files) as [es' files1].
  destruct (early_stop es').
  - destruct (get_best files1); intros H; inversion H; subst; simpl;
      rewrite ?Ha; auto 6.
  - intros H; inversion H; subst; rewrite Ha; auto 6.
Qed.

Lemma epochs_loop_settings (todo : nat) :
  forall (dl : DataLoader) (es : EarlyStopper) (tl vl : list Q)
         (self self' : NNTrainer Model) (files files' : Files Model)
         (r : result (list Q * list Q)),
    epochs_loop train validation_loss todo dl es tl vl (self, files)
    = (r, (self', files')) ->
    batch_size self' = batch_size self /\ epochs self' = epochs self /\
    early_stopping_activated self' = early_stopping_activated self /\
    trainer_patience self' = trainer_patience self /\
    metric_defined self' = metric_defined self /\
    trial_defined self' = trial_defined self.
Proof.
  induction todo as [| todo IH]; intros dl es tl vl self self' files files' r H.
  - simpl in H. inversion H; subst. auto 6.
  - destruct (model self) as [m |] eqn:Hm.
    + rewrite (epochs_loop_step _ train validation_loss todo dl es tl vl
                 self files m Hm) in H.
      destruct (evaluate validation_loss es _) as [[[v es'] | e] [s1 f1]] eqn:He.
      * apply evaluate_settings in He. simpl in He.
        apply IH in H. intuition congruence.
      * apply evaluate_settings in He. simpl in He.
        inversion H; subst. exact He.
    + cbn [epochs_loop] in H. rewrite Hm in H. inversion H; subst. auto 6.
Qed.

Lemma fit_state (n : nat) (self : NNTrainer Model) (files : Files Model) :
  trial_defined self && negb (metric_defined self) = false ->
  model self <> None ->
  let after := fst (snd (fit train validation_loss n (self, files))) in
  batch_size after = Z.min (Z.of_nat n) (batch_size self) /\
  epochs after = epochs self /\
  early_stopping_activated after = early_stopping_activated self /\
  trainer_patience after = trainer_patience self.
Proof.
  intros Hassert Hmodel. unfold fit. rewrite Hassert.
  destruct (model self) as [m |] eqn:Hm; [| contradiction].
  pose proof (make_train_loader_state Model n self) as Hs.
  destruct (make_train_loader n self) as [[dl | e] self1] eqn:Hdl; simpl in Hs.
  - destruct (epochs_loop _ _ _ _ _ _ _ _) as [r [s2 f2]] eqn:Hloop.
    apply epochs_loop_settings in Hloop. simpl. subst self1.
    destruct (Z.ltb_spec (Z.of_nat n) (batch_size self)); simpl in *;
      intuition (try congruence); lia.
  - simpl. subst self1.
    destruct (Z.ltb_spec (Z.of_nat n) (batch_size self)); simpl;
      intuition lia.
Qed.

(** X12. [NNTrainer.fit] lowers the batch size of the trainer to the
    size of the training set for good: whether it returns or raises, the
    trainer is left with the smaller of the two and with its other settings,
    and a later [fit] on a larger training set makes its batches of the size
    of the earlier, smaller training set. *)
Theorem fit_lowers_batch_size_for_good :
  forall (n : nat) (self : NNTrainer Model) (files : Files Model),
    trial_defined self && negb (metric_defined self) = false ->
    model self <> None ->
    let after := fst (snd (fit train validation_loss n (self, files))) in
    batch_size after = Z.min (Z.of_nat n) (batch_size self) /\
    epochs after = epochs self /\
    early_stopping_activated after = early_stopping_activated self /\
    trainer_patience after = trainer_patience self /\
    (forall m : nat,
       0 < n -> (Z.of_nat n <= batch_size self)%Z -> n <= m ->
       fst (make_train_loader m after)
       = Ok {| dataset_len := m; loader_batch_size := n;
               drop_last := (Z.of_nat m mod Z.of_nat n =? 1)%Z |}).
Proof.
  intros n self files Hassert Hmodel after.
  destruct (fit_state n self files Hassert Hmodel) as (Hb & He & Ha & Hp).
  fold after in Hb, He, Ha, Hp.
  repeat (split; [assumption |]).
  intros m Hn Hle Hm.
  assert (Hbn : batch_size after = Z.of_nat n) by lia.
  unfold make_train_loader, bind, get, modify, ret, lift.
  rewrite Hbn.
  destruct (Z.ltb_spec (Z.of_nat m) (Z.of_nat n)); [lia |]. simpl.
  rewrite Hbn. unfold py_mod.
  destruct (Z.eqb_spec (Z.of_nat n) 0); [lia |]. simpl.
  unfold DataLoader__init__.
  destruct (Z.leb_spec (Z.of_nat n) 0); [lia |].
  now rewrite Nat2Z.id.
Qed.

(** X13. [NNTrainer.fit] on an empty training set, or with a batch
    size of zero, ends in the ZeroDivisionError of its test on the last
    batch; with a negative batch size it ends in the ValueError of the data
    loader. In both cases no epoch has run: the model and the checkpoint are
    as they were. *)
Theorem fit_refuses_degenerate_batches :
  forall (n : nat) (self : NNTrainer Model) (files : Files Model),
    trial_defined self && negb (metric_defined self) = false ->
    model self <> None ->
    let run := fit train validation_loss n (self, files) in
    ((0 <= batch_size self)%Z -> Z.min (Z.of_nat n) (batch_size self) = 0%Z ->
     fst run = Raise ZeroDivisionError /\
     model (fst (snd run)) = model self /\ snd (snd run) = files) /\
    ((batch_size self < 0)%Z ->
     fst run = Raise ValueError /\
     model (fst (snd run)) = model self /\ snd (snd run) = files).
Proof.
  intros n self files Hassert Hmodel run. unfold run, fit. rewrite Hassert.
  destruct (model self) as [m |] eqn:Hm; [| contradiction].
  unfold make_train_loader, bind, get, modify, ret, lift.
  split.
  - intros Hpos Hmin.
    destruct (Z.ltb_spec (Z.of_nat n) (batch_size self)); simpl.
    + assert (Hn : Z.of_nat n = 0%Z) by lia. rewrite Hn. simpl.
      repeat split. exact Hm.
    + assert (Hb : batch_size self = 0%Z) by lia. rewrite Hb. simpl.
      repeat split. exact Hm.
  - intros Hneg.
    destruct (Z.ltb_spec (Z.of_nat n) (batch_size self)); [lia |]. simpl.
    unfold py_mod. destruct (Z.eqb_spec (batch_size self) 0); [lia |]. simpl.
    unfold DataLoader__init__.
    destruct (Z.leb_spec (batch_size self) 0); [| lia]. simpl.
    repeat split. exact Hm.
Qed.

Lemma set_model_twice (a b : Model) (self : NNTrainer Model) :
  set_model b (set_model a self) = set_model b self.
Proof. reflexivity. Qed.

Lemma set_model_same (m : Model) (self : NNTrainer Model) :
  model self = Some m -> set_model m self = self.
Proof. destruct self; simpl; intros ->; reflexivity. Qed.

Lemma epochs_loop_plain (dl : DataLoader) (todo : nat) :
  forall (es : EarlyStopper) (tl vl : list Q) (self : NNTrainer Model)
         (files : Files Model) (m : Model),
    early_stopping_activated self = false ->
    model self = Some m ->
    let step := fun m => fst (train dl m) in
    epochs_loop train validation_loss todo dl es tl vl (self, files)
    = (Ok (tl ++ map (fun k => snd (train dl (Nat.iter k step m))) (seq 0 todo),
           vl ++ map (fun k => validation_loss (Nat.iter (S k) step m)) (seq 0 todo)),
       (set_model (Nat.iter todo step m) self, files)).
Proof.
  induction todo as [| todo IH]; intros es tl vl self files m Ha Hm step.
  - simpl. rewrite !app_nil_r, (set_model_same m self Hm). reflexivity.
  - rewrite (epochs_loop_step _ train validation_loss todo dl es tl vl
               self files m Hm).
    unfold evaluate. simpl. rewrite Ha.
    rewrite (IH es _ _ (set_model (fst (train dl m)) self) files
                (fst (train dl m)) Ha eq_refl).
    rewrite set_model_twice, <- !app_assoc. simpl.
    rewrite <- !seq_shift, !map_map.
    fold step.
    assert (Hiter : forall k, Nat.iter k step (fst (train dl m))
                              = step (Nat.iter k step m)).
    { intros k. change (fst (train dl m)) with (step m).
      now rewrite <- (Nat.iter_succ_r k Model step m). }
    rewrite Hiter.
    rewrite (map_ext (fun k => snd (train dl (Nat.iter k step (fst (train dl m)))))
                     (fun k => snd (train dl (Nat.iter (S k) step m))))
      by (intros k; now rewrite Hiter).
    rewrite (map_ext (fun k => validation_loss
                                 (fst (train dl (Nat.iter k step (fst (train dl m))))))
                     (fun k => validation_loss (step (Nat.iter (S k) step m))))
      by (intros k; now rewrite Hiter).
    reflexivity.
Qed.

(** X14. With early stopping switched off, [NNTrainer.fit] never calls
    the early stopper: it returns after all its epochs, each epoch trains the
    model the epoch before left, the losses it returns are those of the
    successive models, and the checkpoint is not touched. *)
Theorem fit_without_early_stopping :
  forall (n : nat) (self self1 : NNTrainer Model) (files : Files Model)
         (m0 : Model) (dl : DataLoader),
    trial_defined self && negb (metric_defined self) = false ->
    model self = Some m0 ->
    early_stopping_activated self = false ->
    make_train_loader n self = (Ok dl, self1) ->
    let step := fun m => fst (train dl m) in
    fit train validation_loss n (self, files)
    = (Ok (map (fun k => snd (train dl (Nat.iter k step m0))) (seq 0 (epochs self)),
           map (fun k => validation_loss (Nat.iter (S k) step m0))
               (seq 0 (epochs self))),
       (set_model (Nat.iter (epochs self) step m0) self1, files)).
Proof.
  intros n self self1 files m0 dl Hassert Hm Ha Hdl step.
  unfold fit. rewrite Hassert, Hm, Hdl.
  pose proof (make_train_loader_state Model n self) as Hs.
  rewrite Hdl in Hs. simpl in Hs.
  assert (H1 : early_stopping_activated self1 = false /\ model self1 = Some m0 /\
               epochs self1 = epochs self).
  { subst self1. destruct (Z.of_nat n <? batch_size self)%Z; simpl; auto. }
  destruct H1 as (Ha1 & Hm1 & He1). rewrite He1.
  exact (epochs_loop_plain dl (epochs self) _ [] [] self1 files m0 Ha1 Hm1).
Qed.

End NNTrainerStateFacts.

Lemma fit_lowers_batch_size_for_good_witness :
  let self := trainer_of_batch_size 64 in
  let after :=
    fst (snd (Trainer.fit counting_train flat_validation 9 (self, None))) in
  Trainer.trial_defined self && negb (Trainer.metric_defined self) = false /\
  Trainer.model self <> None /\
  0 < 9 /\ (Z.of_nat 9 <= Trainer.batch_size self)%Z /\ 9 <= 19 /\
  Trainer.batch_size after = 9%Z /\
  fst (Trainer.make_train_loader 19 after)
  = Ok {| Trainer.dataset_len := 19; Trainer.loader_batch_size := 9;
          Trainer.drop_last := true |}.
Proof.
  intros self after.
  assert (Hmodel : Trainer.model self <> None) by discriminate.
  assert (H1 : 0 < 9) by lia.
  assert (H2 : (Z.of_nat 9 <= Trainer.batch_size self)%Z) by (simpl; lia).
  assert (H3 : 9 <= 19) by lia.
  destruct (fit_lowers_batch_size_for_good nat counting_train flat_validation
              9 self None eq_refl Hmodel) as (Hb & _ & _ & _ & Hlater).
  split; [reflexivity | split; [exact Hmodel | split; [exact H1 |
    split; [exact H2 | split; [exact H3 | split; [exact Hb |]]]]]].
  exact (Hlater 19 H1 H2 H3).
Defined.

Lemma fit_refuses_degenerate_batches_witness :
  (let self := trainer_of_batch_size 4 in
   let run := Trainer.fit counting_train flat_validation 0 (self, None) in
   Trainer.trial_defined self && negb (Trainer.metric_defined self) = false /\
   Trainer.model self <> None /\
   (0 <= Trainer.batch_size self)%Z /\
   Z.min (Z.of_nat 0) (Trainer.batch_size self) = 0%Z /\
   fst run = Raise ZeroDivisionError /\
   Trainer.model (fst (snd run)) = Trainer.model self /\ snd (snd run) = None) /\
  (let self := trainer_of_batch_size (-3) in
   let run := Trainer.fit counting_train flat_validation 9 (self, None) in
   Trainer.trial_defined self && negb (Trainer.metric_defined self) = false /\
   Trainer.model self <> None /\
   (Trainer.batch_size self < 0)%Z /\
   fst run = Raise ValueError /\
   Trainer.model (fst (snd run)) = Trainer.model self /\ snd (snd run) = None).
Proof.
  split.
  - intros self run.
    assert (Hmodel : Trainer.model self <> None) by discriminate.
    assert (Hpos : (0 <= Trainer.batch_size self)%Z) by (simpl; lia).
    assert (Hmin : Z.min (Z.of_nat 0) (Trainer.batch_size self) = 0%Z)
      by reflexivity.
    split; [reflexivity | split; [exact Hmodel | split; [exact Hpos |
      split; [exact Hmin |]]]].
    exact (proj1 (fit_refuses_degenerate_batches nat counting_train
                    flat_validation 0 self None eq_refl Hmodel) Hpos Hmin).
  - intros self run.
    assert (Hmodel : Trainer.model self <> None) by discriminate.
    assert (Hneg : (Trainer.batch_size self < 0)%Z) by (simpl; lia).
    split; [reflexivity | split; [exact Hmodel | split; [exact Hneg |]]].
    exact (proj2 (fit_refuses_degenerate_batches nat counting_train
                    flat_validation 9 self None eq_refl Hmodel) Hneg).
Defined.

Lemma fit_without_early_stopping_witness :
  let self := plain_trainer in
  let dl := {| Trainer.dataset_len := 9; Trainer.loader_batch_size := 4;
               Trainer.drop_last := true |} in
  Trainer.trial_defined self && negb (Trainer.metric_defined self) = false /\
  Trainer.model self = Some 0 /\
  Trainer.early_stopping_activated self = false /\
  Trainer.make_train_loader 9 self = (Ok dl, self) /\
  Trainer.fit counting_train flat_validation 9 (self, Some 7)
  = (Ok ([0 # 1; 1 # 1; 2 # 1]%Q, [1; 1; 1]%Q),
     (Trainer.set_model 3 self, Some 7)).
Proof.
  intros self dl.
  split; [reflexivity | split; [reflexivity | split; [reflexivity |
    split; [reflexivity |]]]].
  exact (fit_without_early_stopping nat counting_train flat_validation
           9 self self (Some 7) 0 dl eq_refl eq_refl eq_refl eq_refl).
Defined.

(** ** [TorchCustomModel.fit]: without validation, with validation, refused *)

Section TorchFitStateFacts.
Import EarlyStopping Trainer TorchBase.
Variable Params : Type.
Variable train_step : DataLoader -> Params -> Params * Q.
Variable validation_loss : Params -> Q.
Variable validation_score : Params -> Q.


(** X16. [TorchCustomModel.fit] raises before any epoch, and
    leaves the model and the checkpoint as they were: an AssertionError on
    sample weights that are not as many as the rows of the dataset, a
    ValueError from the data loader on an empty training mask, a TypeError on
    a validation mask that is [None]. *)
Theorem torch_fit_refusals :
  forall (dataset : PetaleDataset) (batch_size : Z) (valid_batch_size : option Z)
         (max_epochs patience : nat) (sample_weights : option nat)
         (w : World Params),
    let run := fit train_step validation_loss validation_score dataset
                   batch_size valid_batch_size max_epochs patience
                   sample_weights w in
    (forall k, sample_weights = Some k -> k <> dataset_size dataset ->
               run = (Raise AssertionError, w)) /\
    (is_ok (_validate_sample_weights dataset sample_weights) = true ->
     train_mask dataset = [] ->
     run = (Raise ValueError, w)) /\
    (is_ok (_validate_sample_weights dataset sample_weights) = true ->
     is_ok (_create_train_objects dataset batch_size) = true ->
     valid_mask dataset = None ->
     run = (Raise TypeError, w)).
Proof.
  intros dataset batch_size valid_batch_size max_epochs patience sample_weights
         w run. unfold run, fit. split; [| split].
  - intros k -> Hk. simpl.
    destruct (Nat.eqb_spec k (dataset_size dataset)); [contradiction | reflexivity].
  - intros Hsw Htm.
    destruct (_validate_sample_weights dataset sample_weights); [| discriminate].
    unfold _create_train_objects, DataLoader__init__. rewrite Htm. simpl.
    destruct (Z.leb_spec (Z.min 0 batch_size) 0); [reflexivity | lia].
  - intros Hsw Htd Hvm.
    destruct (_validate_sample_weights dataset sample_weights); [| discriminate].
    destruct (_create_train_objects dataset batch_size); [| discriminate].
    unfold _create_validation_objects. rewrite Hvm. reflexivity.
Qed.




End TorchFitStateFacts.


Lemma torch_fit_refusals_witness :
  (Some 8 = Some 8 /\ 8 <> TorchBase.dataset_size nine_and_three /\
   TorchBase.fit counting_train flat_validation flat_validation nine_and_three
                 4 None 5 2 (Some 8)
                 (fresh_model, None)
   = (Raise AssertionError, (fresh_model, None))) /\
  (is_ok (TorchBase._validate_sample_weights none_and_three None) = true /\
   TorchBase.train_mask none_and_three = [] /\
   TorchBase.fit counting_train flat_validation flat_validation none_and_three
                 4 None 5 2 None
                 (fresh_model, None)
   = (Raise ValueError, (fresh_model, None))) /\
  (is_ok (TorchBase._validate_sample_weights nine_unvalidated None) = true /\
   is_ok (TorchBase._create_train_objects nine_unvalidated 4) = true /\
   TorchBase.valid_mask nine_unvalidated = None /\
   TorchBase.fit counting_train flat_validation flat_validation nine_unvalidated
                 4 None 5 2 None
                 (fresh_model, None)
   = (Raise TypeError, (fresh_model, None))).
Proof.
  assert (Hk : 8 <> TorchBase.dataset_size nine_and_three) by (simpl; lia).
  split; [| split].
  - split; [reflexivity | split; [exact Hk |]].
    exact (proj1 (torch_fit_refusals nat counting_train flat_validation flat_validation
                    nine_and_three 4 None 5 2 (Some 8) (fresh_model, None))
                 8 eq_refl Hk).
  - split; [reflexivity | split; [reflexivity |]].
    exact (proj1 (proj2 (torch_fit_refusals nat counting_train flat_validation flat_validation
                           none_and_three 4 None 5 2 None (fresh_model, None)))
                 eq_refl eq_refl).
  - split; [reflexivity | split; [reflexivity | split; [reflexivity |]]].
    exact (proj2 (proj2 (torch_fit_refusals nat counting_train flat_validation flat_validation
                           nine_unvalidated 4 None 5 2 None (fresh_model, None)))
                 eq_refl eq_refl eq_refl).
Defined.


(* ====================================================================== *)
(** ** The folder of the checkpoints                                       *)
(* ====================================================================== *)

Section CheckpointsFacts.
Import Evaluator.
Variables Hyper Importance Model Data Pred : Type.
Variable sampler : nat -> nat -> result (nat -> result Data).
Variable tune : nat -> Data -> result (Hyper * Importance).
Variable fit : nat -> Data -> Hyper -> result Model.
Variable predict : nat -> Data -> Model -> result Pred.
Variable summarize : result unit.

(** X18. [NNEvaluator.nested_cross_valid] returns or raises what
    the run of the base class does and leaves the files that run leaves.
    When the run returns, the folder [checkpoints] is gone afterwards, also
    a folder that was there before a run without early stopping. When the
    run raises, the folder is not removed: it is there afterwards exactly
    when it was there before or early stopping is activated. *)
Theorem nn_nested_cross_valid_checkpoints :
  forall (early_stopping_activated : bool) (self : Evaluator Data Pred)
         (files : Recordings Hyper Importance Model Pred) (folder : bool),
    let base := nested_cross_valid sampler tune fit predict summarize self files in
    let run := NN_nested_cross_valid sampler tune fit predict summarize
                 early_stopping_activated self (files, folder) in
    fst run = fst base /\
    fst (snd run) = snd base /\
    snd (snd run) = (if is_ok (fst base) then false
                     else folder || early_stopping_activated).
Proof.
  intros activated self files folder base run.
  subst run. unfold NN_nested_cross_valid, bind, modify, ret. simpl.
  fold base. destruct base as [[[] | e] files']; simpl; auto.
Qed.

End CheckpointsFacts.

(* ====================================================================== *)
(** ** The datasets of the sampler                                         *)
(* ====================================================================== *)

Section SamplerFacts.
Import Numpy Pandas Sampling Samplers.
Variable sqrt : Q -> Q.
Variable rng : Type.
Variable permutation : rng -> nat -> list nat * rng.
Variable qcut : Series -> nat -> result Series.
Variable PetaleDataset : Type.
Variable PetaleDataset__init__ :
  DataFrame -> list string -> string -> option (list string) -> bool ->
  option Labelled -> option Labelled -> bool -> result PetaleDataset.

Local Set Warnings "-notation-for-abbreviation".

Local Notation to_datasets :=
  (dataframes_to_datasets sqrt PetaleDataset__init__).

Lemma dict_set_In {V} (k k' : nat) (v v' : V) (d : list (nat * V)) :
  In (k', v') (dict_set k v d) -> (k' = k /\ v' = v) \/ In (k', v') d.
Proof.
  induction d as [| [k0 v0] d IH]; simpl.
  - intros [H | []]. inversion H. auto.
  - destruct (Nat.eqb_spec k0 k) as [-> | Hne]; simpl.
    + intros [H | H]; [inversion H; auto | auto].
    + intros [H | H]; [auto |]. destruct (IH H); auto.
Qed.

Lemma dict_set_again {V} (k : nat) (v1 v2 : V) (d : list (nat * V)) :
  dict_set k v2 (dict_set k v1 d) = dict_set k v2 d.
Proof.
  induction d as [| [k0 v0] d IH]; simpl.
  - now rewrite Nat.eqb_refl.
  - destruct (Nat.eqb_spec k0 k) as [-> | Hne]; simpl.
    + now rewrite Nat.eqb_refl.
    + destruct (Nat.eqb_spec k0 k); [contradiction |]. now rewrite IH.
Qed.

Lemma dict_set_new_key {V} (k : nat) (v : V) (d : list (nat * V)) :
  ~ In k (map fst d) -> map fst (dict_set k v d) = map fst d ++ [k].
Proof.
  induction d as [| [k0 v0] d IH]; simpl; [reflexivity |].
  intros Hout. destruct (Nat.eqb_spec k0 k) as [-> | Hne]; [tauto |].
  simpl. rewrite IH; tauto.
Qed.

(** What [split_train_test] returns partitions the row labels. *)
Lemma split_train_test_labels (df : DataFrame) (target_col : string)
  (test_size : Q) (g g' : rng) (train_df test_df : DataFrame) :
  split_train_test permutation qcut df target_col test_size None g
  = (Ok (train_df, test_df), g') ->
  (forall l, In l (index train_df) -> ~ In l (index test_df)) /\
  (forall l, In l (index df) -> In l (index train_df) \/ In l (index test_df)) /\
  incl (index train_df) (index df) /\
  incl (index test_df) (index df).
Proof.
  intros Hsplit.
  destruct (split_train_test_inv _ _ _ _ _ _ _ _ _ _ _ Hsplit) as [Hs _].
  destruct (split_train_test_partition _ _ _ _ _ _ _ _ _ _ Hs)
    as [train' [Hsplit' Hpart]].
  rewrite Hsplit in Hsplit'. inversion Hsplit'; subst. exact Hpart.
Qed.

(** An entry of ["inner"]: the datasets of a split of the train frame. *)
Local Notation inner_entry self train_df split_cat test_size add_biases ds :=
  (exists inner_train inner_test g g',
     split_train_test permutation qcut train_df (target_col self) test_size None g
     = (Ok (inner_train, inner_test), g') /\
     to_datasets self inner_train inner_test split_cat add_biases = Ok ds).

Lemma inner_loop_spec (self : Sampler) (train_df : DataFrame)
  (split_cat : bool) (test_size : Q) (add_biases : bool) (i : nat)
  (js : list nat) :
  forall (outer_dict : OuterDatasets PetaleDataset)
         (all_datasets all_datasets' : list (nat * OuterDatasets PetaleDataset))
         (g g' : rng),
    inner_loop sqrt permutation qcut PetaleDataset__init__ self train_df
               split_cat test_size add_biases i js outer_dict all_datasets g
    = (Ok all_datasets', g') ->
    match js with
    | [] => all_datasets' = all_datasets
    | _ :: _ =>
        exists outer_dict',
          all_datasets' = dict_set i outer_dict' all_datasets /\
          datasets outer_dict' = datasets outer_dict /\
          (NoDup (map fst (inner outer_dict) ++ js) ->
           map fst (inner outer_dict') = map fst (inner outer_dict) ++ js) /\
          (forall j ds, In (j, ds) (inner outer_dict') ->
             In (j, ds) (inner outer_dict) \/
             inner_entry self train_df split_cat test_size add_biases ds)
    end.
Proof.
  induction js as [| j js IH]; intros od all all' g g' Hrun.
  - simpl in Hrun. unfold ret in Hrun. now inversion Hrun.
  - simpl in Hrun. unfold bind, lift in Hrun.
    destruct (split_train_test permutation qcut train_df (target_col self)
                test_size None g) as [[[itr ite] | e] g1] eqn:Hsplit;
      [| discriminate].
    simpl in Hrun.
    destruct (to_datasets self itr ite split_cat add_biases) as [ds |] eqn:Hds;
      [| discriminate].
    apply IH in Hrun.
    assert (Hentry : inner_entry self train_df split_cat test_size add_biases ds).
    { exists itr, ite, g, g1. auto. }
    destruct js as [| j' js'].
    + subst all'. eexists. split; [reflexivity |]. simpl.
      split; [reflexivity | split].
      * intros Hnd. apply dict_set_new_key.
        apply NoDup_remove_2 in Hnd. rewrite app_nil_r in Hnd. exact Hnd.
      * intros j0 ds0 Hin. apply dict_set_In in Hin.
        destruct Hin as [[_ ->] | Hin]; auto.
    + destruct Hrun as (od' & Hall & Hout & Hkeys & Hin).
      exists od'. simpl in *. split; [| split; [exact Hout | split]].
      * rewrite Hall. apply dict_set_again.
      * intros Hnd.
        assert (Hfresh : ~ In j (map fst (inner od))).
        { apply NoDup_remove_2 in Hnd. intros H. apply Hnd.
          apply in_or_app. now left. }
        rewrite (dict_set_new_key _ _ _ Hfresh) in Hkeys.
        rewrite <- app_assoc in Hkeys. simpl in Hkeys. apply Hkeys. exact Hnd.
      * intros j0 ds0 H0. destruct (Hin _ _ H0) as [H1 | H1]; [| auto].
        apply dict_set_In in H1. destruct H1 as [[_ ->] | H1]; auto.
Qed.

(** An entry of the dictionary returned: the datasets of a split of the
    learning set, with [l] inner entries on splits of its train frame. *)
Local Notation outer_entry self l split_cat test_size add_biases o :=
  (exists train_df test_df g g',
     split_train_test permutation qcut (learning_set self) (target_col self)
                      test_size None g
     = (Ok (train_df, test_df), g') /\
     to_datasets self train_df test_df split_cat add_biases = Ok (datasets o) /\
     map fst (inner o) = seq 0 l /\
     forall j ds, In (j, ds) (inner o) ->
       inner_entry self train_df split_cat test_size add_biases ds).

Lemma outer_loop_spec (self : Sampler) (l : nat)
  (split_cat : bool) (test_size : Q) (add_biases : bool) (ks : list nat) :
  forall (all_datasets all_datasets' : list (nat * OuterDatasets PetaleDataset))
         (g g' : rng),
    outer_loop sqrt permutation qcut PetaleDataset__init__ self l
               split_cat test_size add_biases ks all_datasets g
    = (Ok all_datasets', g') ->
    NoDup (map fst all_datasets ++ ks) ->
    map fst all_datasets'
    = (if l =? 0 then map fst all_datasets else map fst all_datasets ++ ks) /\
    forall i o, In (i, o) all_datasets' ->
      In (i, o) all_datasets \/
      outer_entry self l split_cat test_size add_biases o.
Proof.
  induction ks as [| i ks IH]; intros all all' g g' Hrun Hnd.
  - simpl in Hrun. unfold ret in Hrun. inversion Hrun; subst.
    rewrite app_nil_r. split; [now destruct (l =? 0) | auto].
  - simpl in Hrun. unfold bind at 1, lift in Hrun.
    destruct (split_train_test permutation qcut (learning_set self)
                (target_col self) test_size None g)
      as [[[train_df test_df] | e] g1] eqn:Hsplit; [| discriminate].
    simpl fst in Hrun. simpl snd in Hrun.
    destruct (to_datasets self train_df test_df split_cat add_biases)
      as [ds |] eqn:Hds; [| discriminate].
    unfold bind in Hrun.
    destruct (inner_loop sqrt permutation qcut PetaleDataset__init__ self
                train_df split_cat test_size add_biases i (seq 0 l)
                {| datasets := ds; inner := [] |} all g1)
      as [[all1 | e] g2] eqn:Hinner; [| discriminate].
    apply inner_loop_spec in Hinner.
    assert (Hfresh : ~ In i (map fst all)).
    { apply NoDup_remove_2 in Hnd. intros H. apply Hnd.
      apply in_or_app. now left. }
    destruct l as [| n].
    + simpl in Hinner. subst all1.
      apply IH in Hrun; [| now apply NoDup_remove_1 in Hnd].
      exact Hrun.
    + simpl seq in Hinner.
      destruct Hinner as (od' & Hall & Hout & Hkeys & Hin).
      simpl in Hout, Hkeys, Hin.
      assert (Hk1 : map fst all1 = map fst all ++ [i]).
      { rewrite Hall. now apply dict_set_new_key. }
      apply IH in Hrun.
      2:{ rewrite Hk1, <- app_assoc. exact Hnd. }
      destruct Hrun as [Hk Hall'].
      split.
      * simpl in Hk |- *. rewrite Hk, Hk1, <- app_assoc. reflexivity.
      * intros i0 o Ho. destruct (Hall' _ _ Ho) as [H1 | H1]; [| now right].
        rewrite Hall in H1. apply dict_set_In in H1.
        destruct H1 as [[_ ->] | H1]; [right | now left].
        exists train_df, test_df, g, g1.
        split; [exact Hsplit | split; [now rewrite Hout | split]].
        -- apply (Hkeys (seq_NoDup (S n) 0)).
        -- intros j ds0 Hj. destruct (Hin _ _ Hj) as [[] | H2]. exact H2.
Qed.

(** X19. When [create_train_and_test_datasets] returns, the
    dictionary has the keys [0 .. k-1] in this order and every entry has the
    keys [0 .. l-1] under ["inner"]; with [l = 0] the dictionary is empty
    whatever [k] is, because an outer entry is stored inside the inner
    loop. *)
Theorem sampler_dictionary_keys :
  forall (self : Sampler) (k l : nat) (split_cat : bool) (test_size : Q)
         (add_biases : bool) (g g' : rng)
         (all_datasets : list (nat * OuterDatasets PetaleDataset)),
    create_train_and_test_datasets sqrt permutation qcut PetaleDataset__init__
      self k l split_cat test_size add_biases g
    = (Ok all_datasets, g') ->
    map fst all_datasets = (if l =? 0 then [] else seq 0 k) /\
    forall i o, In (i, o) all_datasets -> map fst (inner o) = seq 0 l.
Proof.
  intros self k l split_cat test_size add_biases g g' all Hrun.
  unfold create_train_and_test_datasets in Hrun.
  apply outer_loop_spec in Hrun; [| apply seq_NoDup].
  destruct Hrun as [Hk Hall]. split; [exact Hk |].
  intros i o Ho. destruct (Hall _ _ Ho) as [[] | H].
  destruct H as (train_df & test_df & g1 & g2 & _ & _ & Hkeys & _).
  exact Hkeys.
Qed.

(** X20. Every entry of the dictionary that
    [create_train_and_test_datasets] returns holds the datasets of a train
    and a test frame that partition the row labels of the learning set, and
    each of its inner entries holds the datasets of two frames that partition
    the row labels of that train frame: no row of the outer test frame is in
    an inner train or test frame. *)
Theorem sampler_inner_splits_inside_outer_train :
  forall (self : Sampler) (k l : nat) (split_cat : bool) (test_size : Q)
         (add_biases : bool) (g g' : rng)
         (all_datasets : list (nat * OuterDatasets PetaleDataset)),
    create_train_and_test_datasets sqrt permutation qcut PetaleDataset__init__
      self k l split_cat test_size add_biases g
    = (Ok all_datasets, g') ->
    forall i o, In (i, o) all_datasets ->
      exists train_df test_df,
        to_datasets self train_df test_df split_cat add_biases = Ok (datasets o) /\
        (forall r, In r (index train_df) -> ~ In r (index test_df)) /\
        (forall r, In r (index (learning_set self)) ->
                   In r (index train_df) \/ In r (index test_df)) /\
        incl (index train_df) (index (learning_set self)) /\
        incl (index test_df) (index (learning_set self)) /\
        forall j ds, In (j, ds) (inner o) ->
          exists inner_train inner_test,
            to_datasets self inner_train inner_test split_cat add_biases = Ok ds /\
            (forall r, In r (index inner_train) -> ~ In r (index inner_test)) /\
            (forall r, In r (index train_df) ->
                       In r (index inner_train) \/ In r (index inner_test)) /\
            (forall r, In r (index inner_train) \/ In r (index inner_test) ->
                       In r (index train_df) /\ ~ In r (index test_df)).
Proof.
  intros self k l split_cat test_size add_biases g g' all Hrun i o Ho.
  unfold create_train_and_test_datasets in Hrun.
  apply outer_loop_spec in Hrun; [| apply seq_NoDup].
  destruct Hrun as [_ Hall]. destruct (Hall _ _ Ho) as [[] | H].
  destruct H as (train_df & test_df & g1 & g2 & Hsplit & Hds & _ & Hinner).
  destruct (split_train_test_labels _ _ _ _ _ _ _ Hsplit)
    as (Hdisj & Hcover & Htrain & Htest).
  exists train_df, test_df. repeat (split; [assumption |]).
  intros j ds Hj.
  destruct (Hinner _ _ Hj) as (itr & ite & g3 & g4 & Hsplit' & Hds').
  destruct (split_train_test_labels _ _ _ _ _ _ _ Hsplit')
    as (Hdisj' & Hcover' & Htrain' & Htest').
  exists itr, ite. repeat (split; [assumption |]).
  intros r [Hr | Hr]; [apply Htrain' in Hr | apply Htest' in Hr];
    (split; [exact Hr | now apply Hdisj]).
Qed.

End SamplerFacts.

Lemma sampler_dictionary_keys_witness :
  exists all_datasets g',
    Samplers.create_train_and_test_datasets Numpy.sqrt_down Sampling.reversal
      Sampling.rank_qcut rows_and_means cohort_sampler 2 3 true (1 # 4) false 0
    = (Ok all_datasets, g') /\
    map fst all_datasets = [0; 1] /\
    forall i o, In (i, o) all_datasets ->
      map fst (Samplers.inner o) = [0; 1; 2].
Proof.
  destruct (Samplers.create_train_and_test_datasets Numpy.sqrt_down
              Sampling.reversal Sampling.rank_qcut rows_and_means
              cohort_sampler 2 3 true (1 # 4) false 0)
    as [[all_datasets | e] g'] eqn:Hrun; [| vm_compute in Hrun; discriminate].
  exists all_datasets, g'. split; [reflexivity |].
  exact (sampler_dictionary_keys Numpy.sqrt_down nat Sampling.reversal
           Sampling.rank_qcut _ rows_and_means cohort_sampler 2 3 true (1 # 4)
           false 0 g' all_datasets Hrun).
Defined.

Lemma sampler_inner_splits_inside_outer_train_witness :
  exists all_datasets g',
  Samplers.create_train_and_test_datasets Numpy.sqrt_down Sampling.reversal
    Sampling.rank_qcut rows_and_means cohort_sampler 2 2 true (1 # 4) false 0
  = (Ok all_datasets, g') /\
  forall i o, In (i, o) all_datasets ->
    exists train_df test_df,
      Samplers.dataframes_to_datasets Numpy.sqrt_down rows_and_means
        cohort_sampler train_df test_df true false
      = Ok (Samplers.datasets o) /\
      (forall r, In r (Pandas.index train_df) -> ~ In r (Pandas.index test_df)) /\
      (forall r, In r (Pandas.index cohort) ->
                 In r (Pandas.index train_df) \/ In r (Pandas.index test_df)) /\
      incl (Pandas.index train_df) (Pandas.index cohort) /\
      incl (Pandas.index test_df) (Pandas.index cohort) /\
      forall j ds, In (j, ds) (Samplers.inner o) ->
        exists inner_train inner_test,
          Samplers.dataframes_to_datasets Numpy.sqrt_down rows_and_means
            cohort_sampler inner_train inner_test true false
          = Ok ds /\
          (forall r, In r (Pandas.index inner_train) ->
                     ~ In r (Pandas.index inner_test)) /\
          (forall r, In r (Pandas.index train_df) ->
                     In r (Pandas.index inner_train) \/
                     In r (Pandas.index inner_test)) /\
          (forall r, In r (Pandas.index inner_train) \/
                     In r (Pandas.index inner_test) ->
                     In r (Pandas.index train_df) /\
                     ~ In r (Pandas.index test_df)).
Proof.
  destruct (Samplers.create_train_and_test_datasets Numpy.sqrt_down
              Sampling.reversal Sampling.rank_qcut rows_and_means
              cohort_sampler 2 2 true (1 # 4) false 0)
    as [[all_datasets | e] g'] eqn:Hrun; [| vm_compute in Hrun; discriminate].
  exists all_datasets, g'. split; [reflexivity |].
  exact (sampler_inner_splits_inside_outer_train Numpy.sqrt_down nat
           Sampling.reversal Sampling.rank_qcut _ rows_and_means cohort_sampler
           2 2 true (1 # 4) false 0 g' all_datasets Hrun).
Defined.

(* ====================================================================== *)
(** ** Categorical and numerical columns of a table                        *)
(* ====================================================================== *)

Section HelpersFacts.
Import Pandas Helpers.

Lemma existsb_eqb_In (c : string) (cols : list string) :
  existsb (String.eqb c) cols = true <-> In c cols.
Proof.
  rewrite existsb_exists. split.
  - intros [x [Hin Heq]]. apply String.eqb_eq in Heq. now subst.
  - intros Hin. exists c. split; [exact Hin | apply String.eqb_refl].
Qed.

Lemma append_ids_In (ids cols : list string) (c : string) :
  In c (append_ids cols ids) <-> In c cols \/ In c ids.
Proof.
  unfold append_ids. revert cols.
  induction ids as [| i ids IH]; intros cols; simpl; [tauto |].
  rewrite IH.
  destruct (existsb (String.eqb i) cols) eqn:E.
  - apply existsb_eqb_In in E. split; [tauto |].
    intros [H | [H | H]]; subst; auto.
  - rewrite in_app_iff. simpl. tauto.
Qed.

Lemma append_ids_NoDup (ids cols : list string) :
  NoDup cols -> NoDup (append_ids cols ids).
Proof.
  unfold append_ids. revert cols.
  induction ids as [| i ids IH]; intros cols Hnd; simpl; [exact Hnd |].
  apply IH. destruct (existsb (String.eqb i) cols) eqn:E; [exact Hnd |].
  assert (Hout : ~ In i cols).
  { intros H. apply existsb_eqb_In in H. congruence. }
  clear E IH. induction cols as [| c cols IHc]; simpl.
  - constructor; [tauto | constructor].
  - inversion Hnd; subst. constructor.
    + rewrite in_app_iff. simpl in *. intuition congruence.
    + apply IHc; [assumption | simpl in Hout; tauto].
Qed.

(** [df[cols]] returns the columns asked for, with their values, when they
    are all columns of [df], and raises [KeyError] otherwise. *)
Lemma getitems_outcome (df : DataFrame) (cols : list string) :
  (incl cols (column_names df) ->
   exists sub, getitems df cols = Ok sub /\
               index sub = index df /\
               column_names sub = cols /\
               forall c, In c cols -> lookup c (columns sub) = lookup c (columns df))
  /\
  (~ incl cols (column_names df) -> getitems df cols = Raise KeyError).
Proof.
  unfold getitems, column_names.
  induction cols as [| c cols [IHok IHko]]; simpl.
  - split.
    + intros _. eexists. split; [reflexivity |]. simpl. intuition.
    + intros H. exfalso. apply H. intros x [].
  - unfold getitem at 1 3.
    destruct (lookup c (columns df)) as [s |] eqn:Hc; simpl.
    + assert (Hin : In c (map fst (columns df))).
      { apply existsb_eqb_In. rewrite existsb_lookup, Hc. reflexivity. }
      split.
      * intros Hincl.
        destruct IHok as (sub & Hsub & Hidx & Hnames & Hval).
        { intros x Hx. apply Hincl. now right. }
        apply rbind_ok in Hsub. destruct Hsub as [cs [Hcs Hsub]].
        rewrite Hcs. simpl. injection Hsub as <-. simpl in Hnames, Hval.
        eexists. split; [reflexivity |]. simpl.
        split; [reflexivity | split; [now rewrite Hnames |]].
        intros x [-> | Hx].
        -- rewrite String.eqb_refl. now rewrite Hc.
        -- destruct (String.eqb_spec x c) as [-> | Hne]; [now rewrite Hc |].
           now apply Hval.
      * intros Hincl.
        assert (Hko : ~ incl cols (map fst (columns df))).
        { intros H. apply Hincl. intros x [<- | Hx]; [exact Hin | now apply H]. }
        apply IHko in Hko.
        destruct (rmap (fun c0 => rbind (getitem df c0) (fun s0 => Ok (c0, s0)))
                       cols); simpl in *; [discriminate | exact Hko].
    + split; [| reflexivity].
      intros Hincl.
      assert (Hin : In c (map fst (columns df))) by (apply Hincl; now left).
      apply existsb_eqb_In in Hin. rewrite existsb_lookup, Hc in Hin.
      discriminate.
Qed.

(** X21. When every identifier is a column of the table,
    [retrieve_categorical] and [retrieve_numerical] return two tables on the
    rows of the table, with the values of its columns: every column of the
    table is in one of them, only identifiers are in both, every identifier
    is in both, and no column appears twice when none does in the table.
    When an identifier is not a column both raise [KeyError]. *)
Theorem retrieve_categorical_and_numerical :
  forall (df : DataFrame) (ids : list string),
    (incl ids (column_names df) ->
     exists categorical numerical,
       retrieve_categorical df ids = Ok categorical /\
       retrieve_numerical df ids = Ok numerical /\
       index categorical = index df /\ index numerical = index df /\
       (forall c, In c (column_names df) ->
          In c (column_names categorical) \/ In c (column_names numerical)) /\
       (forall c, In c (column_names categorical) ->
          In c (column_names numerical) -> In c ids) /\
       (forall c, In c ids ->
          In c (column_names categorical) /\ In c (column_names numerical)) /\
       (forall c, In c (column_names categorical) ->
          lookup c (columns categorical) = lookup c (columns df)) /\
       (forall c, In c (column_names numerical) ->
          lookup c (columns numerical) = lookup c (columns df)) /\
       (NoDup (column_names df) ->
        NoDup (column_names categorical) /\ NoDup (column_names numerical)))
    /\
    (~ incl ids (column_names df) ->
     retrieve_categorical df ids = Raise KeyError /\
     retrieve_numerical df ids = Raise KeyError).
Proof.
  intros df ids. unfold retrieve_categorical, retrieve_numerical.
  set (is_cat := fun col => check_categorical_var (column df col)).
  change (fun col => negb (check_categorical_var (column df col)))
    with (fun col => negb (is_cat col)).
  split.
  - intros Hids.
    destruct (proj1 (getitems_outcome df
                       (append_ids (filter is_cat (column_names df)) ids)))
      as (categorical & Hc & Hci & Hcn & Hcv).
    { intros c Hc. apply append_ids_In in Hc. destruct Hc as [Hc | Hc].
      - apply filter_In in Hc. tauto.
      - now apply Hids. }
    destruct (proj1 (getitems_outcome df
                       (append_ids (filter (fun col => negb (is_cat col))
                                           (column_names df)) ids)))
      as (numerical & Hn & Hni & Hnn & Hnv).
    { intros c Hc'. apply append_ids_In in Hc'. destruct Hc' as [Hc' | Hc'].
      - apply filter_In in Hc'. tauto.
      - now apply Hids. }
    exists categorical, numerical.
    split; [exact Hc | split; [exact Hn |]].
    split; [exact Hci | split; [exact Hni |]].
    rewrite Hcn, Hnn.
    split; [| split; [| split; [| split; [| split]]]].
    + intros c Hin. rewrite !append_ids_In, !filter_In.
      destruct (is_cat c); simpl; auto.
    + intros c H1 H2. apply append_ids_In in H1. apply append_ids_In in H2.
      rewrite filter_In in H1, H2.
      destruct H1 as [[_ H1] | H1]; [| exact H1].
      destruct H2 as [[_ H2] | H2]; [| exact H2].
      rewrite H1 in H2. discriminate.
    + intros c Hin. rewrite !append_ids_In. auto.
    + exact Hcv.
    + exact Hnv.
    + intros Hnd. split; apply append_ids_NoDup; now apply NoDup_filter.
  - intros Hids. split; apply (proj2 (getitems_outcome df _)); intros H;
      apply Hids; intros c Hc; apply H; apply append_ids_In; now right.
Qed.

End HelpersFacts.

Lemma retrieve_categorical_and_numerical_witness :
  incl ["VO2"%string] (Pandas.column_names cohort) /\
  exists categorical numerical,
    Helpers.retrieve_categorical cohort ["VO2"%string] = Ok categorical /\
    Helpers.retrieve_numerical cohort ["VO2"%string] = Ok numerical /\
    Pandas.column_names categorical = ["LEVEL"%string; "VO2"%string] /\
    Pandas.column_names numerical = ["VO2"%string].
Proof.
  assert (Hids : incl ["VO2"%string] (Pandas.column_names cohort)).
  { intros c [<- | []]. simpl. auto. }
  split; [exact Hids |].
  destruct (proj1 (retrieve_categorical_and_numerical cohort ["VO2"%string]) Hids)
    as (categorical & numerical & Hc & Hn & _).
  exists categorical, numerical.
  split; [exact Hc | split; [exact Hn |]].
  vm_compute in Hc. vm_compute in Hn.
  injection Hc as <-. injection Hn as <-. split; reflexivity.
Defined.

(* ====================================================================== *)
(** ** The features selected                                               *)
(* ====================================================================== *)

Section FeatureSelectionFacts.
Import Numpy Pandas Sampling FeatureSelection.
Variable sort_values : list (string * Q) -> list (string * Q).
Variable round4 : Q -> Q.

(** The loop selects the rows up to the first one at which the cumulative
    importance exceeds the threshold, and all of them when none does. *)
Lemma status_loop_spec (thresh : Q) (imps : list Q) :
  forall c,
    exists m,
      status_loop thresh c imps = repeat selected m /\
      m <= length imps /\
      (imps <> [] -> 0 < m) /\
      (forall j, 0 < j < m ->
         ~ (thresh < fold_left Qplus (firstn j imps) c)%Q) /\
      (m < length imps -> (thresh < fold_left Qplus (firstn m imps) c)%Q).
Proof.
  induction imps as [| imp imps IH]; intros c.
  - exists 0. simpl. repeat split; try lia. intros H. now elim H.
  - simpl. destruct (Qlt_bool thresh (c + imp)) eqn:E.
    + exists 1. simpl. repeat split; try lia.
      intros _. now apply Qlt_bool_iff.
    + destruct (IH (c + imp)%Q) as (m & Hm & Hle & Hpos & Hbelow & Habove).
      exists (S m). rewrite Hm. simpl. repeat split; try lia.
      * intros j Hj. destruct j as [| j]; [lia |]. simpl.
        destruct j as [| j].
        -- simpl. intros H. apply Qlt_bool_iff in H. congruence.
        -- apply Hbelow. lia.
      * intros H. apply Habove. lia.
Qed.

Lemma rejected_rows (t : list (string * Q)) :
  filter (fun r : string * Q * status => is_selected (snd r))
         (map (fun rs => (fst (fst rs), round4 (snd (fst rs)), snd rs))
              (combine t (repeat rejected (length t)))) = [].
Proof.
  induction t as [| x t IH]; simpl; [reflexivity | exact IH].
Qed.

Lemma selected_rows (m : nat) :
  forall t : list (string * Q),
    m <= length t ->
    map (fun r : string * Q * status => fst (fst r))
        (filter (fun r => is_selected (snd r))
           (map (fun rs => (fst (fst rs), round4 (snd (fst rs)), snd rs))
                (combine t (repeat selected m ++ repeat rejected (length t - m)))))
    = map fst (firstn m t).
Proof.
  induction m as [| m IH]; intros t Hm.
  - simpl. rewrite Nat.sub_0_r, rejected_rows. reflexivity.
  - destruct t as [| x t]; [simpl in Hm; lia |].
    simpl. f_equal. apply IH. simpl in Hm. lia.
Qed.

(** X22. On as many importances as features, [FeatureSelector]
    returns the continuous and the categorical columns, in their order, that
    are among the first [m] features of the table sorted by importance,
    where [m] is the first count at which the cumulative importance exceeds
    the threshold, or the number of features when it never does: at least
    one feature is selected, before the rounding of the importances. *)
Theorem feature_selector_keeps_leading_features :
  forall (thresh : Q) (features : list string) (imps : list Q)
         (cont_cols cat_cols : option (list string)),
    length features = length imps ->
    let fi_table := sort_values (combine features imps) in
    exists m,
      m <= length fi_table /\
      (fi_table <> [] -> 0 < m) /\
      (forall j, 0 < j < m ->
         ~ (thresh < fold_left Qplus (firstn j (map snd fi_table)) 0)%Q) /\
      (m < length fi_table ->
       (thresh < fold_left Qplus (firstn m (map snd fi_table)) 0)%Q) /\
      let keep :=
        filter (fun c => existsb (String.eqb c) (map fst (firstn m fi_table))) in
      FeatureSelector__call__ sort_values round4 thresh features imps
                              cont_cols cat_cols
      = Ok (option_map keep cont_cols, option_map keep cat_cols).
Proof.
  intros thresh features imps cont_cols cat_cols Hlen fi_table.
  destruct (status_loop_spec thresh (map snd fi_table) 0%Q)
    as (m & Hm & Hle & Hpos & Hbelow & Habove).
  rewrite length_map in Hle, Habove.
  exists m. split; [exact Hle | split; [| split; [exact Hbelow | split]]].
  - intros Hne. apply Hpos. destruct fi_table; [now elim Hne | discriminate].
  - exact Habove.
  - intros keep.
    unfold FeatureSelector__call__, get_features_importance.
    rewrite Hlen, Nat.eqb_refl. simpl. fold fi_table.
    rewrite Hm, repeat_length, (selected_rows m fi_table Hle).
    reflexivity.
Qed.

End FeatureSelectionFacts.

Lemma feature_selector_keeps_leading_features_witness :
  let features := ["AGE"; "SEX"; "VO2"]%string in
  let imps := [1 # 5; 1 # 2; 3 # 10]%Q in
  length features = length imps /\
  FeatureSelection.FeatureSelector__call__ by_importance four_decimals (3 # 4)
    features imps (Some ["AGE"; "VO2"]%string) (Some ["SEX"%string])
  = Ok (Some ["VO2"%string], Some ["SEX"%string]) /\
  let fi_table := by_importance (combine features imps) in
  exists m,
    m <= length fi_table /\
    (fi_table <> [] -> 0 < m) /\
    (forall j, 0 < j < m ->
       ~ (3 # 4 < fold_left Qplus (firstn j (map snd fi_table)) 0)%Q) /\
    (m < length fi_table ->
     (3 # 4 < fold_left Qplus (firstn m (map snd fi_table)) 0)%Q) /\
    let keep :=
      filter (fun c => existsb (String.eqb c) (map fst (firstn m fi_table))) in
    FeatureSelection.FeatureSelector__call__ by_importance four_decimals (3 # 4)
      features imps (Some ["AGE"; "VO2"]%string) (Some ["SEX"%string])
    = Ok (option_map keep (Some ["AGE"; "VO2"]%string),
          option_map keep (Some ["SEX"%string])).
Proof.
  intros features imps.
  split; [reflexivity | split; [vm_compute; reflexivity |]].
  exact (feature_selector_keeps_leading_features by_importance four_decimals
           (3 # 4) features imps (Some ["AGE"; "VO2"]%string)
           (Some ["SEX"%string]) eq_refl).
Defined.

(* ====================================================================== *)
(** ** The sampler's dictionaries in the evaluator and in the trainer      *)
(* ====================================================================== *)

Section FoldFacts.
Import Numpy Pandas Sampling Samplers Folds.
Variable sqrt : Q -> Q.
Variable rng : Type.
Variable permutation : rng -> nat -> list nat * rng.
Variable qcut : Series -> nat -> result Series.
Variable PetaleDataset : Type.
Variable PetaleDataset__init__ :
  DataFrame -> list string -> string -> option (list string) -> bool ->
  option Labelled -> option Labelled -> bool -> result PetaleDataset.

Lemma dict_getitem_int_outcome {V} (key : nat) (d : list (nat * V)) :
  dict_getitem_int key d = Raise KeyError \/
  exists v, dict_getitem_int key d = Ok v /\ In (key, v) d.
Proof.
  induction d as [| [k v] d IH]; simpl; [now left |].
  destruct (Nat.eqb_spec k key) as [-> | Hne].
  - right. exists v. auto.
  - destruct IH as [IH | [v' [IH Hin]]]; [now left |].
    right. exists v'. auto.
Qed.

(** The dictionary of [dataframes_to_datasets] has no key ["valid"]. *)
Lemma get_datasets_of_split (self : Sampler) (train_df test_df : DataFrame)
  (split_cat add_biases : bool) (ds : Datasets PetaleDataset) :
  dataframes_to_datasets sqrt PetaleDataset__init__ self train_df test_df
                         split_cat add_biases = Ok ds ->
  get_datasets ds = Raise KeyError.
Proof.
  unfold dataframes_to_datasets. intros H.
  apply rbind_ok in H. destruct H as [sub [_ H]].
  apply rbind_ok in H. destruct H as [mean [_ H]].
  apply rbind_ok in H. destruct H as [sub' [_ H]].
  apply rbind_ok in H. destruct H as [std [_ H]].
  apply rbind_ok in H. destruct H as [train_ds [_ H]].
  apply rbind_ok in H. destruct H as [test_ds [_ H]].
  inversion H; subst. reflexivity.
Qed.

(** No entry of the sampler's dictionary, at either level, gives its three
    sets. *)
Lemma get_datasets_of_sampler (self : Sampler) (k l : nat)
  (split_cat : bool) (test_size : Q) (add_biases : bool) (g g' : rng)
  (all_datasets : list (nat * OuterDatasets PetaleDataset)) :
  create_train_and_test_datasets sqrt permutation qcut PetaleDataset__init__
    self k l split_cat test_size add_biases g
  = (Ok all_datasets, g') ->
  forall i o, In (i, o) all_datasets ->
    get_datasets (datasets o) = Raise KeyError /\
    forall j ds, In (j, ds) (inner o) -> get_datasets ds = Raise KeyError.
Proof.
  intros Hrun i o Ho.
  unfold create_train_and_test_datasets in Hrun.
  apply outer_loop_spec in Hrun; [| apply seq_NoDup].
  destruct Hrun as [_ Hall]. destruct (Hall _ _ Ho) as [[] | H].
  destruct H as (train_df & test_df & g1 & g2 & _ & Hds & _ & Hinner).
  split; [exact (get_datasets_of_split _ _ _ _ _ _ Hds) |].
  intros j ds Hj.
  destruct (Hinner _ _ Hj) as (itr & ite & g3 & g4 & _ & Hds').
  exact (get_datasets_of_split _ _ _ _ _ _ Hds').
Qed.

Section InTheEvaluator.
Import Evaluator.
Local Set Warnings "-notation-for-abbreviation".
Variables Hyper Importance Model Pred : Type.
Local Notation Data := (PetaleDataset * PetaleDataset * PetaleDataset)%type.
Variable tune : nat -> Data -> result (Hyper * Importance).
Variable fit : nat -> Data -> Hyper -> result Model.
Variable predict : nat -> Data -> Model -> result Pred.
Variable summarize : result unit.

(** X23. On a [Sampler], whose dictionaries have the keys
    ["train"] and ["test"] and no key ["valid"], a nested cross-validation of
    one fold or more raises before anything is recorded: what the sampler
    raises or, when the sampler returns, the [KeyError] of [get_datasets]
    in the first fold. *)
Theorem nested_cross_valid_on_a_sampler :
  forall (sampling : Sampler) (g : rng) (self : Evaluator Data Pred)
         (files : Recordings Hyper Importance Model Pred),
    0 < k self ->
    exists e,
      nested_cross_valid
        (sampler sqrt permutation qcut PetaleDataset__init__ sampling g)
        tune fit predict summarize self files
      = (Raise e, files) /\
      (is_ok (fst (create_train_and_test_datasets sqrt permutation qcut
                     PetaleDataset__init__ sampling (k self) (l self)
                     true (1 # 5) false g)) = true ->
       e = KeyError).
Proof.
  intros sampling g self files Hk.
  unfold nested_cross_valid, sampler, bind, lift.
  destruct (create_train_and_test_datasets sqrt permutation qcut
              PetaleDataset__init__ sampling (k self) (l self)
              true (1 # 5) false g) as [[all | e] g'] eqn:Hrun; simpl.
  2:{ exists e. split; [reflexivity | discriminate]. }
  exists KeyError. split; [| reflexivity].
  destruct (k self) as [| n] eqn:Hn; [lia |].
  simpl. unfold bind, outer_fold, bind, lift, run_fold.
  destruct (dict_getitem_int_outcome 0 all) as [H0 | [o [H0 Hin]]];
    rewrite H0; simpl; [reflexivity |].
  rewrite <- Hn in Hrun.
  rewrite (proj1 (get_datasets_of_sampler _ _ _ _ _ _ _ _ _ Hrun _ _ Hin)).
  reflexivity.
Qed.

End InTheEvaluator.

(** X24. On the inner dictionaries of a [Sampler], the
    subprocess of [Trainer.define_subprocess] raises [KeyError] on every
    split, for want of the key ["valid"] or of the split, so that
    [inner_random_subsampling] on one split or more raises [KeyError]
    whatever the training and the scoring do. *)
Theorem inner_random_subsampling_on_a_sampler :
  forall (fit_and_score : PetaleDataset -> PetaleDataset -> PetaleDataset ->
                          result float)
         (self : Sampler) (k l : nat) (split_cat : bool) (test_size : Q)
         (add_biases : bool) (g g' : rng)
         (all_datasets : list (nat * OuterDatasets PetaleDataset)),
    create_train_and_test_datasets sqrt permutation qcut PetaleDataset__init__
      self k l split_cat test_size add_biases g
    = (Ok all_datasets, g') ->
    forall i o, In (i, o) all_datasets ->
      (forall j, subprocess fit_and_score (inner o) j = Raise KeyError) /\
      forall n, 0 < n ->
        Trainer.inner_random_subsampling sqrt true
          (subprocess fit_and_score (inner o)) n
        = Raise KeyError.
Proof.
  intros fit_and_score self k l split_cat test_size add_biases g g' all Hrun
         i o Ho.
  assert (Hsub : forall j, subprocess fit_and_score (inner o) j = Raise KeyError).
  { intros j. unfold subprocess.
    destruct (dict_getitem_int_outcome j (inner o)) as [Hj | [ds [Hj Hin]]];
      rewrite Hj; simpl; [reflexivity |].
    rewrite (proj2 (get_datasets_of_sampler _ _ _ _ _ _ _ _ _ Hrun _ _ Ho)
               _ _ Hin).
    reflexivity. }
  split; [exact Hsub |].
  intros n Hn. unfold Trainer.inner_random_subsampling. simpl.
  destruct n as [| n]; [lia |]. simpl. rewrite Hsub. reflexivity.
Qed.

End FoldFacts.

Lemma nested_cross_valid_on_a_sampler_witness :
  let tune := fun (_ : nat) (_ : rows * rows * rows) => Ok (tt, tt) in
  let fit := fun (_ : nat) (_ : rows * rows * rows) (_ : unit) => Ok tt in
  let predict := fun (_ : nat) (_ : rows * rows * rows) (_ : unit) => Ok tt in
  0 < Evaluator.k two_folds_on_rows /\
  is_ok (fst (Samplers.create_train_and_test_datasets Numpy.sqrt_down
                Sampling.reversal Sampling.rank_qcut rows_and_means
                cohort_sampler 2 2 true (1 # 5) false 0)) = true /\
  exists e,
    Evaluator.nested_cross_valid
      (Folds.sampler Numpy.sqrt_down Sampling.reversal Sampling.rank_qcut
                     rows_and_means cohort_sampler 0)
      tune fit predict (Ok tt) two_folds_on_rows []
    = (Raise e, []) /\
    (is_ok (fst (Samplers.create_train_and_test_datasets Numpy.sqrt_down
                   Sampling.reversal Sampling.rank_qcut rows_and_means
                   cohort_sampler 2 2 true (1 # 5) false 0)) = true ->
     e = KeyError).
Proof.
  intros tune fit predict.
  assert (Hk : 0 < Evaluator.k two_folds_on_rows) by (simpl; lia).
  split; [exact Hk | split; [vm_compute; reflexivity |]].
  exact (nested_cross_valid_on_a_sampler Numpy.sqrt_down nat Sampling.reversal
           Sampling.rank_qcut rows rows_and_means unit unit unit unit
           tune fit predict (Ok tt) cohort_sampler 0 two_folds_on_rows [] Hk).
Defined.

Lemma inner_random_subsampling_on_a_sampler_witness :
  exists all_datasets g' o,
    Samplers.create_train_and_test_datasets Numpy.sqrt_down Sampling.reversal
      Sampling.rank_qcut rows_and_means cohort_sampler 2 2 true (1 # 4) false 0
    = (Ok all_datasets, g') /\
    In (0, o) all_datasets /\
    0 < 2 /\
    Trainer.inner_random_subsampling Numpy.sqrt_down true
      (Folds.subprocess unit_score (Samplers.inner o)) 2
    = Raise KeyError.
Proof.
  destruct (Samplers.create_train_and_test_datasets Numpy.sqrt_down
              Sampling.reversal Sampling.rank_qcut rows_and_means
              cohort_sampler 2 2 true (1 # 4) false 0)
    as [[all_datasets | e] g'] eqn:Hrun; [| vm_compute in Hrun; discriminate].
  pose proof Hrun as Hc. vm_compute in Hc. injection Hc as Hall _.
  destruct all_datasets as [| [i o] rest]; [discriminate |].
  injection Hall as Hi _ _.
  assert (Hin : In (0, o) ((i, o) :: rest)) by (left; now rewrite <- Hi).
  assert (Hn : 0 < 2) by lia.
  exists ((i, o) :: rest), g', o.
  split; [reflexivity | split; [exact Hin | split; [exact Hn |]]].
  exact (proj2 (inner_random_subsampling_on_a_sampler Numpy.sqrt_down nat
                  Sampling.reversal Sampling.rank_qcut rows rows_and_means
                  unit_score cohort_sampler 2 2 true (1 # 4) false 0 g'
                  ((i, o) :: rest) Hrun 0 o Hin) 2 Hn).
Defined.
